(** * RUGGUARD: the scoring and trust-decision pipeline

    A shallow embedding of the decision logic of the bot
    ([bot/analyzer.py], [bot/trusted_accounts.py], [bot/report_generator.py],
    [bot/monitor.py], [main.py], [config.py]) and the properties its
    specification states about it.

    The Python code is dynamically typed and absorbs failures with
    [try ... except Exception]; the embedding keeps both: values are an
    inductive type of Python objects, every operation that can raise returns
    a [result], and each [try] block becomes a [match] on that result.

    Layout: the definitions (float arithmetic, Python values, the modules
    of the bot), then the lemmas and theorems of the specification, then
    the properties of the code around them. *)

From Stdlib Require Import ZArith NArith QArith Qround Qabs Qpower.
From Stdlib Require Import Lia Lqa List Bool String Ascii Sorted.
Import ListNotations.

(* ================================================================== *)
(** * Part I: definitions *)
(* ================================================================== *)

(** ** Python floats

    A Python [float] is an IEEE-754 binary64 number.  Finite floats are
    carried by the rational they denote; every arithmetic operation computes
    the exact rational result and rounds it to the nearest binary64 number,
    ties to even ([fl]), with gradual underflow and overflow to infinity.
    The sign of zero is not represented. *)
Module Float64.

Open Scope Q_scope.

(** Smallest exponent of the format: subnormals are multiples of [2^emin]. *)
Definition emin : Z := -1074.

(** [ilog2 x] is the integer [k] with [2^k <= x < 2^(k+1)], for [0 < x]. *)
Definition ilog2 (x : Q) : Z :=
  let k := (Z.log2 (Qnum x) - Z.log2 (Zpos (Qden x)))%Z in
  if Qle_bool (2 ^ k) x then k else (k - 1)%Z.

(** Exponent of the unit in the last place of [x]: 53 significant bits. *)
Definition cexp (x : Q) : Z := Z.max (ilog2 x - 52) emin.

(** Rounding of a rational to the nearest integer, ties to even. *)
Definition rne (x : Q) : Z :=
  let f := Qfloor x in
  match Qcompare (x - inject_Z f) (1 # 2) with
  | Lt => f
  | Gt => (f + 1)%Z
  | Eq => if Z.even f then f else (f + 1)%Z
  end.

Definition fl_pos (x : Q) : Q :=
  let e := cexp x in inject_Z (rne (x / 2 ^ e)) * 2 ^ e.

Definition fl_raw (x : Q) : Q :=
  match Qcompare x 0 with
  | Eq => 0
  | Gt => fl_pos x
  | Lt => - fl_pos (- x)
  end.

(** Round to nearest binary64, exponent range unbounded above. *)
Definition fl (x : Q) : Q := Qred (fl_raw x).

Inductive pyfloat : Type :=
| FFin (q : Q)
| FInf (neg : bool)
| FNan.

(** Rounding with overflow: a result of magnitude [2^1024] or more is
    infinite. *)
Definition fl_ov (q : Q) : pyfloat :=
  let r := fl q in
  if Qle_bool (2 ^ 1024) (Qabs r) then FInf (negb (Qle_bool 0 r)) else FFin r.

Definition Qneg (q : Q) : bool := negb (Qle_bool 0 q).
Definition Qltb (x y : Q) : bool := negb (Qle_bool y x).

Definition fneg (a : pyfloat) : pyfloat :=
  match a with
  | FFin q => FFin (Qred (- q))
  | FInf s => FInf (negb s)
  | FNan => FNan
  end.

Definition fadd (a b : pyfloat) : pyfloat :=
  match a, b with
  | FNan, _ | _, FNan => FNan
  | FInf s, FInf t => if Bool.eqb s t then FInf s else FNan
  | FInf s, FFin _ => FInf s
  | FFin _, FInf t => FInf t
  | FFin x, FFin y => fl_ov (x + y)
  end.

Definition fsub (a b : pyfloat) : pyfloat := fadd a (fneg b).

Definition fmul (a b : pyfloat) : pyfloat :=
  match a, b with
  | FNan, _ | _, FNan => FNan
  | FInf s, FInf t => FInf (xorb s t)
  | FInf s, FFin y => if Qeq_bool y 0 then FNan else FInf (xorb s (Qneg y))
  | FFin x, FInf t => if Qeq_bool x 0 then FNan else FInf (xorb (Qneg x) t)
  | FFin x, FFin y => fl_ov (x * y)
  end.

(** Division by a non-zero float (Python raises on a zero divisor before the
    hardware division is reached). *)
Definition fdiv (a b : pyfloat) : pyfloat :=
  match a, b with
  | FNan, _ | _, FNan => FNan
  | FInf _, FInf _ => FNan
  | FInf s, FFin y => FInf (xorb s (Qneg y))
  | FFin _, FInf _ => FFin 0
  | FFin x, FFin y => fl_ov (x / y)
  end.

Definition is_zero (a : pyfloat) : bool :=
  match a with FFin q => Qeq_bool q 0 | _ => false end.

(** [a < b]; every comparison with a NaN is false. *)
Definition flt (a b : pyfloat) : bool :=
  match a, b with
  | FNan, _ | _, FNan => false
  | FInf s, FInf t => s && negb t
  | FInf s, FFin _ => s
  | FFin _, FInf t => negb t
  | FFin x, FFin y => Qltb x y
  end.

Definition feq (a b : pyfloat) : bool :=
  match a, b with
  | FFin x, FFin y => Qeq_bool x y
  | FInf s, FInf t => Bool.eqb s t
  | _, _ => false
  end.

(** [float.__round__(x, ndigits)] for [0 <= ndigits]: the decimal with
    [ndigits] fractional digits nearest to the exact value of [x] (ties to
    even), converted back to the nearest float.  [None] stands for the
    [OverflowError] of a result too large to represent. *)
Definition fround (a : pyfloat) (ndigits : Z) : option pyfloat :=
  match a with
  | FFin q =>
      let p := inject_Z (10 ^ ndigits) in
      match fl_ov (inject_Z (rne (q * p)) / p) with
      | FInf _ => None
      | r => Some r
      end
  | _ => Some a
  end.

(** The quotient of [float.__floordiv__] by a finite non-zero divisor
    ([_float_div_mod] of CPython): the remainder [fmod] is exact, the
    quotient is computed in floating point and snapped to the nearest
    integral value. *)
Definition ffloordiv (a : pyfloat) (wx : Q) : pyfloat :=
  match a with
  | FFin vx =>
      let c := vx / wx in
      let t := if Qneg c then (- Qfloor (- c))%Z else Qfloor c in
      let md := vx - wx * inject_Z t in
      let div := fdiv (fsub a (FFin md)) (FFin wx) in
      let div := if negb (Qeq_bool md 0) && negb (Bool.eqb (Qneg wx) (Qneg md))
                 then fsub div (FFin 1) else div in
      match div with
      | FFin d =>
          if Qeq_bool d 0 then FFin 0
          else
            let f := inject_Z (Qfloor d) in
            if Qltb (1 # 2) (d - f) then fadd (FFin f) (FFin 1) else FFin (Qred f)
      | other => other
      end
  | _ => FNan
  end.

(** Python numbers: arbitrary-precision [int] and [float]. *)
Inductive number : Type :=
| NInt (z : Z)
| NFloat (f : pyfloat).

(** The exact value of a number as an (extended) rational: mixed comparisons
    of [int] and [float] are exact in Python. *)
Definition exact (n : number) : pyfloat :=
  match n with
  | NInt z => FFin (inject_Z z)
  | NFloat f => f
  end.

(** Conversion of an operand of a mixed operation to [float]. *)
Definition to_float (n : number) : pyfloat :=
  match n with
  | NInt z => fl_ov (inject_Z z)
  | NFloat f => f
  end.

(** [int -> float] raises [OverflowError] when the integer is too large. *)
Definition converts (n : number) : bool :=
  match n with
  | NInt z => match fl_ov (inject_Z z) with FInf _ => false | _ => true end
  | NFloat _ => true
  end.

Definition num_ltb (a b : number) : bool :=
  match a, b with
  | NInt x, NInt y => (x <? y)%Z
  | _, _ => flt (exact a) (exact b)
  end.

Definition num_eqb (a b : number) : bool :=
  match a, b with
  | NInt x, NInt y => (x =? y)%Z
  | _, _ => feq (exact a) (exact b)
  end.

(** [a <= b] *)
Definition num_leb (a b : number) : bool := num_ltb a b || num_eqb a b.

Definition nadd (a b : number) : number :=
  match a, b with
  | NInt x, NInt y => NInt (x + y)
  | _, _ => NFloat (fadd (to_float a) (to_float b))
  end.

Definition nsub (a b : number) : number :=
  match a, b with
  | NInt x, NInt y => NInt (x - y)
  | _, _ => NFloat (fsub (to_float a) (to_float b))
  end.

Definition nmul (a b : number) : number :=
  match a, b with
  | NInt x, NInt y => NInt (x * y)
  | _, _ => NFloat (fmul (to_float a) (to_float b))
  end.

(** The float literals of the source. *)
Definition f0_1 : pyfloat := FFin (fl (1 # 10)).
Definition f0_3 : pyfloat := FFin (fl (3 # 10)).
Definition f0_5 : pyfloat := FFin (1 # 2).
Definition f50 : pyfloat := FFin 50.

End Float64.

(** ** Python values and the operations the bot uses *)
Module Py.
Import Float64.

(** A [str] is a sequence of Unicode code points; [len] counts them. *)
Definition codepoint : Type := N.
Definition pystr : Type := list codepoint.

(** An ASCII literal of the source. *)
Definition lit (s : string) : pystr := map N_of_ascii (list_ascii_of_string s).

Definition NL : codepoint := 10%N.

Inductive exn : Type :=
| TypeError
| KeyError
| AttributeError
| IndexError
| OverflowError
| ZeroDivisionError
| UnboundLocalError
| ValueError
| LibraryError.

Inductive result (A : Type) : Type :=
| Ok (a : A)
| Raise (e : exn).
Arguments Ok {A} a.
Arguments Raise {A} e.

Definition bind {A B : Type} (m : result A) (k : A -> result B) : result B :=
  match m with
  | Ok a => k a
  | Raise e => Raise e
  end.

Notation "'let*' x ':=' m 'in' k" := (bind m (fun x => k))
  (at level 10, x name, m at level 100, k at level 200).

(** [try: body except Exception: return default]. *)
Definition except {A : Type} (body : result A) (default : A) : A :=
  match body with
  | Ok a => a
  | Raise _ => default
  end.

(** Python objects.  A [dict] is the list of its items in insertion order,
    keyed by [str]; a [datetime] is its wall-clock time in microseconds and
    whether it carries a [tzinfo]. *)
#[warning="-register-all"]
Inductive value : Type :=
| VNone
| VBool (b : bool)
| VInt (z : Z)
| VFloat (f : pyfloat)
| VStr (s : pystr)
| VList (l : list value)
| VDict (d : list (pystr * value))
| VDatetime (t : Z) (aware : bool).

(** *** Strings *)

Fixpoint str_eqb (a b : pystr) : bool :=
  match a, b with
  | [], [] => true
  | x :: a', y :: b' => N.eqb x y && str_eqb a' b'
  | _, _ => false
  end.

(** [s.startswith(p)] *)
Fixpoint startswith (p s : pystr) : bool :=
  match p, s with
  | [], _ => true
  | x :: p', y :: s' => N.eqb x y && startswith p' s'
  | _ :: _, [] => false
  end.

(** [sub in s] *)
Fixpoint str_in (sub s : pystr) : bool :=
  startswith sub s ||
  match s with
  | [] => false
  | _ :: s' => str_in sub s'
  end.

(** [sep.join(parts)] on strings. *)
Fixpoint join (sep : pystr) (parts : list pystr) : pystr :=
  match parts with
  | [] => []
  | [p] => p
  | p :: rest => p ++ sep ++ join sep rest
  end.

(** [s[:n]] for [0 <= n]. *)
Definition slice_to (n : Z) (s : pystr) : pystr := firstn (Z.to_nat n) s.
Arguments slice_to : simpl never.

(** [s.split(c)] for a separator of one code point. *)
Fixpoint split_char (c : codepoint) (s : pystr) : list pystr :=
  match s with
  | [] => [[]]
  | x :: s' =>
      if N.eqb x c then [] :: split_char c s'
      else match split_char c s' with
           | h :: t => (x :: h) :: t
           | [] => [[x]]
           end
  end.

(** [str.isspace] on one code point (CPython's [_PyUnicode_IsWhitespace]). *)
Definition is_space (c : codepoint) : bool :=
  ((9 <=? c) && (c <=? 13) || (28 <=? c) && (c <=? 32) ||
   (c =? 0x85) || (c =? 0xA0) || (c =? 0x1680) ||
   (0x2000 <=? c) && (c <=? 0x200A) ||
   (c =? 0x2028) || (c =? 0x2029) || (c =? 0x202F) || (c =? 0x205F) ||
   (c =? 0x3000))%N.

Fixpoint lstrip_by (p : codepoint -> bool) (s : pystr) : pystr :=
  match s with
  | [] => []
  | x :: s' => if p x then lstrip_by p s' else s
  end.

(** [s.strip()] *)
Definition strip (s : pystr) : pystr :=
  rev (lstrip_by is_space (rev (lstrip_by is_space s))).

(** [s.lstrip(c)] for a set of one code point. *)
Definition lstrip_char (c : codepoint) (s : pystr) : pystr :=
  lstrip_by (N.eqb c) s.

(** [s.split()]: the maximal runs of non-whitespace; [cur] is the run being
    read, reversed. *)
Fixpoint split_ws_from (cur : pystr) (s : pystr) : list pystr :=
  match s with
  | [] => match cur with [] => [] | _ => [rev cur] end
  | x :: s' =>
      if is_space x
      then match cur with
           | [] => split_ws_from [] s'
           | _ => rev cur :: split_ws_from [] s'
           end
      else split_ws_from (x :: cur) s'
  end.

Definition split_ws (s : pystr) : list pystr := split_ws_from [] s.

(** [a < b] on strings: the lexicographic order of the code points. *)
Fixpoint str_ltb (a b : pystr) : bool :=
  match a, b with
  | _, [] => false
  | [], _ :: _ => true
  | x :: a', y :: b' => (x <? y)%N || ((x =? y)%N && str_ltb a' b')
  end.

Fixpoint repeat_list {A : Type} (l : list A) (n : nat) : list A :=
  match n with
  | O => []
  | S n' => l ++ repeat_list l n'
  end.

(** Decimal rendering of an [int]. *)
Fixpoint uint_codes (u : Decimal.uint) : pystr :=
  match u with
  | Decimal.Nil => []
  | Decimal.D0 u => 48%N :: uint_codes u
  | Decimal.D1 u => 49%N :: uint_codes u
  | Decimal.D2 u => 50%N :: uint_codes u
  | Decimal.D3 u => 51%N :: uint_codes u
  | Decimal.D4 u => 52%N :: uint_codes u
  | Decimal.D5 u => 53%N :: uint_codes u
  | Decimal.D6 u => 54%N :: uint_codes u
  | Decimal.D7 u => 55%N :: uint_codes u
  | Decimal.D8 u => 56%N :: uint_codes u
  | Decimal.D9 u => 57%N :: uint_codes u
  end.

Definition str_of_Z (z : Z) : pystr :=
  match Z.to_int z with
  | Decimal.Pos u => uint_codes u
  | Decimal.Neg u => 45%N :: uint_codes u
  end.

(** The parts of the Python runtime and of the libraries the bot calls that
    are not modelled: they are parameters of the development. *)
Record Runtime : Type := {
  (** [repr] of a float, as used by [str] and f-strings *)
  float_repr : pyfloat -> pystr;
  (** [sys.get_int_max_str_digits()]: the longest decimal rendering of an
      [int] that [str] accepts (4300 by default), or 0 where there is no
      limit *)
  int_max_str_digits : Z;
  (** [str] of a list, a dict or a datetime; it raises where an item
      cannot be rendered *)
  object_repr : value -> result pystr;
  (** [str.lower], the Unicode case mapping *)
  str_lower : pystr -> pystr;
  (** [TextBlob(text).sentiment.polarity] *)
  polarity : pystr -> result pyfloat;
  (** [datetime.strftime('%Y-%m-%d')] of a wall-clock time *)
  strftime_ymd : Z -> pystr
}.

(** A runtime for the examples: ASCII lower-casing and fixed renderings. *)
Definition ascii_lower (c : codepoint) : codepoint :=
  if ((65 <=? c) && (c <=? 90))%N then (c + 32)%N else c.

Definition example_runtime : Runtime := {|
  float_repr := fun _ => lit "0.0";
  int_max_str_digits := 4300;
  object_repr := fun _ => Ok (lit "{}");
  str_lower := map ascii_lower;
  polarity := fun _ => Ok (FFin 0);
  strftime_ymd := fun _ => lit "2020-01-01"
|}.

(** *** Dynamic operations *)

Fixpoint lookup (k : pystr) (d : list (pystr * value)) : option value :=
  match d with
  | [] => None
  | (k', v) :: d' => if str_eqb k k' then Some v else lookup k d'
  end.

(** Truth value of an object, as tested by [if], [not], [and], [or]. *)
Definition truthy (v : value) : bool :=
  match v with
  | VNone => false
  | VBool b => b
  | VInt z => negb (z =? 0)%Z
  | VFloat f => negb (is_zero f)
  | VStr s => match s with [] => false | _ => true end
  | VList l => match l with [] => false | _ => true end
  | VDict d => match d with [] => false | _ => true end
  | VDatetime _ _ => true
  end.

(** [v[k]] for a string key. *)
Definition getitem (v : value) (k : pystr) : result value :=
  match v with
  | VDict d => match lookup k d with Some x => Ok x | None => Raise KeyError end
  | _ => Raise TypeError
  end.

(** [v.get(k, default)] *)
Definition dict_get (v : value) (k : pystr) (default : value) : result value :=
  match v with
  | VDict d => Ok (match lookup k d with Some x => x | None => default end)
  | _ => Raise AttributeError
  end.

(** [v == 'literal'] *)
Definition eq_str (v : value) (s : pystr) : bool :=
  match v with
  | VStr s' => str_eqb s' s
  | _ => false
  end.

(** The numeric types: [bool] is a subclass of [int]. *)
Definition to_number (v : value) : option number :=
  match v with
  | VBool b => Some (NInt (if b then 1 else 0))
  | VInt z => Some (NInt z)
  | VFloat f => Some (NFloat f)
  | _ => None
  end.

Definition of_number (n : number) : value :=
  match n with
  | NInt z => VInt z
  | NFloat f => VFloat f
  end.

(** [v < c] and [v > c] against a numeric literal [c]: defined on numbers,
    [TypeError] on everything else. *)
Definition lt_num (v : value) (c : number) : result bool :=
  match to_number v with
  | Some n => Ok (num_ltb n c)
  | None => Raise TypeError
  end.

Definition gt_num (v : value) (c : number) : result bool :=
  match to_number v with
  | Some n => Ok (num_ltb c n)
  | None => Raise TypeError
  end.

(** [a <= b] holds of two objects: both are numbers and compare so. *)
Definition le_values (a b : value) : Prop :=
  exists x y, to_number a = Some x /\ to_number b = Some y /\ num_leb x y = true.

(** [a == b] holds of two numbers, whatever their types. *)
Definition eq_values (a b : value) : Prop :=
  exists x y, to_number a = Some x /\ to_number b = Some y /\ num_eqb x y = true.

(** [v == c] against a numeric literal never raises. *)
Definition eq_num (v : value) (c : number) : bool :=
  match to_number v with
  | Some n => num_eqb n c
  | None => false
  end.

(** Arithmetic of two numbers: exact on integers, in floating point as soon
    as one operand is a float, the other one being converted first. *)
Definition arith (op : number -> number -> number) (a b : number) : result value :=
  match a, b with
  | NInt _, NInt _ => Ok (of_number (op a b))
  | _, _ =>
      if converts a && converts b then Ok (of_number (op a b))
      else Raise OverflowError
  end.

(** [a + b] *)
Definition add (a b : value) : result value :=
  match to_number a, to_number b with
  | Some x, Some y => arith nadd x y
  | _, _ =>
      match a, b with
      | VStr s, VStr t => Ok (VStr (s ++ t))
      | VList l, VList m => Ok (VList (l ++ m))
      | _, _ => Raise TypeError
      end
  end.

(** [a - b] *)
Definition sub (a b : value) : result value :=
  match to_number a, to_number b with
  | Some x, Some y => arith nsub x y
  | _, _ => Raise TypeError
  end.

(** [a * b] *)
Definition mul (a b : value) : result value :=
  match to_number a, to_number b with
  | Some x, Some y => arith nmul x y
  | Some (NInt n), None =>
      match b with
      | VStr s => Ok (VStr (repeat_list s (Z.to_nat n)))
      | VList l => Ok (VList (repeat_list l (Z.to_nat n)))
      | _ => Raise TypeError
      end
  | None, Some (NInt n) =>
      match a with
      | VStr s => Ok (VStr (repeat_list s (Z.to_nat n)))
      | VList l => Ok (VList (repeat_list l (Z.to_nat n)))
      | _ => Raise TypeError
      end
  | _, _ => Raise TypeError
  end.

(** [a / b]: the quotient of two integers is rounded once. *)
Definition truediv (a b : value) : result value :=
  match to_number a, to_number b with
  | Some x, Some y =>
      if num_eqb y (NInt 0) then Raise ZeroDivisionError
      else match x, y with
           | NInt n, NInt d =>
               match fl_ov (inject_Z n / inject_Z d) with
               | FInf _ => Raise OverflowError
               | q => Ok (VFloat q)
               end
           | _, _ =>
               if converts x && converts y
               then Ok (VFloat (fdiv (to_float x) (to_float y)))
               else Raise OverflowError
           end
  | _, _ => Raise TypeError
  end.

(** [a // c] for a positive integer literal [c]. *)
Definition floordiv_lit (a : value) (c : Z) : result value :=
  match to_number a with
  | Some (NInt n) => Ok (VInt (n / c))
  | Some (NFloat f) => Ok (VFloat (ffloordiv f (inject_Z c)))
  | None => Raise TypeError
  end.

(** [min(c, v)] and [max(c, v)] with the literal first: the first argument
    is kept unless the second is strictly smaller (resp. larger). *)
Definition min_lit (c : Z) (v : value) : result value :=
  let* smaller := lt_num v (NInt c) in
  Ok (if smaller then v else VInt c).

Definition max_lit (c : Z) (v : value) : result value :=
  let* larger := gt_num v (NInt c) in
  Ok (if larger then v else VInt c).

(** [round(v, ndigits)] for [0 <= ndigits]. *)
Definition round (v : value) (ndigits : Z) : result value :=
  match v with
  | VInt z => Ok (VInt z)
  | VBool b => Ok (VInt (if b then 1 else 0))
  | VFloat f =>
      match fround f ndigits with
      | Some r => Ok (VFloat r)
      | None => Raise OverflowError
      end
  | _ => Raise TypeError
  end.

(** [len(v)]; the items of a dict are counted once per key. *)
Fixpoint distinct_keys (seen : list pystr) (d : list (pystr * value)) : nat :=
  match d with
  | [] => O
  | (k, _) :: d' =>
      if existsb (str_eqb k) seen then distinct_keys seen d'
      else S (distinct_keys (k :: seen) d')
  end.

Definition len (v : value) : result Z :=
  match v with
  | VStr s => Ok (Z.of_nat (List.length s))
  | VList l => Ok (Z.of_nat (List.length l))
  | VDict d => Ok (Z.of_nat (distinct_keys [] d))
  | _ => Raise TypeError
  end.

(** [str] of an [int]: a [ValueError] when the rendering has more digits,
    the sign apart, than the limit of the interpreter, that is, when the
    absolute value reaches [10 ^ limit]; the limit is looked at for
    renderings of more than 640 digits only. *)
Definition str_of_int (rt : Runtime) (z : Z) : result pystr :=
  let limit := int_max_str_digits rt in
  if (0 <? limit)%Z && (10 ^ Z.max 640 limit <=? Z.abs z)%Z
  then Raise ValueError
  else Ok (str_of_Z z).

(** [str(v)], which is also what an f-string field [{v}] renders. *)
Definition str (rt : Runtime) (v : value) : result pystr :=
  match v with
  | VNone => Ok (lit "None")
  | VBool true => Ok (lit "True")
  | VBool false => Ok (lit "False")
  | VInt z => str_of_int rt z
  | VFloat f => Ok (float_repr rt f)
  | VStr s => Ok s
  | other => object_repr rt other
  end.

(** [sep.join(parts)] on a list of objects: [TypeError] unless every item is
    a [str]. *)
Fixpoint all_str (parts : list value) : result (list pystr) :=
  match parts with
  | [] => Ok []
  | VStr s :: rest => let* r := all_str rest in Ok (s :: r)
  | _ :: _ => Raise TypeError
  end.

Definition join_values (sep : pystr) (parts : list value) : result pystr :=
  let* ss := all_str parts in Ok (join sep ss).

(** [l[i]] on a list, [0 <= i]. *)
Definition index (l : list value) (i : nat) : result value :=
  match nth_error l i with
  | Some v => Ok v
  | None => Raise IndexError
  end.

Definition index_str (l : list pystr) (i : nat) : result pystr :=
  match nth_error l i with
  | Some v => Ok v
  | None => Raise IndexError
  end.

(** *** Time *)

Definition us_per_second : Z := 1000000.
Definition us_per_day : Z := 86400 * us_per_second.

(** A [timedelta] is normalised to days, seconds in [0, 86400) and
    microseconds in [0, 10^6); [d] is its length in microseconds. *)
Definition td_days (d : Z) : Z := d / us_per_day.
Definition td_seconds (d : Z) : Z := (d mod us_per_day) / us_per_second.
Definition td_microseconds (d : Z) : Z := d mod us_per_second.

End Py.

(** ** [config.py]: the settings the core consumes, with their defaults *)
Record Config : Type := {
  MIN_ACCOUNT_AGE_DAYS : Z;
  SUSPICIOUS_FOLLOWER_RATIO : Float64.pyfloat;
  MAX_RECENT_TWEETS : Z;
  MIN_TRUSTED_FOLLOWERS : Z;
  TRUSTED_ACCOUNTS_UPDATE_INTERVAL : Z
}.

Definition default_config : Config := {|
  MIN_ACCOUNT_AGE_DAYS := 30;
  SUSPICIOUS_FOLLOWER_RATIO := Float64.FFin 10;
  MAX_RECENT_TWEETS := 20;
  MIN_TRUSTED_FOLLOWERS := 3;
  TRUSTED_ACCOUNTS_UPDATE_INTERVAL := 3600
|}.

(** The five API credentials of [Config], read from the environment (the
    empty string when a variable is not set). *)
Record Credentials : Type := {
  X_API_KEY : Py.pystr;
  X_API_SECRET : Py.pystr;
  X_ACCESS_TOKEN : Py.pystr;
  X_ACCESS_TOKEN_SECRET : Py.pystr;
  X_BEARER_TOKEN : Py.pystr
}.

(** [getattr(self, field)] for the names of [required_fields], in order. *)
Definition required_fields (c : Credentials) : list (string * Py.pystr) :=
  [("X_API_KEY", X_API_KEY c);
   ("X_API_SECRET", X_API_SECRET c);
   ("X_ACCESS_TOKEN", X_ACCESS_TOKEN c);
   ("X_ACCESS_TOKEN_SECRET", X_ACCESS_TOKEN_SECRET c);
   ("X_BEARER_TOKEN", X_BEARER_TOKEN c)]%string.

Definition missing_fields (c : Credentials) : list string :=
  map fst (filter (fun field => match snd field with [] => true | _ => false end)
                  (required_fields c)).

(** [Config.validate] *)
Definition validate (c : Credentials) : bool :=
  match missing_fields c with
  | [] => true
  | _ => false
  end.

(** [Config.get_api_credentials] *)
Definition get_api_credentials (c : Credentials) : Py.value :=
  Py.VDict [(Py.lit "consumer_key", Py.VStr (X_API_KEY c));
            (Py.lit "consumer_secret", Py.VStr (X_API_SECRET c));
            (Py.lit "access_token", Py.VStr (X_ACCESS_TOKEN c));
            (Py.lit "access_token_secret", Py.VStr (X_ACCESS_TOKEN_SECRET c));
            (Py.lit "bearer_token", Py.VStr (X_BEARER_TOKEN c))].

(** ** [bot/analyzer.py] *)
Module AccountAnalyzer.
Import Float64 Py.
Local Open Scope string_scope.
Local Open Scope list_scope.

(** A dict item with a literal key. *)
Definition item (k : string) (v : value) : pystr * value := (lit k, v).

Definition vstr (s : string) : value := VStr (lit s).

Definition suspicious_keywords : list pystr :=
  map lit ["pump"; "moon"; "lambo"; "diamond hands"; "hodl"; "ape";
           "guaranteed"; "returns"; "investment opportunity"; "exclusive";
           "limited time"; "act now"; "don't miss out"; "financial advice"]%string.

Definition positive_keywords : list pystr :=
  map lit ["research"; "analysis"; "education"; "community"; "development";
           "building"; "learning"; "discussing"; "sharing"; "helping"]%string.

(** One entry of the timeline as [XMonitor.get_user_tweets] delivers it: the
    fields the analyzer reads.  [created_at] is the wall-clock time in
    microseconds, which is what [replace(tzinfo=None)] keeps; an aware
    datetime has a time zone of fixed UTC offset ([datetime.timezone], as
    the datetimes of the API have), given in microseconds, and a naive one
    has none ([utc_offset] is not read then). *)
Record tweet : Type := {
  text : pystr;
  created_at : Z;
  created_at_aware : bool;
  utc_offset : Z;
  like_count : Z;
  retweet_count : Z;
  reply_count : Z;
  lang : pystr
}.

Section Analyzer.

Variable rt : Runtime.
Variable config : Config.

(** [now] is the value of [datetime.now()]. *)
Definition _calculate_account_age (created : value) (now : Z) : value :=
  match created with
  | VDatetime t _ =>
      let age_days := td_days (now - t) in
      VDict [item "days" (VInt age_days);
             item "months" (VInt (age_days / 30));
             item "years" (VInt (age_days / 365));
             item "is_new" (VBool (age_days <? MIN_ACCOUNT_AGE_DAYS config)%Z);
             item "created_date" (VStr (strftime_ymd rt t))]
  | _ =>
      VDict [item "days" (VInt 0); item "months" (VInt 0); item "years" (VInt 0);
             item "is_new" (VBool true); item "created_date" (vstr "unknown")]
  end.

Definition _interpret_follower_ratio (ratio followers following : value)
  : result value :=
  let* a := gt_num ratio (NInt 100) in
  if a then Ok (vstr "Very high ratio - possible influencer or suspicious bot activity")
  else
    let* b := gt_num ratio (NInt 10) in
    if b then Ok (vstr "High ratio - established account or selective following")
    else
      let* c := gt_num ratio (NInt 1) in
      if c then Ok (vstr "Balanced ratio - normal engagement pattern")
      else
        let* d := gt_num ratio (NFloat f0_1) in
        if d then Ok (vstr "Low ratio - active in following others")
        else Ok (vstr "Very low ratio - following much more than followers").

(** The body of the [try] block of [_calculate_follower_ratio]. *)
Definition follower_ratio_body (user_info : value) : result value :=
  let* followers := getitem user_info (lit "followers_count") in
  let* following := getitem user_info (lit "following_count") in
  let* ratio :=
    if eq_num following (NInt 0) then Ok followers
    else truediv followers following in
  let* rounded := round ratio 2 in
  let* above := gt_num ratio (NFloat (SUSPICIOUS_FOLLOWER_RATIO config)) in
  let* suspicious :=
    if above then Ok true
    else
      let* many := gt_num followers (NInt 1000) in
      if many then lt_num following (NInt 10) else Ok false in
  let* interpretation := _interpret_follower_ratio ratio followers following in
  Ok (VDict [item "ratio" rounded;
             item "followers" followers;
             item "following" following;
             item "is_suspicious" (VBool suspicious);
             item "interpretation" interpretation]).

Definition _calculate_follower_ratio (user_info : value) : value :=
  except (follower_ratio_body user_info)
    (VDict [item "ratio" (VInt 0); item "followers" (VInt 0);
            item "following" (VInt 0); item "is_suspicious" (VBool true);
            item "interpretation" (vstr "Error calculating")]).

(** [re.search(r'http[s]?://|www\.|\.[a-z]{2,}', bio)] *)
Definition is_lower_az (c : codepoint) : bool := ((97 <=? c) && (c <=? 122))%N.

Fixpoint dot_word (s : pystr) : bool :=
  match s with
  | d :: ((a :: b :: _) as s') =>
      (N.eqb d 46 && is_lower_az a && is_lower_az b) || dot_word s'
  | _ => false
  end.

Definition contains_link (s : pystr) : bool :=
  str_in (lit "http://") s || str_in (lit "https://") s ||
  str_in (lit "www.") s || dot_word s.

(** [len] of a list or of a string. *)
Definition count {A : Type} (l : list A) : Z := Z.of_nat (List.length l).

Definition bio_risk_level (found_suspicious found_positive : list pystr) : string :=
  if (2 <? count found_suspicious)%Z then "high"
  else if (0 <? count found_suspicious)%Z then "medium"
  else if (0 <? count found_positive)%Z then "low"
  else "low".

(** The body of the [try] block of [_analyze_bio]: [bio.lower()] raises
    [AttributeError] on anything but a string. *)
Definition analyze_bio_body (bio : value) : result value :=
  if negb (truthy bio) then
    Ok (VDict [item "length" (VInt 0); item "has_bio" (VBool false);
               item "suspicious_keywords" (VList []);
               item "positive_keywords" (VList []);
               item "contains_links" (VBool false);
               item "risk_level" (vstr "medium")])
  else
    match bio with
    | VStr s =>
        let bio_lower := str_lower rt s in
        let found_suspicious :=
          filter (fun kw => str_in kw bio_lower) suspicious_keywords in
        let found_positive :=
          filter (fun kw => str_in kw bio_lower) positive_keywords in
        Ok (VDict [item "length" (VInt (count s));
                   item "has_bio" (VBool true);
                   item "suspicious_keywords" (VList (map VStr found_suspicious));
                   item "positive_keywords" (VList (map VStr found_positive));
                   item "contains_links" (VBool (contains_link s));
                   item "risk_level"
                     (vstr (bio_risk_level found_suspicious found_positive));
                   item "text"
                     (VStr (if (100 <? count s)%Z
                            then slice_to 100 s ++ lit "..." else s))])
    | _ => Raise AttributeError
    end.

Definition _analyze_bio (bio : value) : value :=
  except (analyze_bio_body bio)
    (VDict [item "length" (VInt 0); item "has_bio" (VBool false);
            item "suspicious_keywords" (VList []);
            item "positive_keywords" (VList []);
            item "contains_links" (VBool false);
            item "risk_level" (vstr "high")]).

Definition sum (l : list Z) : Z := fold_right Z.add 0%Z l.

(** [statistics.mean] of a non-empty list of ints: the exact mean, an [int]
    when it is integral and the nearest float otherwise. *)
Definition mean (l : list Z) : result value :=
  let n := count l in
  if (sum l mod n =? 0)%Z then Ok (VInt (sum l / n))
  else truediv (VInt (sum l)) (VInt n).

Definition _classify_engagement_pattern (likes retweets replies : value)
  : result value :=
  let* l100 := gt_num likes (NInt 100) in
  let* high := if l100 then gt_num retweets (NInt 20) else Ok false in
  if high then Ok (vstr "high_engagement")
  else
    let* l10 := gt_num likes (NInt 10) in
    let* moderate := if l10 then gt_num retweets (NInt 2) else Ok false in
    if moderate then Ok (vstr "moderate_engagement")
    else
      let* l1 := gt_num likes (NInt 1) in
      if l1 then Ok (vstr "low_engagement") else Ok (vstr "minimal_engagement").

Definition analyze_engagement_body (tweets : list tweet) : result value :=
  match tweets with
  | [] =>
      Ok (VDict [item "avg_likes" (VInt 0); item "avg_retweets" (VInt 0);
                 item "avg_replies" (VInt 0); item "engagement_rate" (VInt 0);
                 item "pattern" (vstr "no_data")])
  | _ =>
      let likes := map like_count tweets in
      let retweets := map retweet_count tweets in
      let replies := map reply_count tweets in
      let* avg_likes := mean likes in
      let* avg_retweets := mean retweets in
      let* avg_replies := mean replies in
      let total_engagement := (sum likes + sum retweets + sum replies)%Z in
      let* engagement_rate := truediv (VInt total_engagement) (VInt (count tweets)) in
      let* pattern := _classify_engagement_pattern avg_likes avg_retweets avg_replies in
      let* r_likes := round avg_likes 1 in
      let* r_retweets := round avg_retweets 1 in
      let* r_replies := round avg_replies 1 in
      let* r_rate := round engagement_rate 1 in
      Ok (VDict [item "avg_likes" r_likes; item "avg_retweets" r_retweets;
                 item "avg_replies" r_replies; item "engagement_rate" r_rate;
                 item "pattern" pattern;
                 item "total_tweets_analyzed" (VInt (count tweets))])
  end.

Definition _analyze_engagement (tweets : list tweet) : value :=
  except (analyze_engagement_body tweets)
    (VDict [item "avg_likes" (VInt 0); item "avg_retweets" (VInt 0);
            item "avg_replies" (VInt 0); item "engagement_rate" (VInt 0);
            item "pattern" (vstr "error")]).

Definition any_keyword (keywords : list pystr) (text_lower : pystr) : bool :=
  existsb (fun kw => str_in kw text_lower) keywords.

Definition _extract_topics (all_text : pystr) : value :=
  let crypto_keywords :=
    map lit ["bitcoin"; "ethereum"; "crypto"; "blockchain"; "defi"; "nft";
             "solana"; "token"]%string in
  let finance_keywords :=
    map lit ["trading"; "investment"; "market"; "price"; "profit"; "loss";
             "portfolio"]%string in
  let tech_keywords :=
    map lit ["development"; "coding"; "programming"; "software"; "app";
             "web3"]%string in
  let text_lower := str_lower rt all_text in
  VList ((if any_keyword crypto_keywords text_lower then [vstr "cryptocurrency"] else []) ++
         (if any_keyword finance_keywords text_lower then [vstr "finance"] else []) ++
         (if any_keyword tech_keywords text_lower then [vstr "technology"] else [])).

(** [lang_dist[lang] = lang_dist.get(lang, 0) + 1] *)
Fixpoint bump (l : pystr) (dist : list (pystr * Z)) : list (pystr * Z) :=
  match dist with
  | [] => [(l, 1%Z)]
  | (k, n) :: rest => if str_eqb l k then (k, (n + 1)%Z) :: rest else (k, n) :: bump l rest
  end.

Definition language_distribution (tweets : list tweet) : value :=
  VDict (map (fun kn => (fst kn, VInt (snd kn)))
             (fold_left (fun dist t => bump (lang t) dist) tweets [])).

(** The dict returned for an empty timeline, and on failure: it has no
    ['suspicious_content_ratio'] item. *)
Definition content_default : value :=
  VDict [item "sentiment_score" (VInt 0);
         item "sentiment_label" (vstr "neutral");
         item "topics" (VList []);
         item "language_distribution" (VDict []);
         item "suspicious_content_count" (VInt 0)].

Definition analyze_content_body (tweets : list tweet) : result value :=
  match tweets with
  | [] => Ok content_default
  | _ =>
      let all_text := join (lit " ") (map text tweets) in
      let* sentiment_score := polarity rt all_text in
      let sentiment_label :=
        if flt f0_1 sentiment_score then "positive"
        else if flt sentiment_score (fneg f0_1) then "negative"
        else "neutral" in
      let suspicious_count :=
        count (filter (fun t => any_keyword suspicious_keywords (str_lower rt (text t)))
                      tweets) in
      let topics := _extract_topics all_text in
      let* r_score := round (VFloat sentiment_score) 3 in
      let* ratio := truediv (VInt suspicious_count) (VInt (count tweets)) in
      let* r_ratio := round ratio 2 in
      Ok (VDict [item "sentiment_score" r_score;
                 item "sentiment_label" (vstr sentiment_label);
                 item "topics" topics;
                 item "language_distribution" (language_distribution tweets);
                 item "suspicious_content_count" (VInt suspicious_count);
                 item "suspicious_content_ratio" r_ratio])
  end.

Definition _analyze_content (tweets : list tweet) : value :=
  except (analyze_content_body tweets) content_default.

(** What the comparison of two datetimes of the same kind looks at: the
    UTC time of an aware datetime, the wall-clock time of a naive one. *)
Definition instant (t : tweet) : Z :=
  if created_at_aware t then (created_at t - utc_offset t)%Z else created_at t.

(** [sorted(tweets, key=created_at, reverse=True)]: aware and naive
    datetimes do not compare, so a timeline that mixes them makes the sort
    raise; otherwise the order is by [instant], newest first, and the sort
    is stable: tweets of the same instant keep their order. *)
Fixpoint insert_desc (t : tweet) (l : list tweet) : list tweet :=
  match l with
  | [] => [t]
  | u :: rest =>
      if (instant u <=? instant t)%Z then t :: l else u :: insert_desc t rest
  end.

Definition sorted_desc (tweets : list tweet) : result (list tweet) :=
  match tweets with
  | [] => Ok []
  | t0 :: _ =>
      if forallb (fun t => Bool.eqb (created_at_aware t) (created_at_aware t0)) tweets
      then Ok (fold_right insert_desc [] tweets)
      else Raise TypeError
  end.

Definition days7 : Z := 7 * us_per_day.

(** The posting frequency of a timeline of [n] tweets whose oldest tweet
    was created at [oldest]. *)
Definition posting_frequency (n : Z) (oldest : Z) (now : Z) : result string :=
  if (20 <=? n)%Z then
    let days_span := td_days (now - oldest) in
    if (0 <? days_span)%Z then
      let* tweets_per_day := truediv (VInt n) (VInt days_span) in
      let* very_high := gt_num tweets_per_day (NInt 5) in
      if very_high then Ok "very_high"
      else
        let* high := gt_num tweets_per_day (NInt 2) in
        if high then Ok "high"
        else
          let* moderate := gt_num tweets_per_day (NFloat f0_5) in
          if moderate then Ok "moderate" else Ok "low"
    else Ok "burst"
  else Ok "low".

Definition is_consistent (frequency : string) : bool :=
  existsb (String.eqb frequency) ["moderate"; "high"].

Definition analyze_activity_body (tweets : list tweet) (now : Z) : result value :=
  match tweets with
  | [] =>
      Ok (VDict [item "posting_frequency" (vstr "no_data");
                 item "recent_activity" (VBool false);
                 item "consistent_activity" (VBool false)])
  | t0 :: _ =>
      let* sorted_tweets := sorted_desc tweets in
      let recent_cutoff := (now - days7)%Z in
      let recent_tweets :=
        filter (fun t => (recent_cutoff <? created_at t)%Z) sorted_tweets in
      let recent_activity := (0 <? count recent_tweets)%Z in
      let* frequency :=
        posting_frequency (count tweets) (created_at (last sorted_tweets t0)) now in
      Ok (VDict [item "posting_frequency" (vstr frequency);
                 item "recent_activity" (VBool recent_activity);
                 item "recent_tweets_count" (VInt (count recent_tweets));
                 item "consistent_activity" (VBool (is_consistent frequency))])
  end.

Definition _analyze_activity_patterns (tweets : list tweet) (now : Z) : value :=
  except (analyze_activity_body tweets now)
    (VDict [item "posting_frequency" (vstr "error");
            item "recent_activity" (VBool false);
            item "consistent_activity" (VBool false)]).

(** The factors of [_calculate_risk_score], one per commented block of the
    source: each reads its feature off [analysis] and updates [risk_score]. *)

(* Account age factor *)
Definition age_factor (analysis risk_score : value) : result value :=
  let* account_age := getitem analysis (lit "account_age") in
  let* is_new := getitem account_age (lit "is_new") in
  if truthy is_new then add risk_score (VInt 25) else Ok risk_score.

(* Follower ratio factor *)
Definition ratio_factor (analysis risk_score : value) : result value :=
  let* follower_ratio := getitem analysis (lit "follower_following_ratio") in
  let* is_suspicious := getitem follower_ratio (lit "is_suspicious") in
  if truthy is_suspicious then add risk_score (VInt 20) else Ok risk_score.

(* Bio analysis factor *)
Definition bio_factor (analysis risk_score : value) : result value :=
  let* bio_analysis := getitem analysis (lit "bio_analysis") in
  let* bio_risk := getitem bio_analysis (lit "risk_level") in
  if eq_str bio_risk (lit "high") then add risk_score (VInt 20)
  else if eq_str bio_risk (lit "medium") then add risk_score (VInt 10)
  else Ok risk_score.

(* Content analysis factor *)
Definition content_factor (analysis risk_score : value) : result value :=
  let* content_analysis := getitem analysis (lit "content_analysis") in
  let* suspicious_ratio := getitem content_analysis (lit "suspicious_content_ratio") in
  let* weighted := mul suspicious_ratio (VInt 15) in
  add risk_score weighted.

(* Engagement pattern factor *)
Definition engagement_factor (analysis risk_score : value) : result value :=
  let* engagement_analysis := getitem analysis (lit "engagement_analysis") in
  let* engagement_pattern := getitem engagement_analysis (lit "pattern") in
  if eq_str engagement_pattern (lit "minimal_engagement") then add risk_score (VInt 10)
  else if eq_str engagement_pattern (lit "high_engagement") then sub risk_score (VInt 5)
  else Ok risk_score.

(* Activity pattern factor *)
Definition activity_factor (analysis risk_score : value) : result value :=
  let* activity_patterns := getitem analysis (lit "activity_patterns") in
  let* consistent_activity := getitem activity_patterns (lit "consistent_activity") in
  if negb (truthy consistent_activity) then add risk_score (VInt 10)
  else Ok risk_score.

(* Verification status *)
Definition verification_factor (analysis risk_score : value) : result value :=
  let* verification_status := getitem analysis (lit "verification_status") in
  if truthy verification_status then sub risk_score (VInt 15) else Ok risk_score.

(** The additive part of [_calculate_risk_score]: the value of [risk_score]
    when the bounds are applied. *)
Definition risk_factors (analysis : value) : result value :=
  let risk_score := VInt 0 in
  let* risk_score := age_factor analysis risk_score in
  let* risk_score := ratio_factor analysis risk_score in
  let* risk_score := bio_factor analysis risk_score in
  let* risk_score := content_factor analysis risk_score in
  let* risk_score := engagement_factor analysis risk_score in
  let* risk_score := activity_factor analysis risk_score in
  verification_factor analysis risk_score.

(** The body of the [try] block of [_calculate_risk_score]. *)
Definition risk_score_body (analysis : value) : result value :=
  let* risk_score := risk_factors analysis in
  (* Ensure score is within bounds *)
  let* capped := min_lit 100 risk_score in
  let* risk_score := max_lit 0 capped in
  round risk_score 1.

(** [_calculate_risk_score]: any exception yields the default medium risk. *)
Definition _calculate_risk_score (analysis : value) : value :=
  except (risk_score_body analysis) (VFloat f50).

(** [d[k] = v] on the item list of a dict. *)
Fixpoint setitem (k : pystr) (v : value) (d : list (pystr * value))
  : list (pystr * value) :=
  match d with
  | [] => [(k, v)]
  | (k', v') :: rest =>
      if str_eqb k k' then (k', v) :: rest else (k', v') :: setitem k v rest
  end.

(** The body of the [try] block of [analyze_account], after the monitor has
    delivered [user_info] ([get_user_info], [None] on failure) and
    [user_tweets] ([get_user_tweets]); [None] is returned when there is no
    user information.  [now] and [now'] are the two readings of the clock,
    by [_calculate_account_age] and by [_analyze_activity_patterns]. *)
Definition analyze_account_body (user_id : pystr) (user_info : value)
    (user_tweets : list tweet) (now now' : Z) : result value :=
  if negb (truthy user_info) then Ok VNone
  else
    let* username := getitem user_info (lit "username") in
    let* name := getitem user_info (lit "name") in
    let* created := getitem user_info (lit "created_at") in
    let account_age := _calculate_account_age created now in
    let follower_ratio := _calculate_follower_ratio user_info in
    let* description := getitem user_info (lit "description") in
    let bio_analysis := _analyze_bio description in
    let engagement_analysis := _analyze_engagement user_tweets in
    let content_analysis := _analyze_content user_tweets in
    let activity_patterns := _analyze_activity_patterns user_tweets now' in
    let* verified := getitem user_info (lit "verified") in
    let* followers_count := getitem user_info (lit "followers_count") in
    let* following_count := getitem user_info (lit "following_count") in
    let* tweet_count := getitem user_info (lit "tweet_count") in
    let* listed_count := getitem user_info (lit "listed_count") in
    let analysis :=
      [item "user_id" (VStr user_id);
       item "username" username;
       item "name" name;
       item "account_age" account_age;
       item "follower_following_ratio" follower_ratio;
       item "bio_analysis" bio_analysis;
       item "engagement_analysis" engagement_analysis;
       item "content_analysis" content_analysis;
       item "activity_patterns" activity_patterns;
       item "verification_status" verified;
       item "raw_metrics"
         (VDict [item "followers_count" followers_count;
                 item "following_count" following_count;
                 item "tweet_count" tweet_count;
                 item "listed_count" listed_count]);
       item "risk_score" (VInt 0)] in
    Ok (VDict (setitem (lit "risk_score")
                 (_calculate_risk_score (VDict analysis)) analysis)).

Definition analyze_account (user_id : pystr) (user_info : value)
    (user_tweets : list tweet) (now now' : Z) : value :=
  except (analyze_account_body user_id user_info user_tweets now now') VNone.

End Analyzer.

End AccountAnalyzer.

(** ** [bot/trusted_accounts.py] *)
Module TrustedAccountsManager.
Import Float64 Py.
Import AccountAnalyzer (item, vstr, count).
Local Open Scope string_scope.
Local Open Scope list_scope.

(** The mutable attributes of the manager: the trusted set and the time of
    the last successful refresh ([None] before the first one). *)
Record state : Type := {
  trusted_accounts : list pystr;
  last_update : option Z
}.

(** What one call of [update_trusted_list] did: the attributes afterwards,
    the value returned, and whether the list was requested from its URL. *)
Record refresh : Type := {
  after : state;
  returned : bool;
  requested : bool
}.

Definition mem (u : pystr) (set : list pystr) : bool := existsb (str_eqb u) set.

Definition set_add (u : pystr) (set : list pystr) : list pystr :=
  if mem u set then set else set ++ [u].

Definition nonempty (s : pystr) : bool :=
  match s with [] => false | _ => true end.


(** [sorted(l)] on strings: ascending and stable. *)
Fixpoint insert_sorted (s : pystr) (l : list pystr) : list pystr :=
  match l with
  | [] => [s]
  | u :: rest => if str_ltb u s then u :: insert_sorted s rest else s :: l
  end.

Definition sorted (l : list pystr) : list pystr := fold_right insert_sorted [] l.





Section Manager.

Variable rt : Runtime.
Variable config : Config.

(** One line of the list: comments and blank lines are skipped, a leading
    [@] is removed and the name is lower-cased. *)
Definition parse_line (accounts : list pystr) (line : pystr) : list pystr :=
  let line := strip line in
  if nonempty line && negb (startswith (lit "#") line) then
    let username := str_lower rt (lstrip_char 64%N line) in
    if nonempty username then set_add username accounts else accounts
  else accounts.

Definition parse_trusted_list (content : pystr) : list pystr :=
  fold_left parse_line (split_char NL content) [].

(** [update_trusted_list]: [now] is the clock when the age of the list is
    tested, [response] what [requests.get(...)] followed by
    [raise_for_status()] delivers (the text, or an exception), [now'] the
    clock when the new list is installed.  Writing the cache file does not
    change the attributes and its failures are absorbed. *)
Definition update_trusted_list (st : state) (now : Z) (response : result pystr)
    (now' : Z) : refresh :=
  let up_to_date :=
    match last_update st with
    | Some last =>
        (td_seconds (now - last) <? TRUSTED_ACCOUNTS_UPDATE_INTERVAL config)%Z
    | None => false
    end in
  if up_to_date then {| after := st; returned := true; requested := false |}
  else
    match response with
    | Raise _ => {| after := st; returned := false; requested := true |}
    | Ok text =>
        let content := strip text in
        if negb (nonempty content)
        then {| after := st; returned := false; requested := true |}
        else {| after := {| trusted_accounts := parse_trusted_list content;
                            last_update := Some now' |};
                returned := true; requested := true |}
    end.

Definition _default_trust_score : value :=
  VDict [item "is_trusted" (VBool false);
         item "trust_level" (vstr "unknown");
         item "trusted_followers" (VList []);
         item "trusted_followers_count" (VInt 0);
         item "vouched_by_trusted" (VBool false);
         item "explanation" (vstr "Unable to verify trust status")].

(** [_get_trusted_followers]: the loop over the first 20 trusted accounts
    only looks each of them up and discards the answer; the list returned is
    the empty list it started with, also when the loop fails. *)
Definition _get_trusted_followers (st : state) (user_id : pystr) : list pystr := [].

(** The trust level from the list of trusted followers. *)
Definition trust_from_followers (trusted_followers : list pystr) : value :=
  let trusted_count := count trusted_followers in
  let min_trusted := MIN_TRUSTED_FOLLOWERS config in
  let '(trust_level, is_trusted, explanation) :=
    if (min_trusted <=? trusted_count)%Z then
      ("vouched_by_trusted", true,
       lit "Followed by " ++ str_of_Z trusted_count ++ lit " trusted accounts: " ++
       join (lit ", ") (firstn 3 trusted_followers) ++
       (if (3 <? trusted_count)%Z
        then lit " and " ++ str_of_Z (trusted_count - 3) ++ lit " others"
        else []))
    else if (0 <? trusted_count)%Z then
      ("partially_vouched", false,
       lit "Followed by " ++ str_of_Z trusted_count ++
       lit " trusted account(s) (minimum " ++ str_of_Z min_trusted ++ lit " required)")
    else
      ("not_vouched", false, lit "Not followed by any trusted accounts") in
  VDict [item "is_trusted" (VBool is_trusted);
         item "trust_level" (vstr trust_level);
         item "trusted_followers" (VList (map VStr trusted_followers));
         item "trusted_followers_count" (VInt trusted_count);
         item "vouched_by_trusted" (VBool is_trusted);
         item "explanation" (VStr explanation)].

(** The body of the [try] block of [check_trust_score]; [user_info] is what
    [get_user_info] delivered and [followers] computes the list of trusted
    followers. *)
Definition trust_score_body (st : state) (user_info : value)
    (followers : list pystr) : result value :=
  if negb (truthy user_info) then Ok _default_trust_score
  else
    let* name := getitem user_info (lit "username") in
    match name with
    | VStr s =>
        let username := str_lower rt s in
        if mem username (trusted_accounts st) then
          Ok (VDict [item "is_trusted" (VBool true);
                     item "trust_level" (vstr "directly_trusted");
                     item "trusted_followers" (VList []);
                     item "trusted_followers_count" (VInt 0);
                     item "vouched_by_trusted" (VBool true);
                     item "explanation"
                       (VStr (lit "@" ++ username ++
                              lit " is directly on the trusted accounts list"))])
        else Ok (trust_from_followers followers)
    | _ => Raise AttributeError
    end.

(** [check_trust_score] given the answer of [_get_trusted_followers]. *)
Definition trust_score_with (st : state) (user_info : value)
    (followers : list pystr) : value :=
  except (trust_score_body st user_info followers) _default_trust_score.

Definition check_trust_score (st : state) (user_id : pystr) (user_info : value)
  : value :=
  trust_score_with st user_info (_get_trusted_followers st user_id).

Definition is_account_trusted (st : state) (username : pystr) : bool :=
  mem (lstrip_char 64%N (str_lower rt username)) (trusted_accounts st).

End Manager.

End TrustedAccountsManager.

(** ** [bot/report_generator.py] *)
Module ReportGenerator.
Import Float64 Py.
Import AccountAnalyzer (item, vstr, count).
Local Open Scope string_scope.
Local Open Scope list_scope.

(** The non-ASCII symbols of the report texts, as code points; the warning
    sign is followed by a variation selector. *)
Definition MAGNIFIER : pystr := [0x1F50D%N].
Definition WARNING : pystr := [0x26A0%N; 0xFE0F%N].
Definition CHECK_MARK : pystr := [0x2705%N].
Definition BULLET : pystr := [0x2022%N].
Definition HANDSHAKE : pystr := [0x1F91D%N].
Definition CROSS_MARK : pystr := [0x274C%N].
Definition QUESTION_MARK : pystr := [0x2753%N].
Definition GREEN_CIRCLE : pystr := [0x1F7E2%N].
Definition YELLOW_CIRCLE : pystr := [0x1F7E1%N].
Definition ORANGE_CIRCLE : pystr := [0x1F7E0%N].
Definition RED_CIRCLE : pystr := [0x1F534%N].
Definition CALENDAR : pystr := [0x1F4C5%N].
Definition PEOPLE : pystr := [0x1F465%N].
Definition BAR_CHART : pystr := [0x1F4CA%N].
Definition SIREN : pystr := [0x1F6A8%N].

(** A text of several lines. *)
Definition lines (l : list pystr) : pystr := join [NL] l.

Section Generator.

Variable rt : Runtime.

(** The body of the [try] block of [_generate_trust_status].  A trusted
    account whose level is neither ['directly_trusted'] nor
    ['network_backed'] reaches the end of the function, which returns
    [None]. *)
Definition trust_status_body (trust_score : value) : result value :=
  let* is_trusted := dict_get trust_score (lit "is_trusted") (VBool false) in
  if truthy is_trusted then
    let* trust_level := dict_get trust_score (lit "trust_level") (vstr "unknown") in
    if eq_str trust_level (lit "directly_trusted") then
      Ok (VStr (lines [CHECK_MARK ++ lit " VERIFIED TRUSTED ACCOUNT";
                       BULLET ++ lit " Account is on Project RUGGUARD's trusted list";
                       BULLET ++ lit " Automatically vouched by the system"]))
    else if eq_str trust_level (lit "network_backed") then
      let* trusted_followers := dict_get trust_score (lit "trusted_followers") (VList []) in
      let* count := len trusted_followers in
      Ok (VStr (lines [HANDSHAKE ++ lit " NETWORK BACKED ACCOUNT";
                       BULLET ++ lit " Followed by " ++ str_of_Z count ++
                         lit " trusted accounts from our list";
                       BULLET ++ lit " Meets minimum threshold of 3 trusted followers"]))
    else Ok VNone
  else
    let* trusted_count := dict_get trust_score (lit "trusted_followers_count") (VInt 0) in
    let* some := gt_num trusted_count (NInt 0) in
    if some then
      let* shown := str rt trusted_count in
      Ok (VStr (lines [WARNING ++ lit " PARTIALLY BACKED";
                       BULLET ++ lit " Followed by " ++ shown ++
                         lit " trusted account(s)";
                       BULLET ++ lit " Needs 3+ for full verification"]))
    else
      Ok (VStr (lines [CROSS_MARK ++ lit " UNVERIFIED ACCOUNT";
                       BULLET ++ lit " Not on trusted list";
                       BULLET ++ lit " No trusted accounts following";
                       BULLET ++ lit " Requires manual verification"])).

Definition _generate_trust_status (trust_score : value) : value :=
  except (trust_status_body trust_score)
    (VStr (QUESTION_MARK ++ lit " UNKNOWN: Unable to verify trust status")).

Definition risk_assessment_body (analysis : value) : result pystr :=
  let* risk_score := dict_get analysis (lit "risk_score") (VInt 50) in
  let* low := lt_num risk_score (NInt 20) in
  let* bucket :=
    if low then Ok (GREEN_CIRCLE, "LOW RISK")
    else
      let* moderate := lt_num risk_score (NInt 40) in
      if moderate then Ok (YELLOW_CIRCLE, "MODERATE RISK")
      else
        let* high := lt_num risk_score (NInt 70) in
        if high then Ok (ORANGE_CIRCLE, "HIGH RISK")
        else Ok (RED_CIRCLE, "VERY HIGH RISK") in
  let '(risk_emoji, risk_label) := bucket in
  let* shown := str rt risk_score in
  Ok (risk_emoji ++ lit " " ++ lit risk_label ++ lit " (Score: " ++
      shown ++ lit "/100)").

Definition _generate_risk_assessment (analysis : value) : pystr :=
  except (risk_assessment_body analysis)
    (QUESTION_MARK ++ lit " RISK: Unable to calculate").

Definition key_metrics_body (analysis : value) : result pystr :=
  (* Account age *)
  let* age_data := dict_get analysis (lit "account_age") (VDict []) in
  let* age_days := dict_get age_data (lit "days") (VInt 0) in
  let* over_year := gt_num age_days (NInt 365) in
  let* age :=
    if over_year then
      let* years := floordiv_lit age_days 365 in
      let* shown := str rt years in
      Ok (CALENDAR ++ lit " " ++ shown ++ lit "y old")
    else
      let* over_month := gt_num age_days (NInt 30) in
      if over_month then
        let* months := floordiv_lit age_days 30 in
        let* shown := str rt months in
        Ok (CALENDAR ++ lit " " ++ shown ++ lit "m old")
      else
        let* shown := str rt age_days in
        Ok (CALENDAR ++ lit " " ++ shown ++ lit "d old") in
  (* Followers *)
  let* raw_metrics := dict_get analysis (lit "raw_metrics") (VDict []) in
  let* followers := dict_get raw_metrics (lit "followers_count") (VInt 0) in
  let* millions := gt_num followers (NInt 1000000) in
  let* audience :=
    if millions then
      let* m := floordiv_lit followers 1000000 in
      let* shown := str rt m in
      Ok (PEOPLE ++ lit " " ++ shown ++ lit "M followers")
    else
      let* thousands := gt_num followers (NInt 1000) in
      if thousands then
        let* k := floordiv_lit followers 1000 in
        let* shown := str rt k in
        Ok (PEOPLE ++ lit " " ++ shown ++ lit "K followers")
      else
        let* shown := str rt followers in
        Ok (PEOPLE ++ lit " " ++ shown ++ lit " followers") in
  (* Engagement *)
  let* engagement := dict_get analysis (lit "engagement_analysis") (VDict []) in
  let* avg_likes := dict_get engagement (lit "avg_likes") (VInt 0) in
  let* high := gt_num avg_likes (NInt 100) in
  let* activity :=
    if high then Ok (BAR_CHART ++ lit " High engagement")
    else
      let* moderate := gt_num avg_likes (NInt 10) in
      if moderate then Ok (BAR_CHART ++ lit " Moderate engagement")
      else Ok (BAR_CHART ++ lit " Low engagement") in
  Ok (join (lit " | ") [age; audience; activity]).

Definition _generate_key_metrics (analysis : value) : pystr :=
  except (key_metrics_body analysis) (BAR_CHART ++ lit " Metrics unavailable").

Definition detailed_analysis_body (analysis : value) : result pystr :=
  (* Bio analysis *)
  let* bio_analysis := dict_get analysis (lit "bio_analysis") (VDict []) in
  let* has_bio := dict_get bio_analysis (lit "has_bio") (VBool false) in
  let* bio :=
    if truthy has_bio then
      let* risk_level := dict_get bio_analysis (lit "risk_level") (vstr "unknown") in
      if eq_str risk_level (lit "high") then Ok [WARNING ++ lit " Suspicious bio content"]
      else if eq_str risk_level (lit "low") then Ok [CHECK_MARK ++ lit " Clean bio content"]
      else Ok []
    else Ok [WARNING ++ lit " No bio"] in
  (* Activity patterns *)
  let* activity := dict_get analysis (lit "activity_patterns") (VDict []) in
  let* recent := dict_get activity (lit "recent_activity") (VBool false) in
  let recency :=
    if truthy recent then [CHECK_MARK ++ lit " Recently active"]
    else [WARNING ++ lit " Inactive recently"] in
  (* Content analysis *)
  let* content := dict_get analysis (lit "content_analysis") (VDict []) in
  let* suspicious_ratio := dict_get content (lit "suspicious_content_ratio") (VInt 0) in
  let* high := gt_num suspicious_ratio (NFloat f0_3) in
  let* contents :=
    if high then Ok [SIREN ++ lit " High suspicious content"]
    else
      let* some := gt_num suspicious_ratio (NFloat f0_1) in
      if some then Ok [WARNING ++ lit " Some suspicious content"]
      else Ok [CHECK_MARK ++ lit " Clean content"] in
  (* Verification *)
  let* verified := dict_get analysis (lit "verification_status") (VBool false) in
  let verification :=
    if truthy verified then [CHECK_MARK ++ lit " Verified account"] else [] in
  let details := bio ++ recency ++ contents ++ verification in
  Ok (match details with
      | [] => lit "Analysis complete"
      | _ => join (lit " | ") details
      end).

Definition _generate_detailed_analysis (analysis : value) : pystr :=
  except (detailed_analysis_body analysis) (lit "Analysis details unavailable").

Definition SHORT_FOOTER : pystr := WARNING ++ lit " DYOR! #RUGGUARD".

Definition as_str (v : value) : result pystr :=
  match v with
  | VStr s => Ok s
  | _ => Raise TypeError
  end.

(** The ultra-compact form: handle, trust keyword, risk label, footer. *)
Definition ultra_compact (header trust risk : pystr) : result pystr :=
  let* username :=
    if str_in (lit "@") header then
      let* after_at := index_str (split_char 64%N header) 1 in
      index_str (split_ws after_at) 0
    else Ok (lit "user") in
  let* trust_line :=
    if str_in (lit ":") trust then index_str (split_char 58%N trust) 0
    else Ok trust in
  let* risk_line :=
    if str_in (lit "(") risk then
      let* before := index_str (split_char 40%N risk) 0 in Ok (strip before)
    else Ok risk in
  Ok (lines [MAGNIFIER ++ lit " @" ++ username; trust_line; risk_line; SHORT_FOOTER]).

Definition truncate_report_body (report_parts : list value) : result pystr :=
  let* header := index report_parts 0 in
  let* trust := index report_parts 2 in
  let* risk := index report_parts 3 in
  let* metrics := index report_parts 4 in
  let* truncated := join_values [NL] [header; trust; risk; metrics; VStr SHORT_FOOTER] in
  let* truncated :=
    if (280 <? count truncated)%Z then
      let* header := as_str header in
      let* trust := as_str trust in
      let* risk := as_str risk in
      ultra_compact header trust risk
    else Ok truncated in
  Ok (slice_to 280 truncated).

Definition _truncate_report (report_parts : list value) : pystr :=
  except (truncate_report_body report_parts)
    (MAGNIFIER ++ lit " RUGGUARD: Analysis complete. Check logs for details. #RUGGUARD").

(** The statements of the [try] block of [generate_report] that follow the
    binding of [username]. *)
Definition compose (username analysis trust_score : value) : result pystr :=
  let* handle := str rt username in
  let report_parts :=
    [VStr (MAGNIFIER ++ lit " RUGGUARD TRUST REPORT for @" ++ handle);
     VStr [];
     _generate_trust_status trust_score;
     VStr (_generate_risk_assessment analysis);
     VStr (_generate_key_metrics analysis);
     VStr (_generate_detailed_analysis analysis);
     VStr [];
     VStr (WARNING ++ lit " This is an automated analysis. DYOR!");
     vstr "#RUGGUARD #TrustScore"] in
  let* full_report := join_values [NL] report_parts in
  if (280 <? count full_report)%Z then Ok (_truncate_report report_parts)
  else Ok full_report.

(** The report of the [except] handler; rendering [username] can fail
    there as it can in the [try] block. *)
Definition error_report (username : value) : result pystr :=
  let* handle := str rt username in
  Ok (MAGNIFIER ++ lit " RUGGUARD: Error analyzing @" ++ handle ++
      lit ". Please try again later. #RUGGUARD").

(** [generate_report]: [username] is bound by the first statement of the
    [try] block that can fail; when that statement raises, the handler reads
    a local variable that was never bound, and the [UnboundLocalError]
    leaves the function.  So does the exception of a [username] that the
    handler cannot render. *)
Definition generate_report (analysis trust_score : value) (user_id : pystr)
  : result pystr :=
  match dict_get analysis (lit "username") (vstr "unknown") with
  | Raise _ => Raise UnboundLocalError
  | Ok username =>
      match compose username analysis trust_score with
      | Ok report => Ok report
      | Raise _ => error_report username
      end
  end.

Definition generate_error_report (username : pystr) (error_type : pystr) : pystr :=
  let message :=
    if str_eqb error_type (lit "user_not_found") then
      MAGNIFIER ++ lit " RUGGUARD: User @" ++ username ++ lit " not found or protected."
    else if str_eqb error_type (lit "api_error") then
      MAGNIFIER ++ lit " RUGGUARD: API error analyzing @" ++ username ++
      lit ". Try again later."
    else if str_eqb error_type (lit "analysis_failed") then
      MAGNIFIER ++ lit " RUGGUARD: Analysis failed for @" ++ username ++ lit "."
    else
      MAGNIFIER ++ lit " RUGGUARD: Error analyzing @" ++ username ++
      lit ". Please try again." in
  message ++ lit " #RUGGUARD".

Definition generate_rate_limit_report : pystr :=
  MAGNIFIER ++ lit " RUGGUARD: Rate limit reached. Please try again in 15 minutes. #RUGGUARD".

End Generator.

End ReportGenerator.

(** ** [bot/monitor.py]: triggers and replies *)
Module XMonitor.
Import Float64 Py.
Import AccountAnalyzer (item, vstr, count).
Local Open Scope string_scope.
Local Open Scope list_scope.

(** A tweet of a search result: the fields the monitor reads.
    [referenced_tweets] holds the type and the id of each reference. *)
Record status : Type := {
  id : Z;
  in_reply_to_user_id : value;
  status_text : pystr;
  status_created_at : Z;
  referenced_tweets : list (pystr * Z)
}.

Definition hour : Z := 3600 * us_per_second.

Section Monitor.

Variable rt : Runtime.

(** [TRIGGER_PHRASE] of the configuration. *)
Variable TRIGGER_PHRASE : pystr.

(** [_is_valid_trigger]; [now] is the value of [datetime.now()]. *)
Definition _is_valid_trigger (tweet : status) (now : Z) : bool :=
  if negb (truthy (in_reply_to_user_id tweet)) then false
  else
    let tweet_text := str_lower rt (status_text tweet) in
    let trigger_phrase := str_lower rt TRIGGER_PHRASE in
    if negb (str_in (lit "@projectruggaurd riddle me this") tweet_text
             || str_in (lit "@projectrugguard riddle me this") tweet_text
             || str_in trigger_phrase tweet_text)
    then false
    else if (hour <? now - status_created_at tweet)%Z then false
    else true.

(** The reference of type ['replied_to'] that comes first. *)
Fixpoint replied_to (refs : list (pystr * Z)) : option Z :=
  match refs with
  | [] => None
  | (type, ref) :: rest =>
      if str_eqb type (lit "replied_to") then Some ref else replied_to rest
  end.

(** [_extract_trigger_info]; [get_tweet] is the author of a tweet as the
    API reports it ([None] without data), or the exception of the request.
    The result is [None] or the dict of the trigger. *)
Definition _extract_trigger_info (get_tweet : Z -> result value) (tweet : status)
  : value :=
  let original_tweet_id := replied_to (referenced_tweets tweet) in
  let attempt :=
    match original_tweet_id with
    | Some ref =>
        if (ref =? 0)%Z then Some VNone
        else match get_tweet ref with
             | Ok author => Some author
             | Raise _ => None
             end
    | None => Some VNone
    end in
  match attempt with
  | None => VNone
  | Some original_author_id =>
      if negb (truthy original_author_id) then VNone
      else VDict [item "trigger_tweet_id" (VInt (id tweet));
                  item "original_tweet_id"
                    (match original_tweet_id with Some ref => VInt ref | None => VNone end);
                  item "original_author_id" original_author_id;
                  item "trigger_time" (VDatetime (status_created_at tweet) true)]
  end.

(** The attributes [check_for_triggers] updates. *)
Record monitor : Type := {
  processed_tweets : list Z;
  last_checked : Z
}.

(** The loop of [check_for_triggers] over [tweets.data]; each tweet comes
    with the reading of the clock when it is examined. *)
Fixpoint scan (get_tweet : Z -> result value) (tweets : list (status * Z))
    (triggers : list value) (processed : list Z) : list value * list Z :=
  match tweets with
  | [] => (triggers, processed)
  | (tweet, now) :: rest =>
      if existsb (Z.eqb (id tweet)) processed
      then scan get_tweet rest triggers processed
      else if _is_valid_trigger tweet now then
        let trigger_info := _extract_trigger_info get_tweet tweet in
        if truthy trigger_info
        then scan get_tweet rest (triggers ++ [trigger_info]) (processed ++ [id tweet])
        else scan get_tweet rest triggers processed
      else scan get_tweet rest triggers processed
  end.

(** [check_for_triggers]: [search] is what [search_recent_tweets] delivers,
    the tweets of [tweets.data] or the exception of the request; [now'] is
    the clock when the loop has ended. *)
Definition check_for_triggers (m : monitor) (search : result (list (status * Z)))
    (get_tweet : Z -> result value) (now' : Z) : list value * monitor :=
  match search with
  | Raise _ => ([], m)
  | Ok [] => ([], m)
  | Ok tweets =>
      let '(triggers, processed) := scan get_tweet tweets [] (processed_tweets m) in
      (triggers, {| processed_tweets := processed; last_checked := now' |})
  end.

End Monitor.

(** The text [post_reply] hands to the API. *)
Definition reply_text (message : pystr) : pystr :=
  if (280 <? count message)%Z then slice_to 275 message ++ lit "..." else message.

(** [post_reply]: [create_tweet text in_reply_to_tweet_id] is the [data] of
    the response, or the exception of the request. *)
Definition post_reply (create_tweet : pystr -> Z -> result value)
    (tweet_id : Z) (message : pystr) : bool :=
  except (let* data := create_tweet (reply_text message) tweet_id in
          Ok (truthy data))
         false.

End XMonitor.

(** ** [main.py]: one trigger, from the analysis to the reply *)
Module RugguardBot.
Import Float64 Py.
Import AccountAnalyzer (tweet).
Local Open Scope string_scope.
Local Open Scope list_scope.

(** What the platform answers while one trigger is processed: the account
    snapshot and the timeline read by [analyze_account], the snapshot read
    again by [check_trust_score] ([None] stands for every failure of
    [get_user_info], a monitor that cannot be built included), and the
    answer to [create_tweet]. *)
Record Platform : Type := {
  info_for_analysis : value;
  timeline : list tweet;
  info_for_trust : value;
  create_tweet : pystr -> Z -> result value
}.

(** What [process_trigger] did: the text it handed to [create_tweet], if it
    got that far, and the value it returned. *)
Record outcome : Type := {
  sent : option pystr;
  succeeded : bool
}.

Section Bot.

Variable rt : Runtime.
Variable config : Config.

(** [process_trigger]; [now] and [now'] are the readings of the clock by
    the analyzer.  The two database calls after a successful reply absorb
    their failures and their results are not used. *)
Definition process_trigger (st : TrustedAccountsManager.state) (x : Platform)
    (now now' : Z) (trigger_tweet_id : Z) (original_author_id : pystr) : outcome :=
  let analysis_result :=
    AccountAnalyzer.analyze_account rt config original_author_id
      (info_for_analysis x) (timeline x) now now' in
  if negb (truthy analysis_result) then {| sent := None; succeeded := false |}
  else
    let trust_score :=
      TrustedAccountsManager.check_trust_score rt config st original_author_id
        (info_for_trust x) in
    match ReportGenerator.generate_report rt analysis_result trust_score
            original_author_id with
    | Raise _ => {| sent := None; succeeded := false |}
    | Ok report =>
        let success := XMonitor.post_reply (create_tweet x) trigger_tweet_id report in
        {| sent := Some (XMonitor.reply_text report);
           succeeded :=
             if success then
               except (let* username :=
                         dict_get analysis_result (lit "username")
                           (AccountAnalyzer.vstr "unknown") in
                       let* trusted :=
                         dict_get trust_score (lit "trusted_followers_count") (VInt 0) in
                       let* risk := dict_get analysis_result (lit "risk_score") (VInt 50) in
                       Ok true)
                      false
             else false |}
    end.

End Bot.

End RugguardBot.

(** ** The risk scorer as the specification words it (section 4.2)

    [score(bundle, verified)]: base 0; +25 if is-new; +20 if the ratio is
    suspicious; +20 or +10 for bio risk high or medium;
    [+ 15 * suspicious_content_ratio]; +10 if the engagement pattern is
    minimal, -5 if high; +10 if the posting pattern is not consistent; -15
    if verified; clamped to [0, 100] and rounded to one decimal. *)
Module RiskScorer.
Import Float64 Py.
Local Open Scope string_scope.

Record FeatureBundle : Type := {
  is_new : bool;
  ratio_suspicious : bool;
  bio_risk : pystr;
  suspicious_content_ratio : number;
  engagement_pattern : pystr;
  consistent_activity : bool
}.

Definition additive (b : FeatureBundle) (verified : bool) : number :=
  let s := NInt 0 in
  let s := if is_new b then nadd s (NInt 25) else s in
  let s := if ratio_suspicious b then nadd s (NInt 20) else s in
  let s := if str_eqb (bio_risk b) (lit "high") then nadd s (NInt 20)
           else if str_eqb (bio_risk b) (lit "medium") then nadd s (NInt 10)
           else s in
  let s := nadd s (nmul (suspicious_content_ratio b) (NInt 15)) in
  let s := if str_eqb (engagement_pattern b) (lit "minimal_engagement")
           then nadd s (NInt 10)
           else if str_eqb (engagement_pattern b) (lit "high_engagement")
           then nsub s (NInt 5)
           else s in
  let s := if negb (consistent_activity b) then nadd s (NInt 10) else s in
  if verified then nsub s (NInt 15) else s.

Definition clamp (s : number) : number :=
  if num_ltb s (NInt 0) then NInt 0
  else if num_ltb (NInt 100) s then NInt 100
  else s.

Definition round1 (s : number) : number :=
  match s with
  | NInt z => NInt z
  | NFloat f => match fround f 1 with Some r => NFloat r | None => NFloat f end
  end.

Definition score (b : FeatureBundle) (verified : bool) : number :=
  round1 (clamp (additive b verified)).

(** What the specification requires of every risk score: between 0 and 100
    and rounded to one decimal, that is, an integer or the float nearest to
    a decimal [d / 10]. *)
Definition one_decimal (q : Q) : Prop :=
  exists d : Z, (q == fl (inject_Z d / 10))%Q.

Definition valid_score (v : value) : Prop :=
  match v with
  | VInt z => (0 <= z <= 100)%Z
  | VFloat (FFin q) => (0 <= q <= 100)%Q /\ one_decimal q
  | _ => False
  end.

(** A well-formed analysis: the six feature dicts and the verification flag
    are present with their keys, the labels are strings and the
    suspicious-content ratio is a number; the flags are read by their truth
    value.  [bundle_of] reads the features off such an analysis. *)
Definition field (analysis : value) (section key : string) : option value :=
  match getitem analysis (lit section) with
  | Ok sub =>
      match getitem sub (lit key) with
      | Ok v => Some v
      | Raise _ => None
      end
  | Raise _ => None
  end.

Definition as_ratio (v : value) : option number :=
  match v with
  | VInt z => Some (NInt z)
  | VFloat FNan => None
  | VFloat f => Some (NFloat f)
  | _ => None
  end.

Definition bundle_of (analysis : value) : option (FeatureBundle * bool) :=
  match field analysis "account_age" "is_new",
        field analysis "follower_following_ratio" "is_suspicious",
        field analysis "bio_analysis" "risk_level",
        field analysis "content_analysis" "suspicious_content_ratio",
        field analysis "engagement_analysis" "pattern",
        field analysis "activity_patterns" "consistent_activity",
        getitem analysis (lit "verification_status")
  with
  | Some new, Some suspicious, Some (VStr bio), Some ratio,
    Some (VStr pattern), Some consistent, Ok verified =>
      match as_ratio ratio with
      | Some r =>
          Some ({| is_new := truthy new;
                   ratio_suspicious := truthy suspicious;
                   bio_risk := bio;
                   suspicious_content_ratio := r;
                   engagement_pattern := pattern;
                   consistent_activity := truthy consistent |},
                truthy verified)
      | None => None
      end
  | _, _, _, _, _, _, _ => None
  end.

(** The same bundle with another suspicious-content ratio. *)
Definition with_ratio (b : FeatureBundle) (r : number) : FeatureBundle :=
  {| is_new := is_new b; ratio_suspicious := ratio_suspicious b;
     bio_risk := bio_risk b; suspicious_content_ratio := r;
     engagement_pattern := engagement_pattern b;
     consistent_activity := consistent_activity b |}.

End RiskScorer.

(** ** Notions used to state and prove the properties *)
Module Numeric.
Import Float64 Py RiskScorer.

(** [max(0, min(100, s))] as Python evaluates it on a number: the literal
    is returned unless the number is strictly inside the bound. *)
Definition bounded (s : number) : number :=
  let capped := if num_ltb s (NInt 100) then s else NInt 100 in
  if num_ltb (NInt 0) capped then capped else NInt 0.

(** The score computed from the additive part. *)
Definition final (s : number) : number := round1 (bounded s).

(** The finite numbers and their value. *)
Definition finite (n : number) : Prop :=
  match n with
  | NInt _ | NFloat (FFin _) => True
  | _ => False
  end.

Definition value_of (n : number) : Q :=
  match n with
  | NInt z => inject_Z z
  | NFloat (FFin q) => q
  | _ => 0%Q
  end.

(** A float produced by an arithmetic operation is a binary64 number. *)
Definition rounded (n : number) : Prop :=
  match n with
  | NFloat (FFin q) => (fl q == q)%Q /\ (Qabs q < 2 ^ 1024)%Q
  | _ => True
  end.

Definition not_nan (n : number) : bool :=
  match n with
  | NFloat FNan => false
  | _ => true
  end.

(** Two finite floats in order, both of magnitude at most [M]. *)
Definition ordered_within (M : Z) (s t : number) : Prop :=
  exists x y, s = NFloat (FFin x) /\ t = NFloat (FFin y) /\
              (- inject_Z M <= x /\ x <= y /\ y <= inject_Z M)%Q.

End Numeric.

(** ** Sample inputs of the examples *)
Module Samples.
Import Float64 Py.
Import AccountAnalyzer (item, vstr).
Local Open Scope string_scope.

(** An account snapshot reduced to its two counts. *)
Definition snapshot (followers following : Z) : value :=
  VDict [item "followers_count" (VInt followers);
         item "following_count" (VInt following)].

(** A complete snapshot as [get_user_info] delivers it. *)
Definition user_info (description : value) (verified : bool) : value :=
  VDict [item "id" (vstr "42");
         item "username" (vstr "alice");
         item "name" (vstr "Alice");
         item "created_at" (VDatetime 0 true);
         item "description" description;
         item "followers_count" (VInt 5000);
         item "following_count" (VInt 0);
         item "tweet_count" (VInt 12);
         item "listed_count" (VInt 1);
         item "verified" (VBool verified)].

(** An analysis with every feature present: a new account with a medium-risk
    bio, minimal engagement and no consistent activity. *)
Definition analysis (ratio : value) (verified : bool) : value :=
  VDict [item "account_age" (VDict [item "is_new" (VBool true)]);
         item "follower_following_ratio" (VDict [item "is_suspicious" (VBool false)]);
         item "bio_analysis" (VDict [item "risk_level" (vstr "medium")]);
         item "content_analysis" (VDict [item "suspicious_content_ratio" ratio]);
         item "engagement_analysis" (VDict [item "pattern" (vstr "minimal_engagement")]);
         item "activity_patterns" (VDict [item "consistent_activity" (VBool false)]);
         item "verification_status" (VBool verified)].

Definition bundle (ratio : number) : RiskScorer.FeatureBundle :=
  {| RiskScorer.is_new := true;
     RiskScorer.ratio_suspicious := false;
     RiskScorer.bio_risk := lit "medium";
     RiskScorer.suspicious_content_ratio := ratio;
     RiskScorer.engagement_pattern := lit "minimal_engagement";
     RiskScorer.consistent_activity := false |}.

(** An analysis that holds nothing but the bio analysis of [bio]. *)
Definition bio_only (bio : value) : value :=
  VDict [item "bio_analysis" (AccountAnalyzer._analyze_bio example_runtime bio)].

(** A manager with no trusted account, and one refreshed at time 0. *)
Definition no_trusted : TrustedAccountsManager.state :=
  {| TrustedAccountsManager.trusted_accounts := [];
     TrustedAccountsManager.last_update := None |}.

Definition refreshed_at_0 : TrustedAccountsManager.state :=
  {| TrustedAccountsManager.trusted_accounts := [lit "alice"];
     TrustedAccountsManager.last_update := Some 0%Z |}.

Definition user_bob : value := VDict [item "username" (vstr "bob")].

(** A handle of 300 code points, and the trust score the manager builds for
    an account with enough trusted followers. *)
Definition long_handle : pystr := repeat 97%N 300.

Definition long_named : value := VDict [item "username" (VStr long_handle)].

Definition vouched : value :=
  VDict [item "is_trusted" (VBool true);
         item "trust_level" (vstr "vouched_by_trusted")].

End Samples.

(** ** Further notions: snapshots, timelines, handles and triggers *)
Module Shapes.
Import Float64 Py.
Import AccountAnalyzer (tweet, created_at, created_at_aware, utc_offset, instant, lang,
                        like_count, retweet_count, reply_count, count, days7).

(** The items of an account snapshot that [analyze_account] reads. *)
Definition snapshot_keys : list string :=
  ["username"; "name"; "created_at"; "description"; "verified";
   "followers_count"; "following_count"; "tweet_count"; "listed_count"]%string.

(** The number of tweets of a timeline written in the language [l]. *)
Definition written (l : pystr) (tweets : list tweet) : Z :=
  count (filter (fun t => str_eqb (lang t) l) tweets).

(** The counts of a tweet as the platform reports them: not negative and
    at most [2^50]. *)
Definition plausible (t : tweet) : Prop :=
  (0 <= like_count t <= 2 ^ 50 /\ 0 <= retweet_count t <= 2 ^ 50 /\
   0 <= reply_count t <= 2 ^ 50)%Z.

(** An average of plausible counts: an integer, or a float of moderate
    size. *)
Definition moderate (n : number) : Prop :=
  match n with
  | NInt z => True
  | NFloat (FFin q) => (fl q == q /\ 0 <= q <= inject_Z (2 ^ 52))%Q
  | _ => False
  end.

(** The earliest wall-clock creation time of a timeline [t0 :: rest]. *)
Definition earliest (t0 : tweet) (rest : list tweet) : Z :=
  fold_right (fun t oldest => Z.min (created_at t) oldest) (created_at t0) rest.

(** A timeline whose datetimes are all naive, or all aware with one UTC
    offset. *)
Definition one_zone (aware : bool) (offset : Z) (tweets : list tweet) : Prop :=
  forall t, In t tweets ->
    created_at_aware t = aware /\ (aware = true -> utc_offset t = offset).

(** A tweet of the last seven days. *)
Definition recent (now : Z) (t : tweet) : bool := (now - days7 <? created_at t)%Z.

(** A timeline in the order of [sorted(..., reverse=True)]. *)
Definition newest_first : list tweet -> Prop :=
  StronglySorted (fun a b => (instant b <= instant a)%Z).


(** The tweet a trigger reports. *)
Definition reported (trigger : value) : result value :=
  getitem trigger (lit "trigger_tweet_id").

(** What the loop of [check_for_triggers] keeps true, [seen] being the
    tweets processed before the call: the triggers found so far report
    distinct tweets, none of them seen before, all of them processed now. *)
Definition reported_once (seen : list Z) (triggers : list value) (processed : list Z)
  : Prop :=
  NoDup (map reported triggers) /\
  (forall i, In i seen -> In i processed) /\
  forall t, In t triggers ->
    exists i, reported t = Ok (VInt i) /\ In i processed /\ ~ In i seen.

End Shapes.

(** ** Further sample inputs *)
Module Cases.
Import Float64 Py.
Import AccountAnalyzer (item, vstr, tweet).
Local Open Scope string_scope.
Local Open Scope list_scope.

Definition day (n : Z) : Z := n * us_per_day.

Definition tweet_at (created likes : Z) (words : string) : tweet :=
  {| AccountAnalyzer.text := lit words;
     AccountAnalyzer.created_at := created;
     AccountAnalyzer.created_at_aware := true;
     AccountAnalyzer.utc_offset := 0;
     AccountAnalyzer.like_count := likes;
     AccountAnalyzer.retweet_count := 1;
     AccountAnalyzer.reply_count := 0;
     AccountAnalyzer.lang := lit "en" |}.

(** Two tweets, posted on days 100 and 101; the clock reads day 102. *)
Definition first_tweet : tweet := tweet_at (day 100) 3 "to the moon".
Definition second_tweet : tweet := tweet_at (day 101) 4 "research notes".
Definition two_tweets : list tweet := [first_tweet; second_tweet].
Definition today : Z := day 102.

(** The snapshot of [alice], created at time 0, with a short bio. *)
Definition alice : value := Samples.user_info (vstr "builder") false.

(** The analysis of [alice] from the two tweets, and from no tweet. *)
Definition alice_analysis : value :=
  AccountAnalyzer.analyze_account example_runtime default_config (lit "42") alice
    two_tweets today today.

Definition alice_analysis_without_tweets : value :=
  AccountAnalyzer.analyze_account example_runtime default_config (lit "42") alice
    [] today today.

(** A timeline of twenty tweets in the zone UTC+2, one a day from day 82
    to day 101, not in the order of their dates. *)
Definition two_hours : Z := 7200 * us_per_second.

Definition zoned_tweet (n : Z) : tweet :=
  {| AccountAnalyzer.text := lit "gm";
     AccountAnalyzer.created_at := day n;
     AccountAnalyzer.created_at_aware := true;
     AccountAnalyzer.utc_offset := two_hours;
     AccountAnalyzer.like_count := 2;
     AccountAnalyzer.retweet_count := 0;
     AccountAnalyzer.reply_count := 1;
     AccountAnalyzer.lang := lit "en" |}.

Definition busy_first : tweet := zoned_tweet 95.

Definition busy_rest : list tweet :=
  map zoned_tweet [101; 82; 90; 99; 84; 97; 88; 93; 86; 100;
                   83; 91; 98; 85; 96; 89; 94; 87; 92]%Z.

Definition busy_timeline : list tweet := busy_first :: busy_rest.

(** A trusted list as it is served: a comment and one handle. *)
Definition served_list : pystr :=
  lit "# trusted accounts" ++ [NL] ++ lit "@Alice" ++ [NL].


(** A platform that answers with the snapshot of [alice] and the two
    tweets, and accepts every reply. *)
Definition platform : RugguardBot.Platform :=
  {| RugguardBot.info_for_analysis := alice;
     RugguardBot.timeline := two_tweets;
     RugguardBot.info_for_trust := alice;
     RugguardBot.create_tweet := fun _ _ => Ok (VBool true) |}.

(** The reply [process_trigger] sends on that platform. *)
Definition sample_reply : pystr :=
  Eval vm_compute in
    match RugguardBot.sent
            (RugguardBot.process_trigger example_runtime default_config
               Samples.refreshed_at_0 platform today today 7 (lit "42")) with
    | Some reply => reply
    | None => []
    end.

End Cases.

(* ================================================================== *)
(** * Part II: lemmas and theorems *)
(* ================================================================== *)

Import Float64 Py.

(** ** Rounding to binary64

    The three facts the proofs below rest on: rounding is monotone
    ([fl_mono]), it leaves binary64 numbers unchanged ([fl_idem]), and the
    integers up to [2^53] are binary64 numbers ([fl_Z]). *)
Section Rounding.

Local Open Scope Q_scope.

Lemma pow2_pos k : 0 < 2 ^ k.
Proof. apply Qpower_0_lt. reflexivity. Qed.

Lemma pow2_nz k : ~ 2 ^ k == 0.
Proof. pose proof (pow2_pos k). lra. Qed.

Lemma pow2_add a b : 2 ^ (a + b) == 2 ^ a * 2 ^ b.
Proof. apply Qpower_plus. discriminate. Qed.

Lemma pow2_le a b : (a <= b)%Z -> 2 ^ a <= 2 ^ b.
Proof. intros. apply Qpower_le_compat_l; [assumption | discriminate]. Qed.

Lemma pow2_lt a b : (a < b)%Z -> 2 ^ a < 2 ^ b.
Proof. intros. apply Qpower_lt_compat_l; [assumption | reflexivity]. Qed.

Lemma pow2_le_inv a b : 2 ^ a <= 2 ^ b -> (a <= b)%Z.
Proof. intros. apply Qpower_le_compat_l_inv with (q := 2); [assumption | reflexivity]. Qed.

Lemma pow2_lt_inv a b : 2 ^ a < 2 ^ b -> (a < b)%Z.
Proof. intros. apply Qpower_lt_compat_l_inv with (q := 2); [assumption | reflexivity]. Qed.

Lemma pow2_Z a : (0 <= a)%Z -> inject_Z (2 ^ a) == 2 ^ a.
Proof. intros. apply (Zpower_Qpower 2 a H). Qed.

Lemma ilog2_spec x : 0 < x -> 2 ^ ilog2 x <= x /\ x < 2 ^ (ilog2 x + 1).
Proof.
  intros Hx. unfold ilog2.
  destruct x as [n d]. cbn [Qnum Qden].
  assert (Hn : (0 < n)%Z).
  { unfold Qlt in Hx. cbn in Hx. lia. }
  set (a := Z.log2 n). set (b := Z.log2 (Z.pos d)).
  destruct (Z.log2_spec n Hn) as [Ha1 Ha2]. fold a in Ha1, Ha2.
  destruct (Z.log2_spec (Z.pos d) (Pos2Z.is_pos d)) as [Hb1 Hb2]. fold b in Hb1, Hb2.
  assert (Ha0 : (0 <= a)%Z) by apply Z.log2_nonneg.
  assert (Hb0 : (0 <= b)%Z) by apply Z.log2_nonneg.
  assert (Hxq : n # d == inject_Z n / inject_Z (Z.pos d)) by apply Qmake_Qdiv.
  assert (Hdpos : 0 < inject_Z (Z.pos d)).
  { unfold Qlt; cbn; lia. }
  assert (HA1 : 2 ^ a <= inject_Z n).
  { rewrite <- pow2_Z by assumption. rewrite <- Zle_Qle. exact Ha1. }
  assert (HA2 : inject_Z n < 2 ^ (a + 1)).
  { rewrite <- pow2_Z by lia. rewrite <- Zlt_Qlt. replace (a + 1)%Z with (Z.succ a) by lia. exact Ha2. }
  assert (HB1 : 2 ^ b <= inject_Z (Z.pos d)).
  { rewrite <- pow2_Z by assumption. rewrite <- Zle_Qle. exact Hb1. }
  assert (HB2 : inject_Z (Z.pos d) < 2 ^ (b + 1)).
  { rewrite <- pow2_Z by lia. rewrite <- Zlt_Qlt. replace (b + 1)%Z with (Z.succ b) by lia. exact Hb2. }
  assert (Hup : n # d < 2 ^ (a - b + 1)).
  { rewrite Hxq. apply Qlt_shift_div_r; [assumption|].
    apply Qlt_le_trans with (1 := HA2).
    replace (a + 1)%Z with ((a - b + 1) + b)%Z by lia.
    rewrite pow2_add. apply Qmult_le_l; [apply pow2_pos | assumption]. }
  assert (Hlo : 2 ^ (a - b - 1) <= n # d).
  { rewrite Hxq. apply Qle_shift_div_l; [assumption|].
    apply Qle_trans with (2 := HA1).
    replace a with ((a - b - 1) + (b + 1))%Z at 2 by lia.
    rewrite pow2_add. apply Qmult_le_l; [apply pow2_pos | apply Qlt_le_weak; assumption]. }
  destruct (Qle_bool (2 ^ (a - b)) (n # d)) eqn:E.
  - apply Qle_bool_iff in E. split; assumption.
  - assert (~ 2 ^ (a - b) <= n # d) by (rewrite <- Qle_bool_iff; congruence).
    split; [assumption|]. replace (a - b - 1 + 1)%Z with (a - b)%Z by lia.
    apply Qnot_le_lt. assumption.
Qed.

Lemma ilog2_unique x k : 0 < x -> 2 ^ k <= x -> x < 2 ^ (k + 1) -> ilog2 x = k.
Proof.
  intros Hx H1 H2. destruct (ilog2_spec x Hx) as [H3 H4].
  assert (ilog2 x < k + 1)%Z by (apply pow2_lt_inv; lra).
  assert (k < ilog2 x + 1)%Z by (apply pow2_lt_inv; lra).
  lia.
Qed.

Lemma cexp_ge x : (emin <= cexp x)%Z.
Proof. unfold cexp. lia. Qed.

Lemma cexp_upper x : 0 < x -> x < 2 ^ (cexp x + 53).
Proof.
  intros Hx. destruct (ilog2_spec x Hx) as [_ H].
  apply Qlt_le_trans with (1 := H). apply pow2_le. unfold cexp. lia.
Qed.

Lemma cexp_lower x : 0 < x -> (emin < cexp x)%Z -> 2 ^ (cexp x + 52) <= x.
Proof.
  intros Hx He. destruct (ilog2_spec x Hx) as [H _].
  unfold cexp in *. replace (Z.max (ilog2 x - 52) emin + 52)%Z with (ilog2 x) by lia. exact H.
Qed.

Lemma cexp_mono x y : 0 < x -> x <= y -> (cexp x <= cexp y)%Z.
Proof.
  intros Hx Hxy.
  destruct (Z.le_gt_cases (cexp x) (cexp y)) as [|Hgt]; [assumption|exfalso].
  assert (Hy : 0 < y) by lra.
  pose proof (cexp_ge y).
  pose proof (cexp_lower x Hx ltac:(lia)) as H1.
  pose proof (cexp_upper y Hy) as H2.
  assert (2 ^ (cexp y + 53) <= 2 ^ (cexp x + 52)) by (apply pow2_le; lia).
  lra.
Qed.

Lemma rne_floor_or x : rne x = Qfloor x \/ rne x = (Qfloor x + 1)%Z.
Proof.
  unfold rne. destruct (Qcompare _ _); [destruct (Z.even _)|..]; auto.
Qed.

Lemma rne_mono x y : x <= y -> (rne x <= rne y)%Z.
Proof.
  intros Hxy. pose proof (Qfloor_resp_le x y Hxy) as Hf.
  destruct (rne_floor_or x) as [Hx|Hx]; destruct (rne_floor_or y) as [Hy|Hy]; try lia.
  destruct (Z.eq_dec (Qfloor x) (Qfloor y)) as [E|]; [|lia].
  exfalso. revert Hx Hy. unfold rne. rewrite <- E.
  destruct (Qcompare_spec (x - inject_Z (Qfloor x)) (1 # 2)) as [H1|H1|H1];
  destruct (Qcompare_spec (y - inject_Z (Qfloor x)) (1 # 2)) as [H2|H2|H2];
  try destruct (Z.even (Qfloor x)); try lia; intros _ _; lra.
Qed.

Lemma rne_Z z : rne (inject_Z z) = z.
Proof.
  unfold rne. rewrite Qfloor_Z.
  destruct (Qcompare_spec (inject_Z z - inject_Z z) (1 # 2)) as [H|H|H]; try reflexivity; lra.
Qed.

Lemma rne_compat x y : x == y -> rne x = rne y.
Proof.
  intros H. apply Z.le_antisymm; apply rne_mono; lra.
Qed.

Lemma rne_le_Z x z : x <= inject_Z z -> (rne x <= z)%Z.
Proof. intros H. rewrite <- (rne_Z z). apply rne_mono, H. Qed.

Lemma rne_ge_Z x z : inject_Z z <= x -> (z <= rne x)%Z.
Proof. intros H. rewrite <- (rne_Z z). apply rne_mono, H. Qed.

Lemma scaled_upper x : 0 < x -> x / 2 ^ cexp x <= inject_Z (2 ^ 53).
Proof.
  intros Hx. apply Qle_shift_div_r; [apply pow2_pos|].
  rewrite pow2_Z by lia. rewrite <- pow2_add.
  rewrite Z.add_comm. apply Qlt_le_weak, cexp_upper, Hx.
Qed.

Lemma scaled_lower x : 0 < x -> (emin < cexp x)%Z -> inject_Z (2 ^ 52) <= x / 2 ^ cexp x.
Proof.
  intros Hx He. apply Qle_shift_div_l; [apply pow2_pos|].
  rewrite pow2_Z by lia. rewrite <- pow2_add.
  rewrite Z.add_comm. apply cexp_lower; assumption.
Qed.

Lemma fl_pos_nonneg x : 0 < x -> 0 <= fl_pos x.
Proof.
  intros Hx. unfold fl_pos. apply Qmult_le_0_compat; [|apply Qlt_le_weak, pow2_pos].
  change 0 with (inject_Z 0). rewrite <- Zle_Qle. apply rne_ge_Z.
  apply Qle_shift_div_l; [apply pow2_pos|]. change (inject_Z 0) with 0. lra.
Qed.

Lemma fl_pos_mono x y : 0 < x -> x <= y -> fl_pos x <= fl_pos y.
Proof.
  intros Hx Hxy. assert (Hy : 0 < y) by lra.
  pose proof (cexp_mono x y Hx Hxy) as He. unfold fl_pos.
  destruct (Z.eq_dec (cexp x) (cexp y)) as [E|NE].
  - rewrite E. apply Qmult_le_compat_r; [|apply Qlt_le_weak, pow2_pos].
    rewrite <- Zle_Qle. apply rne_mono.
    apply Qle_shift_div_l; [apply pow2_pos|].
    unfold Qdiv. rewrite <- Qmult_assoc, (Qmult_comm (/ _)), Qmult_inv_r by apply pow2_nz. lra.
  - pose proof (cexp_ge x).
    apply Qle_trans with (2 ^ (cexp y + 52)).
    + apply Qle_trans with (inject_Z (2 ^ 53) * 2 ^ cexp x).
      * apply Qmult_le_compat_r; [|apply Qlt_le_weak, pow2_pos].
        rewrite <- Zle_Qle. apply rne_le_Z, scaled_upper, Hx.
      * rewrite pow2_Z by lia. rewrite <- pow2_add. apply pow2_le. lia.
    + apply Qle_trans with (inject_Z (2 ^ 52) * 2 ^ cexp y).
      * rewrite pow2_Z by lia. rewrite <- pow2_add. apply pow2_le. lia.
      * apply Qmult_le_compat_r; [|apply Qlt_le_weak, pow2_pos].
        rewrite <- Zle_Qle. apply rne_ge_Z, scaled_lower; [assumption|lia].
Qed.

Lemma fl_pos_compat x y : 0 < x -> x == y -> fl_pos x == fl_pos y.
Proof.
  intros Hx E. apply Qle_antisym; apply fl_pos_mono; lra.
Qed.

Lemma fl_unfold x : fl x == fl_raw x.
Proof. apply Qred_correct. Qed.

Lemma fl_mono x y : x <= y -> fl x <= fl y.
Proof.
  intros Hxy. rewrite !fl_unfold. unfold fl_raw.
  destruct (Qcompare_spec x 0) as [Hx|Hx|Hx]; destruct (Qcompare_spec y 0) as [Hy|Hy|Hy];
    try lra.
  - pose proof (fl_pos_nonneg y Hy). lra.
  - pose proof (fl_pos_nonneg (- x) ltac:(lra)). lra.
  - pose proof (fl_pos_mono (- y) (- x) ltac:(lra) ltac:(lra)). lra.
  - pose proof (fl_pos_nonneg (- x) ltac:(lra)). pose proof (fl_pos_nonneg y Hy). lra.
  - apply fl_pos_mono; lra.
Qed.

Lemma fl_compat x y : x == y -> fl x == fl y.
Proof. intros E. apply Qle_antisym; apply fl_mono; lra. Qed.

Lemma fl_opp x : fl (- x) == - fl x.
Proof.
  rewrite !fl_unfold. unfold fl_raw.
  destruct (Qcompare_spec x 0) as [Hx|Hx|Hx]; destruct (Qcompare_spec (- x) 0) as [Hy|Hy|Hy];
    try lra.
  rewrite (fl_pos_compat (- - x) x); lra.
Qed.

(* Every [m * 2^e] with [0 < m <= 2^53] and [emin <= e] is a binary64 number. *)
Lemma fl_pos_repr m e :
  (0 < m <= 2 ^ 53)%Z -> (emin <= e)%Z ->
  fl_pos (inject_Z m * 2 ^ e) == inject_Z m * 2 ^ e.
Proof.
  intros Hm He. set (v := inject_Z m * 2 ^ e).
  assert (Hv : 0 < v).
  { apply Qmult_lt_0_compat; [|apply pow2_pos]. change 0 with (inject_Z 0). rewrite <- Zlt_Qlt. lia. }
  unfold fl_pos. set (e' := cexp v).
  assert (Hscale : forall k, (0 <= k)%Z -> (e = e' + k)%Z -> v / 2 ^ e' == inject_Z (m * 2 ^ k)).
  { intros k Hk Ek. unfold v. rewrite Ek, pow2_add, inject_Z_mult, pow2_Z by assumption.
    field. apply pow2_nz. }
  destruct (Z.le_gt_cases e' e) as [Hle|Hgt].
  - rewrite (rne_compat _ _ (Hscale (e - e')%Z ltac:(lia) ltac:(lia))), rne_Z.
    rewrite <- (Hscale (e - e')%Z ltac:(lia) ltac:(lia)). field. apply pow2_nz.
  - assert (Hlow : 2 ^ (e' + 52) <= v) by (apply cexp_lower; [assumption|fold e'; lia]).
    assert (Hup : v <= 2 ^ (e + 53)).
    { unfold v. rewrite Z.add_comm, pow2_add. apply Qmult_le_compat_r; [|apply Qlt_le_weak, pow2_pos].
      rewrite <- pow2_Z by lia. rewrite <- Zle_Qle. lia. }
    assert (e' = e + 1)%Z.
    { assert (e' + 52 <= e + 53)%Z by (apply pow2_le_inv; lra). lia. }
    assert (Hm53 : m = (2 ^ 53)%Z).
    { assert (inject_Z (2 ^ 53) <= inject_Z m); [|rewrite <- Zle_Qle in *; lia].
      apply Qmult_le_r with (z := 2 ^ e); [apply pow2_pos|]. fold v.
      rewrite pow2_Z, <- pow2_add by lia. replace (53 + e)%Z with (e' + 52)%Z by lia. exact Hlow. }
    assert (Hs : v / 2 ^ e' == inject_Z (2 ^ 52)).
    { unfold v. subst m. rewrite H. rewrite pow2_add. rewrite !pow2_Z by lia.
      change (2 ^ 53) with (2 ^ 52 * 2 ^ 1) at 1.
      field. repeat split; try apply pow2_nz; discriminate. }
    rewrite (rne_compat _ _ Hs), rne_Z. rewrite <- Hs. field. apply pow2_nz.
Qed.

Lemma fl_pos_idem x : 0 < x -> 0 < fl_pos x -> fl_pos (fl_pos x) == fl_pos x.
Proof.
  intros Hx Hpos. unfold fl_pos at 2 3. apply fl_pos_repr; [|apply cexp_ge].
  split.
  - assert (0 < inject_Z (rne (x / 2 ^ cexp x))); [|rewrite Zlt_Qlt; assumption].
    unfold fl_pos in Hpos. pose proof (pow2_pos (cexp x)).
    destruct (Qlt_le_dec 0 (inject_Z (rne (x / 2 ^ cexp x)))) as [|Hn]; [assumption|exfalso].
    assert (inject_Z (rne (x / 2 ^ cexp x)) * 2 ^ cexp x <= 0 * 2 ^ cexp x).
    { apply Qmult_le_compat_r; lra. }
    lra.
  - apply rne_le_Z, scaled_upper, Hx.
Qed.

Lemma fl_idem x : fl (fl x) == fl x.
Proof.
  assert (Hp : forall x, 0 < x -> fl (fl_pos x) == fl_pos x).
  { intros y Hy. destruct (Qlt_le_dec 0 (fl_pos y)) as [Hpos|Hz].
    - rewrite fl_unfold. unfold fl_raw.
      destruct (Qcompare_spec (fl_pos y) 0); try lra. apply fl_pos_idem; assumption.
    - pose proof (fl_pos_nonneg y Hy). rewrite fl_unfold. unfold fl_raw.
      destruct (Qcompare_spec (fl_pos y) 0); lra. }
  rewrite (fl_compat (fl x) (fl_raw x)) by apply fl_unfold.
  rewrite (fl_unfold x). unfold fl_raw.
  destruct (Qcompare_spec x 0) as [Hx|Hx|Hx].
  - reflexivity.
  - rewrite fl_opp. rewrite Hp by lra. reflexivity.
  - apply Hp, Hx.
Qed.

Lemma fl_Z z : (Z.abs z <= 2 ^ 53)%Z -> fl (inject_Z z) == inject_Z z.
Proof.
  assert (Hp : forall m, (0 < m <= 2 ^ 53)%Z -> fl (inject_Z m) == inject_Z m).
  { intros m Hm. rewrite fl_unfold. unfold fl_raw.
    assert (0 < inject_Z m) by (change 0 with (inject_Z 0); rewrite <- Zlt_Qlt; lia).
    destruct (Qcompare_spec (inject_Z m) 0); try lra.
    rewrite (fl_pos_compat (inject_Z m) (inject_Z m * 2 ^ 0)) by (try assumption; cbn; lra).
    rewrite fl_pos_repr by (unfold emin; lia). cbn. lra. }
  intros Hz. destruct (Z.lt_trichotomy z 0) as [Hn|[->|Hp0]].
  - rewrite <- (Z.opp_involutive z), inject_Z_opp, fl_opp, Hp by lia. reflexivity.
  - reflexivity.
  - apply Hp. lia.
Qed.

End Rounding.

(** ** Overflow and comparison of floats *)
Section Overflow.
Local Open Scope Q_scope.

Lemma Qltb_true x y : Qltb x y = true <-> x < y.
Proof.
  unfold Qltb. rewrite negb_true_iff. split.
  - intros H. apply Qnot_le_lt. intros L. apply Qle_bool_iff in L. congruence.
  - intros H. destruct (Qle_bool y x) eqn:E; [|reflexivity].
    apply Qle_bool_iff in E. lra.
Qed.

Lemma Qltb_false x y : Qltb x y = false <-> y <= x.
Proof.
  unfold Qltb. rewrite negb_false_iff. apply Qle_bool_iff.
Qed.

Lemma fl_0 : fl 0 == 0.
Proof. reflexivity. Qed.

Lemma fl_nonneg x : 0 <= x -> 0 <= fl x.
Proof. intros H. rewrite <- fl_0. apply fl_mono, H. Qed.

Lemma big_pow : inject_Z (2 ^ 53) < 2 ^ 1024.
Proof. rewrite pow2_Z by lia. apply pow2_lt. lia. Qed.

(* No overflow below [2^53]. *)
Lemma fl_ov_small x m :
  (0 <= m <= 2 ^ 53)%Z -> - inject_Z m <= x <= inject_Z m ->
  fl_ov x = FFin (fl x) /\ - inject_Z m <= fl x <= inject_Z m.
Proof.
  intros Hm [Hlo Hhi].
  assert (Hb : - inject_Z m <= fl x <= inject_Z m).
  { split.
    - rewrite <- (fl_Z m) by lia. rewrite <- fl_opp. apply fl_mono, Hlo.
    - rewrite <- (fl_Z m) by lia. apply fl_mono, Hhi. }
  split; [|exact Hb]. unfold fl_ov.
  destruct (Qle_bool (2 ^ 1024) (Qabs (fl x))) eqn:E; [exfalso|reflexivity].
  apply Qle_bool_iff in E.
  assert (Qabs (fl x) <= inject_Z m) by (apply Qabs_Qle_condition; exact Hb).
  assert (inject_Z m <= inject_Z (2 ^ 53)) by (rewrite <- Zle_Qle; lia).
  pose proof big_pow. lra.
Qed.

Lemma fl_ov_cases x :
  (fl_ov x = FFin (fl x) /\ Qabs (fl x) < 2 ^ 1024) \/ exists s, fl_ov x = FInf s.
Proof.
  unfold fl_ov. destruct (Qle_bool (2 ^ 1024) (Qabs (fl x))) eqn:E.
  - right. eexists. reflexivity.
  - left. split; [reflexivity|]. apply Qnot_le_lt. intros L.
    apply Qle_bool_iff in L. congruence.
Qed.

Lemma rne_upper x : inject_Z (rne x) <= x + 1.
Proof.
  pose proof (Qfloor_le x).
  destruct (rne_floor_or x) as [-> | ->]; [lra|].
  rewrite inject_Z_plus. change (inject_Z 1) with 1. lra.
Qed.

Lemma rne_lower x : x - 1 <= inject_Z (rne x).
Proof.
  pose proof (Qlt_floor x) as H. rewrite inject_Z_plus in H. change (inject_Z 1) with 1 in H.
  destruct (rne_floor_or x) as [-> | ->]; [lra|].
  rewrite inject_Z_plus. change (inject_Z 1) with 1. lra.
Qed.

(* A binary64 number of magnitude [2^53] or more is an integer. *)
Lemma large_float_integral q :
  fl q == q -> inject_Z (2 ^ 53) <= q -> exists z, q == inject_Z z.
Proof.
  intros Hq Hbig.
  assert (Hpos : 0 < q).
  { assert (0 < inject_Z (2 ^ 53)) by reflexivity. lra. }
  rewrite fl_unfold in Hq. unfold fl_raw in Hq.
  destruct (Qcompare_spec q 0); try lra.
  unfold fl_pos in Hq.
  assert (He : (1 <= cexp q)%Z).
  { destruct (ilog2_spec q Hpos) as [_ Hu].
    assert (53 < ilog2 q + 1)%Z.
    { apply pow2_lt_inv. rewrite <- (pow2_Z 53) by lia. lra. }
    unfold cexp. lia. }
  exists (rne (q / 2 ^ cexp q) * 2 ^ cexp q)%Z.
  rewrite inject_Z_mult, pow2_Z by lia. symmetry. exact Hq.
Qed.

(* Rounding a non-negative float to [ndigits] decimals never overflows. *)
Lemma fround_total q ndigits :
  (0 <= ndigits)%Z -> fl q == q -> 0 <= q -> q < 2 ^ 1024 ->
  exists r, fround (FFin q) ndigits = Some (FFin r) /\ 0 <= r.
Proof.
  intros Hn Hq Hpos Hmax. unfold fround.
  set (p := inject_Z (10 ^ ndigits)).
  assert (Hp : 1 <= p).
  { unfold p. change 1 with (inject_Z 1). rewrite <- Zle_Qle.
    pose proof (Z.pow_pos_nonneg 10 ndigits ltac:(lia) Hn). lia. }
  set (x := inject_Z (rne (q * p)) / p).
  assert (Hx0 : 0 <= x).
  { unfold x. apply Qle_shift_div_l; [lra|]. rewrite Qmult_0_l.
    change 0 with (inject_Z 0). rewrite <- Zle_Qle. apply rne_ge_Z.
    change (inject_Z 0) with 0. apply Qmult_le_0_compat; lra. }
  assert (Hfin : exists r, fl_ov x = FFin r /\ 0 <= r).
  { destruct (Qlt_le_dec q (inject_Z (2 ^ 53))) as [Hsmall|Hlarge].
    - assert (Hx1 : x <= inject_Z (2 ^ 53)).
      { unfold x. apply Qle_shift_div_r; [lra|].
        unfold p. rewrite <- inject_Z_mult, <- Zle_Qle. apply rne_le_Z.
        rewrite inject_Z_mult. fold p. apply Qmult_le_compat_r; lra. }
      destruct (fl_ov_small x (2 ^ 53) ltac:(lia)) as [E _].
      { assert (0 < inject_Z (2 ^ 53)) by reflexivity. lra. }
      exists (fl x). split; [exact E|apply fl_nonneg, Hx0].
    - destruct (large_float_integral q Hq Hlarge) as [z Hz].
      assert (Hxq : x == q).
      { unfold x. rewrite (rne_compat (q * p) (inject_Z (z * 10 ^ ndigits))).
        - rewrite rne_Z, inject_Z_mult. fold p. rewrite Hz. field. lra.
        - rewrite inject_Z_mult. fold p. rewrite Hz. reflexivity. }
      assert (Hfx : fl x == q) by (rewrite (fl_compat x q Hxq); exact Hq).
      exists (fl x). split; [|apply fl_nonneg, Hx0].
      unfold fl_ov. destruct (Qle_bool (2 ^ 1024) (Qabs (fl x))) eqn:E; [exfalso|reflexivity].
      apply Qle_bool_iff in E. rewrite Hfx, Qabs_pos in E by exact Hpos. lra. }
  destruct Hfin as [r [-> Hr]]. exists r. split; [reflexivity|exact Hr].
Qed.
End Overflow.

(** ** Comparison and rounding of numbers *)
Import Numeric.

Ltac qprops :=
  repeat match goal with
  | H : Qltb _ _ = true |- _ => apply Qltb_true in H
  | H : Qltb _ _ = false |- _ => apply Qltb_false in H
  end.

Section Numbers.
Local Open Scope Q_scope.

Lemma Qeq_bool_true x y : Qeq_bool x y = true <-> x == y.
Proof. apply Qeq_bool_iff. Qed.

Lemma num_leb_finite a b :
  finite a -> finite b -> (num_leb a b = true <-> value_of a <= value_of b).
Proof.
  unfold num_leb, num_ltb, num_eqb.
  destruct a as [x|[x| |]], b as [y|[y| |]]; cbn; try contradiction; intros _ _.
  - rewrite orb_true_iff, Z.ltb_lt, Z.eqb_eq, <- Zle_Qle. lia.
  - rewrite orb_true_iff, Qltb_true, Qeq_bool_true. split; [intros [|]; lra|].
    intros H. destruct (Qlt_le_dec (inject_Z x) y); [left; assumption|right; lra].
  - rewrite orb_true_iff, Qltb_true, Qeq_bool_true. split; [intros [|]; lra|].
    intros H. destruct (Qlt_le_dec x (inject_Z y)); [left; assumption|right; lra].
  - rewrite orb_true_iff, Qltb_true, Qeq_bool_true. split; [intros [|]; lra|].
    intros H. destruct (Qlt_le_dec x y); [left; assumption|right; lra].
Qed.

Lemma num_eqb_finite a b :
  finite a -> finite b -> (num_eqb a b = true <-> value_of a == value_of b).
Proof.
  unfold num_eqb.
  destruct a as [x|[x| |]], b as [y|[y| |]]; cbn; try contradiction; intros _ _;
    try apply Qeq_bool_true.
  rewrite Z.eqb_eq. symmetry. apply inject_Z_injective.
Qed.

(** Rounding to one decimal inside the bounds. *)
Lemma fround1_range q :
  0 <= q <= 100 ->
  fround (FFin q) 1 = Some (FFin (fl (inject_Z (rne (q * 10)) / 10))) /\
  0 <= fl (inject_Z (rne (q * 10)) / 10) <= 100.
Proof.
  intros [H0 H1]. unfold fround. change (inject_Z (10 ^ 1)) with 10.
  set (d := rne (q * 10)).
  assert (Hd : (0 <= d <= 1000)%Z).
  { split; [apply rne_ge_Z|apply rne_le_Z].
    - change (inject_Z 0) with 0. lra.
    - change (inject_Z 1000) with 1000. lra. }
  assert (Hx : 0 <= inject_Z d / 10 <= 100).
  { destruct Hd as [Hd0 Hd1]. rewrite Zle_Qle in Hd0, Hd1.
    change (inject_Z 0) with 0 in Hd0. change (inject_Z 1000) with 1000 in Hd1.
    split; [apply Qle_shift_div_l|apply Qle_shift_div_r]; lra. }
  destruct (fl_ov_small (inject_Z d / 10) 100 ltac:(lia)) as [E [_ B]].
  { change (inject_Z 100) with 100. lra. }
  rewrite E. split; [reflexivity|]. split; [apply fl_nonneg; lra|exact B].
Qed.

Lemma one_decimal_fround q :
  RiskScorer.one_decimal (fl (inject_Z (rne (q * 10)) / 10)).
Proof. exists (rne (q * 10)). reflexivity. Qed.

End Numbers.


(** ** The risk score is always valid (C2) *)
Section Validity.
Import AccountAnalyzer RiskScorer.
Local Open Scope Q_scope.

Lemma flt_bounds f :
  flt f (FFin 100) = true -> flt (FFin 0) f = true ->
  exists q, f = FFin q /\ 0 < q < 100.
Proof.
  destruct f as [q|s|]; cbn; try discriminate.
  - rewrite !Qltb_true. intros. exists q. split; [reflexivity|split; assumption].
  - destruct s; discriminate.
Qed.

Lemma bounds_then_round_valid risk_score v :
  (let* capped := min_lit 100 risk_score in
   let* bounded := max_lit 0 capped in round bounded 1) = Ok v ->
  valid_score v.
Proof.
  unfold min_lit, max_lit, lt_num, gt_num.
  destruct (to_number risk_score) as [n|] eqn:N; cbn [bind]; [|discriminate].
  destruct (num_ltb n (NInt 100)) eqn:L1.
  - rewrite N. cbn [bind]. destruct (num_ltb (NInt 0) n) eqn:L2.
    + destruct risk_score; try discriminate; cbn in N; injection N as <-.
      * intros [= <-]. destruct b; cbn; lia.
      * intros [= <-]. cbn in L1, L2. cbn. lia.
      * cbn in L1, L2. destruct (flt_bounds f L1 L2) as [q [-> [Q0 Q1]]].
        cbn [round]. destruct (fround1_range q) as [E B]; [lra|].
        rewrite E. intros [= <-]. split; [exact B|apply one_decimal_fround].
    + cbn. intros [= <-]. cbn. lia.
  - cbn. intros [= <-]. cbn. lia.
Qed.

Lemma default_score_valid : valid_score (VFloat f50).
Proof.
  cbn. split; [lra|]. exists 500%Z. reflexivity.
Qed.

(** C2: for every analysis, whatever object it is, [_calculate_risk_score]
    returns a score between 0 and 100 that is rounded to one decimal; and
    when anything inside its [try] block raises, it returns exactly the
    default 50.0. *)
Theorem risk_score_valid analysis :
  valid_score (_calculate_risk_score analysis) /\
  (forall e, risk_score_body analysis = Raise e ->
             _calculate_risk_score analysis = VFloat f50).
Proof.
  unfold _calculate_risk_score. split.
  - destruct (risk_score_body analysis) as [v|] eqn:E; cbn [except].
    + unfold risk_score_body in E.
      destruct (risk_factors analysis) as [risk_score|]; cbn [bind] in E; [|discriminate].
      exact (bounds_then_round_valid risk_score v E).
    + exact default_score_valid.
  - intros e ->. reflexivity.
Qed.

End Validity.

(** The score of an empty analysis: the first lookup raises [KeyError]. *)
Lemma risk_score_valid_witness :
  RiskScorer.valid_score (AccountAnalyzer._calculate_risk_score (VDict [])) /\
  AccountAnalyzer._calculate_risk_score (VDict []) = VFloat f50.
Proof.
  split.
  - exact (proj1 (risk_score_valid (VDict []))).
  - apply (proj2 (risk_score_valid (VDict [])) KeyError). reflexivity.
Defined.

(** ** The risk score is the additive formula (C5) *)
Section Formula.
Import AccountAnalyzer RiskScorer.
Local Open Scope string_scope.

Lemma to_number_of_number n : to_number (of_number n) = Some n.
Proof. destruct n; reflexivity. Qed.

Lemma converts_small z : (Z.abs z <= 2 ^ 53)%Z -> converts (NInt z) = true.
Proof.
  intros H. unfold converts.
  destruct (fl_ov_small (inject_Z z) (Z.abs z)) as [E _].
  - lia.
  - rewrite <- inject_Z_opp, <- !Zle_Qle. lia.
  - rewrite E. reflexivity.
Qed.

Lemma add_lit s c :
  converts (NInt c) = true ->
  add (of_number s) (VInt c) = Ok (of_number (nadd s (NInt c))).
Proof.
  intros H. unfold add. rewrite to_number_of_number. cbn [to_number].
  destruct s; cbn [arith]; [reflexivity|]. rewrite H. reflexivity.
Qed.

Lemma sub_lit s c :
  converts (NInt c) = true ->
  sub (of_number s) (VInt c) = Ok (of_number (nsub s (NInt c))).
Proof.
  intros H. unfold sub. rewrite to_number_of_number. cbn [to_number].
  destruct s; cbn [arith]; [reflexivity|]. rewrite H. reflexivity.
Qed.

Lemma as_ratio_number r n : as_ratio r = Some n -> r = of_number n /\ not_nan n = true.
Proof.
  destruct r; try discriminate; cbn.
  - intros [= <-]. split; reflexivity.
  - destruct f; try discriminate; intros [= <-]; split; reflexivity.
Qed.

Lemma add_to_int z w :
  converts (NInt z) = true ->
  add (VInt z) (of_number w) = Ok (of_number (nadd (NInt z) w)).
Proof.
  intros H. unfold add. rewrite to_number_of_number. cbn [to_number].
  destruct w; cbn [arith]; [reflexivity|]. rewrite H. reflexivity.
Qed.

Lemma field_inv analysis section key v :
  field analysis section key = Some v ->
  exists sub, getitem analysis (lit section) = Ok sub /\ getitem sub (lit key) = Ok v.
Proof.
  unfold field. destruct (getitem analysis (lit section)) as [sub|]; [|discriminate].
  destruct (getitem sub (lit key)) as [x|] eqn:E; [|discriminate].
  intros [= <-]. exists sub. split; [reflexivity|exact E].
Qed.

Lemma bundle_of_inv analysis b verified :
  bundle_of analysis = Some (b, verified) ->
  (exists v, field analysis "account_age" "is_new" = Some v /\
             truthy v = is_new b) /\
  (exists v, field analysis "follower_following_ratio" "is_suspicious" = Some v /\
             truthy v = ratio_suspicious b) /\
  field analysis "bio_analysis" "risk_level" = Some (VStr (bio_risk b)) /\
  (exists r, field analysis "content_analysis" "suspicious_content_ratio" = Some r /\
             as_ratio r = Some (suspicious_content_ratio b)) /\
  field analysis "engagement_analysis" "pattern" = Some (VStr (engagement_pattern b)) /\
  (exists v, field analysis "activity_patterns" "consistent_activity" = Some v /\
             truthy v = consistent_activity b) /\
  (exists v, getitem analysis (lit "verification_status") = Ok v /\
             truthy v = verified).
Proof.
  unfold bundle_of. intros H.
  destruct (field analysis "account_age" "is_new") as [new|]; try discriminate.
  destruct (field analysis "follower_following_ratio" "is_suspicious") as [suspicious|];
    try discriminate.
  destruct (field analysis "bio_analysis" "risk_level") as [[]|]; try discriminate.
  destruct (field analysis "content_analysis" "suspicious_content_ratio") as [r|];
    try discriminate.
  destruct (field analysis "engagement_analysis" "pattern") as [[]|]; try discriminate.
  destruct (field analysis "activity_patterns" "consistent_activity") as [consistent|];
    try discriminate.
  destruct (getitem analysis (lit "verification_status")) as [flag|]; try discriminate.
  destruct (as_ratio r) as [n|] eqn:R; try discriminate.
  injection H as <- <-. cbn.
  repeat split; try reflexivity; eexists; (split; [reflexivity|]);
    first [reflexivity | exact R].
Qed.

Lemma mul_lit n c :
  converts (NInt c) = true ->
  mul (of_number n) (VInt c) = Ok (of_number (nmul n (NInt c))).
Proof.
  intros H. unfold mul. rewrite to_number_of_number. cbn [to_number].
  destruct n; cbn [arith]; [reflexivity|]. rewrite H. reflexivity.
Qed.

Section Factors.

Variables (analysis : value) (b : FeatureBundle) (verified : bool).
Hypothesis well_formed : bundle_of analysis = Some (b, verified).

Lemma age_factor_spec s :
  age_factor analysis (of_number s)
  = Ok (of_number (if is_new b then nadd s (NInt 25) else s)).
Proof.
  destruct (bundle_of_inv _ _ _ well_formed) as ((v & H & T) & _).
  destruct (field_inv _ _ _ _ H) as (sub & H1 & H2).
  unfold age_factor. rewrite H1. cbn [bind]. rewrite H2. cbn [bind]. rewrite T.
  destruct (is_new b); [apply add_lit|]; reflexivity.
Qed.

Lemma ratio_factor_spec s :
  ratio_factor analysis (of_number s)
  = Ok (of_number (if ratio_suspicious b then nadd s (NInt 20) else s)).
Proof.
  destruct (bundle_of_inv _ _ _ well_formed) as (_ & (v & H & T) & _).
  destruct (field_inv _ _ _ _ H) as (sub & H1 & H2).
  unfold ratio_factor. rewrite H1. cbn [bind]. rewrite H2. cbn [bind]. rewrite T.
  destruct (ratio_suspicious b); [apply add_lit|]; reflexivity.
Qed.

Lemma bio_factor_spec s :
  bio_factor analysis (of_number s)
  = Ok (of_number (if str_eqb (bio_risk b) (lit "high") then nadd s (NInt 20)
                   else if str_eqb (bio_risk b) (lit "medium") then nadd s (NInt 10)
                   else s)).
Proof.
  destruct (bundle_of_inv _ _ _ well_formed) as (_ & _ & H & _).
  destruct (field_inv _ _ _ _ H) as (sub & H1 & H2).
  unfold bio_factor. rewrite H1. cbn [bind]. rewrite H2. cbn [bind eq_str].
  destruct (str_eqb (bio_risk b) (lit "high")); [apply add_lit; reflexivity|].
  destruct (str_eqb (bio_risk b) (lit "medium")); [apply add_lit|]; reflexivity.
Qed.

Lemma content_factor_spec z :
  converts (NInt z) = true ->
  content_factor analysis (VInt z)
  = Ok (of_number (nadd (NInt z) (nmul (suspicious_content_ratio b) (NInt 15)))).
Proof.
  intros Hz.
  destruct (bundle_of_inv _ _ _ well_formed) as (_ & _ & _ & (r & H & R) & _).
  destruct (field_inv _ _ _ _ H) as (sub & H1 & H2).
  destruct (as_ratio_number _ _ R) as [-> _].
  unfold content_factor. rewrite H1. cbn [bind]. rewrite H2. cbn [bind].
  rewrite mul_lit by reflexivity. cbn [bind]. apply add_to_int, Hz.
Qed.

Lemma engagement_factor_spec s :
  engagement_factor analysis (of_number s)
  = Ok (of_number
          (if str_eqb (engagement_pattern b) (lit "minimal_engagement")
           then nadd s (NInt 10)
           else if str_eqb (engagement_pattern b) (lit "high_engagement")
           then nsub s (NInt 5)
           else s)).
Proof.
  destruct (bundle_of_inv _ _ _ well_formed) as (_ & _ & _ & _ & H & _).
  destruct (field_inv _ _ _ _ H) as (sub & H1 & H2).
  unfold engagement_factor. rewrite H1. cbn [bind]. rewrite H2. cbn [bind eq_str].
  destruct (str_eqb (engagement_pattern b) (lit "minimal_engagement"));
    [apply add_lit; reflexivity|].
  destruct (str_eqb (engagement_pattern b) (lit "high_engagement"));
    [apply sub_lit|]; reflexivity.
Qed.

Lemma activity_factor_spec s :
  activity_factor analysis (of_number s)
  = Ok (of_number (if negb (consistent_activity b) then nadd s (NInt 10) else s)).
Proof.
  destruct (bundle_of_inv _ _ _ well_formed) as (_ & _ & _ & _ & _ & (v & H & T) & _).
  destruct (field_inv _ _ _ _ H) as (sub & H1 & H2).
  unfold activity_factor. rewrite H1. cbn [bind]. rewrite H2. cbn [bind]. rewrite T.
  destruct (consistent_activity b); cbn [negb]; [|apply add_lit]; reflexivity.
Qed.

Lemma verification_factor_spec s :
  verification_factor analysis (of_number s)
  = Ok (of_number (if verified then nsub s (NInt 15) else s)).
Proof.
  destruct (bundle_of_inv _ _ _ well_formed) as (_ & _ & _ & _ & _ & _ & (v & H & T)).
  unfold verification_factor. rewrite H. cbn [bind]. rewrite T.
  destruct verified; [apply sub_lit|]; reflexivity.
Qed.

(** On a well-formed analysis no factor raises, and they add up to the
    formula. *)
Lemma risk_factors_of_bundle :
  risk_factors analysis = Ok (of_number (additive b verified)).
Proof.
  unfold risk_factors. change (VInt 0) with (of_number (NInt 0)).
  rewrite age_factor_spec. cbn [bind].
  rewrite ratio_factor_spec. cbn [bind].
  rewrite bio_factor_spec. cbn [bind].
  unfold additive.
  destruct (is_new b), (ratio_suspicious b),
           (str_eqb (bio_risk b) (lit "high")), (str_eqb (bio_risk b) (lit "medium"));
    cbn [nadd Z.add Pos.add Pos.succ Pos.add_carry of_number];
    (rewrite content_factor_spec by reflexivity); cbn [bind];
    rewrite engagement_factor_spec; cbn [bind];
    rewrite activity_factor_spec; cbn [bind];
    apply verification_factor_spec.
Qed.

End Factors.
End Formula.

Section Bounded.
Import AccountAnalyzer RiskScorer.
Local Open Scope Q_scope.

(** The bounds and the rounding of the code on a number. *)
Lemma bounds_then_round s :
  (let* capped := min_lit 100 (of_number s) in
   let* bounded := max_lit 0 capped in round bounded 1)
  = Ok (of_number (round1 (bounded s))).
Proof.
  unfold min_lit, max_lit, lt_num, gt_num, bounded.
  rewrite to_number_of_number. cbn [bind].
  destruct (num_ltb s (NInt 100)) eqn:L1.
  - rewrite to_number_of_number. cbn [bind].
    destruct (num_ltb (NInt 0) s) eqn:L2; [|reflexivity].
    destruct s as [z|f]; [reflexivity|]. cbn in L1, L2.
    destruct (flt_bounds f L1 L2) as [q [-> [Q0 Q1]]].
    cbn [of_number round round1].
    destruct (fround1_range q) as [E _]; [lra|]. rewrite E. reflexivity.
  - reflexivity.
Qed.

Lemma score_of_bundle analysis b verified :
  bundle_of analysis = Some (b, verified) ->
  _calculate_risk_score analysis = of_number (round1 (bounded (additive b verified))).
Proof.
  intros H. unfold _calculate_risk_score, risk_score_body.
  rewrite (risk_factors_of_bundle analysis b verified H). cbn [bind].
  rewrite bounds_then_round. reflexivity.
Qed.

(** The score is one of [0], [100] or a float rounded inside the bounds. *)
Lemma bounded_round_finite s :
  finite (round1 (bounded s)) /\ 0 <= value_of (round1 (bounded s)) <= 100.
Proof.
  unfold bounded.
  destruct (num_ltb s (NInt 100)) eqn:L1;
    [|split; [exact I|split; apply Qle_bool_iff; reflexivity]].
  destruct (num_ltb (NInt 0) s) eqn:L2;
    [|split; [exact I|split; apply Qle_bool_iff; reflexivity]].
  destruct s as [z|f].
  - cbn [num_ltb] in L1, L2. apply Z.ltb_lt in L1, L2.
    cbn [round1 finite value_of]. split; [exact I|].
    split; [change 0 with (inject_Z 0)|change 100 with (inject_Z 100)];
      rewrite <- Zle_Qle; lia.
  - cbn in L1, L2. destruct (flt_bounds f L1 L2) as [q [-> [Q0 Q1]]].
    cbn [round1]. destruct (fround1_range q) as [E B]; [lra|]. rewrite E.
    cbn. split; [exact I|exact B].
Qed.

Lemma bounded_float q :
  bounded (NFloat (FFin q))
  = if Qltb q 100 then (if Qltb 0 q then NFloat (FFin q) else NInt 0) else NInt 100.
Proof.
  unfold bounded. cbn [num_ltb exact flt].
  change (inject_Z 100) with 100. destruct (Qltb q 100); reflexivity.
Qed.

Lemma clamp_float q :
  clamp (NFloat (FFin q))
  = if Qltb q 0 then NInt 0 else if Qltb 100 q then NInt 100 else NFloat (FFin q).
Proof. reflexivity. Qed.

(** The bounds of the code and the clamp of the specification agree in
    value on every number but NaN. *)
Lemma bounded_is_clamp s :
  not_nan s = true ->
  num_eqb (round1 (bounded s)) (round1 (clamp s)) = true.
Proof.
  intros NN. destruct s as [z|[q|neg|]]; try discriminate.
  - assert (E : bounded (NInt z) = clamp (NInt z)).
    { unfold bounded, clamp. cbn [num_ltb].
      destruct (Z.ltb_spec z 100), (Z.ltb_spec z 0), (Z.ltb_spec 100 z);
        cbn [num_ltb]; try lia; try reflexivity;
        try (destruct (Z.ltb_spec 0 z)); try lia; try reflexivity;
        cbn; f_equal; lia. }
    rewrite E. unfold clamp. cbn [num_ltb].
    destruct (z <? 0)%Z; [reflexivity|]. destruct (100 <? z)%Z; [reflexivity|].
    cbn. apply Z.eqb_refl.
  - rewrite bounded_float, clamp_float.
    destruct (Qltb q 100) eqn:L1, (Qltb q 0) eqn:L2, (Qltb 100 q) eqn:L3,
                  (Qltb 0 q) eqn:L4; qprops; try lra; try reflexivity.
    all: destruct (fround1_range q) as [E _]; [lra|]; cbn [round1]; rewrite E;
         apply Qeq_bool_true; cbn [value_of exact].
    + reflexivity.
    + assert (Z0 : q == 0) by lra.
      rewrite (rne_compat (q * 10) (inject_Z 0)) by (rewrite Z0; reflexivity).
      rewrite rne_Z. reflexivity.
    + assert (Z0 : q == 100) by lra.
      rewrite (rne_compat (q * 10) (inject_Z 1000)) by (rewrite Z0; reflexivity).
      rewrite rne_Z. reflexivity.
  - destruct neg; reflexivity.
Qed.
End Bounded.

Section NotNan.
Import RiskScorer.
Local Open Scope Q_scope.

Lemma to_float_small c :
  (Z.abs c <= 2 ^ 53)%Z -> to_float (NInt c) = FFin (fl (inject_Z c)).
Proof.
  intros H. unfold to_float.
  destruct (fl_ov_small (inject_Z c) (Z.abs c)) as [E _].
  - lia.
  - rewrite <- inject_Z_opp, <- !Zle_Qle. lia.
  - exact E.
Qed.

Lemma fl_ov_not_nan x : fl_ov x <> FNan.
Proof. unfold fl_ov. destruct (Qle_bool _ _); discriminate. Qed.

Lemma fadd_finite_not_nan f q : f <> FNan -> fadd f (FFin q) <> FNan.
Proof.
  destruct f; cbn; [intros _; apply fl_ov_not_nan|discriminate|congruence].
Qed.

Lemma finite_fadd_not_nan f q : f <> FNan -> fadd (FFin q) f <> FNan.
Proof.
  destruct f; cbn; [intros _; apply fl_ov_not_nan|discriminate|congruence].
Qed.

Lemma not_nan_float f : not_nan (NFloat f) = true <-> f <> FNan.
Proof. destruct f; cbn; split; congruence. Qed.

Lemma nadd_lit_not_nan s c :
  (Z.abs c <= 2 ^ 53)%Z -> not_nan s = true -> not_nan (nadd s (NInt c)) = true.
Proof.
  intros Hc Hs. destruct s as [z|f]; [reflexivity|].
  cbn [nadd]. rewrite (to_float_small c Hc). apply not_nan_float.
  apply fadd_finite_not_nan, not_nan_float, Hs.
Qed.

Lemma nsub_lit_not_nan s c :
  (Z.abs c <= 2 ^ 53)%Z -> not_nan s = true -> not_nan (nsub s (NInt c)) = true.
Proof.
  intros Hc Hs. destruct s as [z|f]; [reflexivity|].
  cbn [nsub]. rewrite (to_float_small c Hc). apply not_nan_float.
  apply fadd_finite_not_nan, not_nan_float, Hs.
Qed.

Lemma nmul_15_not_nan s : not_nan s = true -> not_nan (nmul s (NInt 15)) = true.
Proof.
  intros Hs. destruct s as [z|[q|neg|]]; try reflexivity; try discriminate.
  cbn [nmul]. apply not_nan_float. apply fl_ov_not_nan.
Qed.

Lemma nadd_int_not_nan z w :
  (Z.abs z <= 2 ^ 53)%Z -> not_nan w = true -> not_nan (nadd (NInt z) w) = true.
Proof.
  intros Hz Hw. destruct w as [y|f]; [reflexivity|].
  cbn [nadd]. rewrite (to_float_small z Hz). apply not_nan_float.
  apply finite_fadd_not_nan, not_nan_float, Hw.
Qed.

Lemma additive_not_nan b verified :
  not_nan (suspicious_content_ratio b) = true ->
  not_nan (additive b verified) = true.
Proof.
  intros H. unfold additive.
  match goal with
  | |- context [nadd ?p (nmul _ _)] => set (prefix := p)
  end.
  assert (P : exists z, prefix = NInt z /\ (Z.abs z <= 2 ^ 53)%Z).
  { subst prefix.
    destruct (is_new b), (ratio_suspicious b), (str_eqb (bio_risk b) (lit "high")),
             (str_eqb (bio_risk b) (lit "medium"));
      eexists; (split; [reflexivity|cbn; lia]). }
  destruct P as (z & -> & Hz).
  assert (Q : not_nan (nadd (NInt z) (nmul (suspicious_content_ratio b) (NInt 15))) = true).
  { apply nadd_int_not_nan; [exact Hz|apply nmul_15_not_nan, H]. }
  revert Q. generalize (nadd (NInt z) (nmul (suspicious_content_ratio b) (NInt 15))) as s.
  intros s Q.
  destruct (str_eqb (engagement_pattern b) (lit "minimal_engagement")),
           (str_eqb (engagement_pattern b) (lit "high_engagement")),
           (consistent_activity b), verified; cbn [negb];
    repeat first [ apply nadd_lit_not_nan; [lia|]
                 | apply nsub_lit_not_nan; [lia|] ]; exact Q.
Qed.
End NotNan.

Section FormulaTheorem.
Import AccountAnalyzer RiskScorer.

(** C5: on every well-formed analysis (the feature dicts are present with
    their keys and hold flags, string labels and a numeric ratio), the risk
    score equals the additive formula of the specification: 0, +25 if new,
    +20 if the ratio is suspicious, +20 or +10 for a high or medium bio
    risk, +15 times the suspicious-content ratio, +10 or -5 for minimal or
    high engagement, +10 without consistent activity, -15 if verified,
    clamped to [0, 100] and rounded to one decimal. *)
Theorem risk_score_formula analysis b verified :
  bundle_of analysis = Some (b, verified) ->
  eq_values (_calculate_risk_score analysis) (of_number (score b verified)).
Proof.
  intros H. rewrite (score_of_bundle analysis b verified H).
  exists (round1 (bounded (additive b verified))), (score b verified).
  rewrite !to_number_of_number. repeat split.
  apply bounded_is_clamp, additive_not_nan.
  destruct (bundle_of_inv _ _ _ H) as (_ & _ & _ & (r & _ & R) & _).
  exact (proj2 (as_ratio_number _ _ R)).
Qed.
End FormulaTheorem.

(** The sample analysis with ratio 0.07 scores 56.0, as the formula says. *)
Lemma risk_score_formula_witness :
  eq_values
    (AccountAnalyzer._calculate_risk_score
       (Samples.analysis (VFloat (FFin (fl (7 # 100)))) false))
    (VFloat (FFin 56)).
Proof.
  exact (risk_score_formula
           (Samples.analysis (VFloat (FFin (fl (7 # 100)))) false)
           (Samples.bundle (NFloat (FFin (fl (7 # 100))))) false eq_refl).
Defined.

(** ** The risk score is monotone (C7) *)
Section Monotone.
Import AccountAnalyzer RiskScorer.
Local Open Scope Q_scope.

Lemma final_le s t :
  value_of (final s) <= value_of (final t) -> num_leb (final s) (final t) = true.
Proof.
  intros H. apply num_leb_finite; [apply bounded_round_finite..|exact H].
Qed.

Lemma final_float_value q :
  value_of (final (NFloat (FFin q)))
  == if Qltb q 100
     then if Qltb 0 q then fl (inject_Z (rne (q * 10)) / 10) else 0
     else 100.
Proof.
  unfold final. rewrite bounded_float.
  destruct (Qltb q 100) eqn:L1; [|reflexivity].
  destruct (Qltb 0 q) eqn:L2; [|reflexivity]. qprops.
  destruct (fround1_range q) as [E _]; [lra|]. cbn [round1]. rewrite E. reflexivity.
Qed.

Lemma final_mono_float x y :
  x <= y -> value_of (final (NFloat (FFin x))) <= value_of (final (NFloat (FFin y))).
Proof.
  intros H.
  destruct (bounded_round_finite (NFloat (FFin x))) as [_ [Bx0 Bx1]].
  destruct (bounded_round_finite (NFloat (FFin y))) as [_ [By0 By1]].
  fold (final (NFloat (FFin x))) in Bx0, Bx1. fold (final (NFloat (FFin y))) in By0, By1.
  pose proof (final_float_value x) as Vx. pose proof (final_float_value y) as Vy.
  destruct (Qltb x 100) eqn:X1, (Qltb 0 x) eqn:X2, (Qltb y 100) eqn:Y1,
           (Qltb 0 y) eqn:Y2; qprops; try lra.
  rewrite Vx, Vy. apply fl_mono.
  apply Qle_shift_div_l; [reflexivity|].
  unfold Qdiv. rewrite <- Qmult_assoc, (Qmult_comm (/ 10)), Qmult_inv_r, Qmult_1_r
    by discriminate.
  rewrite <- Zle_Qle. apply rne_mono. lra.
Qed.

Lemma bounded_int z : bounded (NInt z) = NInt (Z.max 0 (Z.min 100 z)).
Proof.
  unfold bounded. cbn [num_ltb].
  destruct (Z.ltb_spec z 100); cbn [num_ltb].
  - destruct (Z.ltb_spec 0 z); f_equal; lia.
  - cbn. f_equal. lia.
Qed.

Lemma final_mono_int x y :
  (x <= y)%Z -> value_of (final (NInt x)) <= value_of (final (NInt y)).
Proof.
  intros H. unfold final. rewrite !bounded_int. cbn [round1 value_of].
  rewrite <- Zle_Qle. lia.
Qed.

(** Every sum or difference is an integer, a binary64 number, an infinity or
    NaN. *)
Lemma fadd_rounded f g : rounded (NFloat (fadd f g)).
Proof.
  destruct f as [x|s|], g as [y|t|]; cbn [fadd]; try exact I.
  - destruct (fl_ov_cases (x + y)) as [[E B]|[s E]]; rewrite E; [|exact I].
    split; [apply fl_idem|exact B].
  - destruct (Bool.eqb s t); exact I.
Qed.

Lemma nadd_rounded a c : rounded (nadd a c).
Proof. destruct a, c; cbn [nadd]; try exact I; apply fadd_rounded. Qed.

Lemma nsub_rounded a c : rounded (nsub a c).
Proof. destruct a, c; cbn [nsub]; try exact I; apply fadd_rounded. Qed.

Lemma additive_rounded b verified : rounded (additive b verified).
Proof.
  unfold additive.
  destruct (str_eqb (engagement_pattern b) (lit "minimal_engagement")),
           (str_eqb (engagement_pattern b) (lit "high_engagement")),
           (consistent_activity b), verified; cbn [negb];
    first [apply nadd_rounded | apply nsub_rounded].
Qed.

(** Subtracting the verification bonus never raises the score. *)
Lemma final_sub_15 s :
  rounded s -> num_leb (final (nsub s (NInt 15))) (final s) = true.
Proof.
  intros R. apply final_le. destruct s as [z|[q|neg|]].
  - cbn [nsub]. apply final_mono_int. lia.
  - destruct R as [Rq Rb]. cbn [nsub]. rewrite (to_float_small 15) by lia.
    cbn [to_float fsub fneg fadd].
    assert (Hle : fl (q + Qred (- fl (inject_Z 15))) <= q).
    { rewrite <- Rq at 2. apply fl_mono. rewrite Qred_correct.
      pose proof (fl_nonneg (inject_Z 15) ltac:(discriminate)). lra. }
    destruct (fl_ov_cases (q + Qred (- fl (inject_Z 15)))) as [[E _]|[neg E]];
      rewrite E.
    + apply final_mono_float, Hle.
    + destruct neg.
      * destruct (bounded_round_finite (NFloat (FFin q))) as [_ [B0 _]]. exact B0.
      * exfalso. unfold fl_ov in E.
        destruct (Qle_bool (2 ^ 1024) (Qabs (fl (q + Qred (- fl (inject_Z 15))))))
          eqn:O; [|discriminate].
        injection E as E. apply negb_false_iff, Qle_bool_iff in E.
        apply Qle_bool_iff in O. rewrite Qabs_pos in O by exact E.
        pose proof (Qle_Qabs q). lra.
  - cbn [nsub]. rewrite (to_float_small 15) by lia. cbn. lra.
  - cbn. lra.
Qed.
End Monotone.

Section MonotoneRatio.
Import AccountAnalyzer RiskScorer.
Local Open Scope Q_scope.

Lemma ordered_weaken M M' s t :
  (M <= M')%Z -> ordered_within M s t -> ordered_within M' s t.
Proof.
  intros H (x & y & -> & -> & H1 & H2 & H3). exists x, y.
  rewrite Zle_Qle in H. repeat split; try assumption; lra.
Qed.

Lemma ordered_fadd M (c : Q) s t (k : Z) :
  (0 <= M)%Z -> (0 <= k)%Z -> (M + k <= 2 ^ 53)%Z ->
  - inject_Z k <= c <= inject_Z k ->
  ordered_within M s t ->
  ordered_within (M + k)
    (NFloat (fadd (to_float s) (FFin c))) (NFloat (fadd (to_float t) (FFin c))).
Proof.
  intros HM Hk Hb Hc (x & y & -> & -> & H1 & H2 & H3). cbn [to_float fadd].
  assert (Bx : - inject_Z (M + k) <= x + c <= inject_Z (M + k))
    by (rewrite inject_Z_plus; lra).
  assert (By : - inject_Z (M + k) <= y + c <= inject_Z (M + k))
    by (rewrite inject_Z_plus; lra).
  destruct (fl_ov_small (x + c) (M + k) ltac:(lia) Bx) as [Ex [Bx1 Bx2]].
  destruct (fl_ov_small (y + c) (M + k) ltac:(lia) By) as [Ey [By1 By2]].
  rewrite Ex, Ey. exists (fl (x + c)), (fl (y + c)).
  repeat split; try assumption. apply fl_mono. lra.
Qed.

Lemma fl_15 c : (0 <= c <= 25)%Z -> 0 <= fl (inject_Z c) <= 25.
Proof.
  intros H. rewrite fl_Z by lia. change 0 with (inject_Z 0).
  change 25 with (inject_Z 25). rewrite <- !Zle_Qle. lia.
Qed.

Lemma ordered_add M c s t :
  (0 <= M <= 1000)%Z -> (0 <= c <= 25)%Z ->
  ordered_within M s t ->
  ordered_within (M + 25) (nadd s (NInt c)) (nadd t (NInt c)).
Proof.
  intros HM Hc H. pose proof H as (x & y & -> & -> & _). cbn [nadd].
  rewrite (to_float_small c) by lia.
  apply (ordered_fadd M _ _ _ 25); try lia; [|exact H].
  pose proof (fl_15 c Hc). change (inject_Z 25) with 25. lra.
Qed.

Lemma ordered_sub M c s t :
  (0 <= M <= 1000)%Z -> (0 <= c <= 25)%Z ->
  ordered_within M s t ->
  ordered_within (M + 25) (nsub s (NInt c)) (nsub t (NInt c)).
Proof.
  intros HM Hc H. pose proof H as (x & y & -> & -> & _). cbn [nsub].
  rewrite (to_float_small c) by lia. cbn [fsub fneg].
  apply (ordered_fadd M _ _ _ 25); try lia; [|exact H].
  pose proof (fl_15 c Hc). rewrite Qred_correct. change (inject_Z 25) with 25. lra.
Qed.

Lemma ordered_final M s t :
  ordered_within M s t -> num_leb (final s) (final t) = true.
Proof.
  intros (x & y & -> & -> & _ & H & _). apply final_le, final_mono_float, H.
Qed.

(** The content factor on two ratios in order. *)
Lemma ordered_content z q1 q2 :
  (0 <= z <= 65)%Z -> 0 <= q1 -> q1 <= q2 -> q2 <= 1 ->
  ordered_within 90
    (nadd (NInt z) (nmul (NFloat (FFin q1)) (NInt 15)))
    (nadd (NInt z) (nmul (NFloat (FFin q2)) (NInt 15))).
Proof.
  intros Hz H0 H12 H1. cbn [nmul nadd]. rewrite (to_float_small 15) by lia.
  rewrite (to_float_small z) by lia. cbn [to_float fmul].
  pose proof (fl_15 15 ltac:(lia)) as [F0 F1].
  assert (F15 : fl (inject_Z 15) == 15) by (rewrite fl_Z by lia; reflexivity).
  assert (Pz : 0 <= fl (inject_Z z) <= 65).
  { rewrite fl_Z by lia. change 0 with (inject_Z 0). change 65 with (inject_Z 65).
    rewrite <- !Zle_Qle. lia. }
  assert (B1 : - inject_Z 25 <= q1 * fl (inject_Z 15) <= inject_Z 25).
  { change (inject_Z 25) with 25. rewrite F15. lra. }
  assert (B2 : - inject_Z 25 <= q2 * fl (inject_Z 15) <= inject_Z 25).
  { change (inject_Z 25) with 25. rewrite F15. lra. }
  destruct (fl_ov_small _ 25 ltac:(lia) B1) as [E1 [L1 U1]].
  destruct (fl_ov_small _ 25 ltac:(lia) B2) as [E2 [L2 U2]].
  rewrite E1, E2. cbn [fadd].
  assert (M12 : fl (q1 * fl (inject_Z 15)) <= fl (q2 * fl (inject_Z 15))).
  { apply fl_mono. rewrite F15. lra. }
  change (inject_Z 25) with 25 in *.
  assert (C1 : - inject_Z 90 <= fl (inject_Z z) + fl (q1 * fl (inject_Z 15)) <= inject_Z 90).
  { change (inject_Z 90) with 90. lra. }
  assert (C2 : - inject_Z 90 <= fl (inject_Z z) + fl (q2 * fl (inject_Z 15)) <= inject_Z 90).
  { change (inject_Z 90) with 90. lra. }
  destruct (fl_ov_small _ 90 ltac:(lia) C1) as [G1 [V1 W1]].
  destruct (fl_ov_small _ 90 ltac:(lia) C2) as [G2 [V2 W2]].
  rewrite G1, G2. eexists _, _. repeat split; try eassumption.
  apply fl_mono. lra.
Qed.

Lemma additive_monotone b verified q1 q2 :
  0 <= q1 -> q1 <= q2 -> q2 <= 1 ->
  ordered_within 165
    (additive (with_ratio b (NFloat (FFin q1))) verified)
    (additive (with_ratio b (NFloat (FFin q2))) verified).
Proof.
  intros H0 H12 H1. unfold additive, with_ratio.
  cbn [is_new ratio_suspicious bio_risk suspicious_content_ratio engagement_pattern
       consistent_activity].
  match goal with
  | |- context [nadd ?p (nmul _ _)] => set (prefix := p)
  end.
  assert (P : exists z, prefix = NInt z /\ (0 <= z <= 65)%Z).
  { subst prefix.
    destruct (is_new b), (ratio_suspicious b), (str_eqb (bio_risk b) (lit "high")),
             (str_eqb (bio_risk b) (lit "medium"));
      eexists; (split; [reflexivity|cbn; lia]). }
  destruct P as (z & -> & Hz).
  pose proof (ordered_content z q1 q2 Hz H0 H12 H1) as C.
  revert C.
  generalize (nadd (NInt z) (nmul (NFloat (FFin q1)) (NInt 15))) as s.
  generalize (nadd (NInt z) (nmul (NFloat (FFin q2)) (NInt 15))) as t.
  intros t s C.
  assert (E : ordered_within 115
    (if str_eqb (engagement_pattern b) (lit "minimal_engagement") then nadd s (NInt 10)
     else if str_eqb (engagement_pattern b) (lit "high_engagement") then nsub s (NInt 5)
     else s)
    (if str_eqb (engagement_pattern b) (lit "minimal_engagement") then nadd t (NInt 10)
     else if str_eqb (engagement_pattern b) (lit "high_engagement") then nsub t (NInt 5)
     else t)).
  { destruct (str_eqb (engagement_pattern b) (lit "minimal_engagement")).
    - apply (ordered_add 90); [lia|lia|exact C].
    - destruct (str_eqb (engagement_pattern b) (lit "high_engagement")).
      + apply (ordered_sub 90); [lia|lia|exact C].
      + apply (ordered_weaken 90); [lia|exact C]. }
  revert E. 
  match goal with
  | |- ordered_within _ ?u ?v -> _ => generalize u as s1; generalize v as t1
  end.
  intros t1 s1 E.
  assert (A : ordered_within 140
    (if negb (consistent_activity b) then nadd s1 (NInt 10) else s1)
    (if negb (consistent_activity b) then nadd t1 (NInt 10) else t1)).
  { destruct (negb (consistent_activity b)).
    - apply (ordered_add 115); [lia|lia|exact E].
    - apply (ordered_weaken 115); [lia|exact E]. }
  revert A.
  match goal with
  | |- ordered_within _ ?u ?v -> _ => generalize u as s2; generalize v as t2
  end.
  intros t2 s2 A. destruct verified.
  - apply (ordered_sub 140); [lia|lia|exact A].
  - apply (ordered_weaken 140); [lia|exact A].
Qed.

(** C7: all other features being equal, the risk score does not decrease
    when the suspicious-content ratio grows within [0.0, 1.0], and the score
    of a verified account is never greater than the score of the same
    account unverified. *)
Theorem risk_score_monotone :
  (forall b verified q1 q2 analysis1 analysis2,
     0 <= q1 -> q1 <= q2 -> q2 <= 1 ->
     bundle_of analysis1 = Some (with_ratio b (NFloat (FFin q1)), verified) ->
     bundle_of analysis2 = Some (with_ratio b (NFloat (FFin q2)), verified) ->
     le_values (_calculate_risk_score analysis1) (_calculate_risk_score analysis2)) /\
  (forall b analysis1 analysis2,
     bundle_of analysis1 = Some (b, true) ->
     bundle_of analysis2 = Some (b, false) ->
     le_values (_calculate_risk_score analysis1) (_calculate_risk_score analysis2)).
Proof.
  split.
  - intros b verified q1 q2 a1 a2 H0 H12 H1 B1 B2.
    rewrite (score_of_bundle _ _ _ B1), (score_of_bundle _ _ _ B2).
    eexists _, _. rewrite !to_number_of_number. repeat split.
    exact (ordered_final _ _ _ (additive_monotone b verified q1 q2 H0 H12 H1)).
  - intros b a1 a2 B1 B2.
    rewrite (score_of_bundle _ _ _ B1), (score_of_bundle _ _ _ B2).
    eexists _, _. rewrite !to_number_of_number. repeat split.
    change (additive b true) with (nsub (additive b false) (NInt 15)).
    apply final_sub_15, additive_rounded.
Qed.
End MonotoneRatio.

(** Ratios 0.25 and 0.5 on the sample analysis, and the sample analysis
    verified and unverified. *)
Lemma risk_score_monotone_witness :
  le_values
    (AccountAnalyzer._calculate_risk_score (Samples.analysis (VFloat (FFin (1 # 4))) false))
    (AccountAnalyzer._calculate_risk_score (Samples.analysis (VFloat (FFin (1 # 2))) false)) /\
  le_values
    (AccountAnalyzer._calculate_risk_score (Samples.analysis (VFloat (FFin (1 # 2))) true))
    (AccountAnalyzer._calculate_risk_score (Samples.analysis (VFloat (FFin (1 # 2))) false)).
Proof.
  split.
  - apply (proj1 risk_score_monotone (Samples.bundle (NInt 0)) false (1 # 4) (1 # 2)
             (Samples.analysis (VFloat (FFin (1 # 4))) false)
             (Samples.analysis (VFloat (FFin (1 # 2))) false));
      try reflexivity; unfold Qle; simpl; lia.
  - apply (proj2 risk_score_monotone (Samples.bundle (NFloat (FFin (1 # 2))))
             (Samples.analysis (VFloat (FFin (1 # 2))) true)
             (Samples.analysis (VFloat (FFin (1 # 2))) false));
      reflexivity.
Defined.

(** ** An empty timeline always scores 50.0 (C9) *)
Section EmptyTimeline.
Import AccountAnalyzer.
Local Open Scope string_scope.

Variable rt : Runtime.
Variable config : Config.

Lemma content_default_has_no_ratio :
  getitem content_default (lit "suspicious_content_ratio") = Raise KeyError.
Proof. reflexivity. Qed.

Lemma analyze_content_empty : _analyze_content rt [] = content_default.
Proof. reflexivity. Qed.

Lemma factors_without_ratio analysis :
  getitem analysis (lit "content_analysis") = Ok content_default ->
  exists e, risk_factors analysis = Raise e.
Proof.
  intros H. unfold risk_factors.
  destruct (age_factor analysis (VInt 0)) as [s1|]; cbn [bind]; [|eauto].
  destruct (ratio_factor analysis s1) as [s2|]; cbn [bind]; [|eauto].
  destruct (bio_factor analysis s2) as [s3|]; cbn [bind]; [|eauto].
  unfold content_factor. rewrite H. cbn. eauto.
Qed.

Lemma score_without_ratio analysis :
  getitem analysis (lit "content_analysis") = Ok content_default ->
  _calculate_risk_score analysis = VFloat f50.
Proof.
  intros H. destruct (factors_without_ratio analysis H) as [e He].
  unfold _calculate_risk_score, risk_score_body. rewrite He. reflexivity.
Qed.

(** C9: the dict [_analyze_content] returns for an empty timeline has no
    ['suspicious_content_ratio'] item, so that [_calculate_risk_score]
    gives 50.0 on every analysis that holds it; and therefore, for every
    account snapshot (an object that is not empty and holds the nine items
    the analysis reads, whatever their values), [analyze_account] returns
    from an empty timeline an analysis whose risk score is 50.0. *)
Theorem empty_timeline_scores_50 user_id user_info now now' :
  truthy user_info = true ->
  (forall key, In key Shapes.snapshot_keys ->
               exists v, getitem user_info (lit key) = Ok v) ->
  getitem (_analyze_content rt []) (lit "suspicious_content_ratio") = Raise KeyError /\
  (forall analysis,
     getitem analysis (lit "content_analysis") = Ok (_analyze_content rt []) ->
     _calculate_risk_score analysis = VFloat f50) /\
  exists analysis,
    analyze_account rt config user_id user_info [] now now' = VDict analysis /\
    getitem (VDict analysis) (lit "risk_score") = Ok (VFloat f50).
Proof.
  intros T K.
  split; [reflexivity|]. split; [exact score_without_ratio|].
  unfold analyze_account, analyze_account_body. rewrite T. cbn [negb].
  repeat match goal with
  | |- context [bind (getitem user_info (lit ?k)) _] =>
      let v := fresh "v" in
      let E := fresh "E" in
      destruct (K k) as [v E]; [cbn; tauto|]; rewrite E; cbn [bind]
  end.
  cbn [except]. eexists. split; [reflexivity|].
  rewrite score_without_ratio by reflexivity.
  reflexivity.
Qed.
End EmptyTimeline.

(** A new, verified account with 5000 followers, an empty bio and no
    timeline. *)
Lemma empty_timeline_scores_50_witness :
  getitem (AccountAnalyzer._analyze_content example_runtime [])
          (lit "suspicious_content_ratio") = Raise KeyError /\
  (forall analysis,
     getitem analysis (lit "content_analysis")
       = Ok (AccountAnalyzer._analyze_content example_runtime []) ->
     AccountAnalyzer._calculate_risk_score analysis = VFloat f50) /\
  exists analysis,
    AccountAnalyzer.analyze_account example_runtime default_config (lit "42")
      (Samples.user_info (VStr []) true) [] 1000 2000 = VDict analysis /\
    getitem (VDict analysis) (lit "risk_score") = Ok (VFloat f50).
Proof.
  apply (empty_timeline_scores_50 example_runtime default_config (lit "42")
           (Samples.user_info (VStr []) true) 1000 2000).
  - reflexivity.
  - intros key K. cbn in K.
    repeat (destruct K as [<-|K]; [eexists; reflexivity|]). contradiction.
Defined.

(** A new, verified account with 5000 followers and no timeline. *)
Example empty_timeline_sample :
  getitem (AccountAnalyzer.analyze_account example_runtime default_config
             (lit "42") (Samples.user_info (VStr []) true) [] 1000 2000)
          (lit "risk_score")
  = Ok (VFloat f50).
Proof. reflexivity. Qed.

(** ** The two fallbacks of the bio analysis (C10) *)
Section Bio.
Import AccountAnalyzer.
Local Open Scope string_scope.

Variable rt : Runtime.

Lemma analyze_bio_raises bio :
  (exists e, analyze_bio_body rt bio = Raise e) <->
  truthy bio = true /\ (forall s, bio <> VStr s).
Proof.
  unfold analyze_bio_body. split.
  - intros [e He]. destruct (truthy bio) eqn:T; cbn [negb] in He; [|discriminate].
    split; [reflexivity|]. intros s ->. discriminate.
  - intros [T Hs]. rewrite T. cbn [negb].
    destruct bio; try (exists AttributeError; reflexivity).
    exfalso. eapply Hs. reflexivity.
Qed.

(** C10: an empty or absent bio is analysed as risk level ['medium'], and a
    bio on which the analysis raises as risk level ['high']; in the risk
    score the first adds 10 and the second adds 20. *)
Theorem bio_fallback_levels analysis bio risk_score :
  getitem analysis (lit "bio_analysis") = Ok (_analyze_bio rt bio) ->
  (truthy bio = false ->
     getitem (_analyze_bio rt bio) (lit "risk_level") = Ok (vstr "medium") /\
     bio_factor analysis risk_score = add risk_score (VInt 10)) /\
  ((exists e, analyze_bio_body rt bio = Raise e) ->
     getitem (_analyze_bio rt bio) (lit "risk_level") = Ok (vstr "high") /\
     bio_factor analysis risk_score = add risk_score (VInt 20)).
Proof.
  intros H. unfold bio_factor. rewrite H. cbn [bind]. split.
  - intros T. unfold _analyze_bio, analyze_bio_body. rewrite T. split; reflexivity.
  - intros [e He]. unfold _analyze_bio. rewrite He. split; reflexivity.
Qed.

End Bio.

(** No bio at all, and a bio that is not a string. *)
Lemma bio_fallback_levels_witness :
  (getitem (AccountAnalyzer._analyze_bio example_runtime VNone) (lit "risk_level")
     = Ok (AccountAnalyzer.vstr "medium") /\
   AccountAnalyzer.bio_factor (Samples.bio_only VNone) (VInt 25) = Ok (VInt 35)) /\
  (getitem (AccountAnalyzer._analyze_bio example_runtime (VInt 7)) (lit "risk_level")
     = Ok (AccountAnalyzer.vstr "high") /\
   AccountAnalyzer.bio_factor (Samples.bio_only (VInt 7)) (VInt 25) = Ok (VInt 45)).
Proof.
  split.
  - apply (proj1 (bio_fallback_levels example_runtime (Samples.bio_only VNone) VNone
                    (VInt 25) eq_refl)).
    reflexivity.
  - apply (proj2 (bio_fallback_levels example_runtime (Samples.bio_only (VInt 7))
                    (VInt 7) (VInt 25) eq_refl)).
    exists AttributeError. reflexivity.
Defined.

(** ** The follower ratio (C8) *)
Section Ratio.
Import AccountAnalyzer Samples.
Local Open Scope string_scope.

Variable config : Config.

Lemma interpret_total ratio followers following n :
  to_number ratio = Some n ->
  exists text, _interpret_follower_ratio ratio followers following = Ok (VStr text).
Proof.
  intros H. unfold _interpret_follower_ratio, gt_num. rewrite H. cbn [bind].
  repeat match goal with
  | |- context [if ?b then _ else _] => destruct b; cbn [bind]
  end; eexists; reflexivity.
Qed.

(** C8: an account that follows nobody and has 5000 followers gets ratio
    5000 and is suspicious; in general, when nobody is followed the ratio is
    the follower count, and an account is suspicious exactly when its ratio
    exceeds [SUSPICIOUS_FOLLOWER_RATIO] or it has more than 1000 followers
    while following fewer than 10. *)
Theorem follower_ratio_rule :
  (getitem (_calculate_follower_ratio default_config (snapshot 5000 0)) (lit "ratio")
     = Ok (VInt 5000) /\
   getitem (_calculate_follower_ratio default_config (snapshot 5000 0)) (lit "is_suspicious")
     = Ok (VBool true)) /\
  (forall user_info followers,
     getitem user_info (lit "followers_count") = Ok (VInt followers) ->
     getitem user_info (lit "following_count") = Ok (VInt 0) ->
     getitem (_calculate_follower_ratio config user_info) (lit "ratio")
       = Ok (VInt followers) /\
     getitem (_calculate_follower_ratio config user_info) (lit "is_suspicious")
       = Ok (VBool (flt (SUSPICIOUS_FOLLOWER_RATIO config) (FFin (inject_Z followers))
                    || (1000 <? followers)%Z))) /\
  (forall user_info followers following ratio,
     getitem user_info (lit "followers_count") = Ok (VInt followers) ->
     getitem user_info (lit "following_count") = Ok (VInt following) ->
     (0 <= followers)%Z -> (0 < following)%Z ->
     truediv (VInt followers) (VInt following) = Ok (VFloat ratio) ->
     getitem (_calculate_follower_ratio config user_info) (lit "is_suspicious")
       = Ok (VBool (flt (SUSPICIOUS_FOLLOWER_RATIO config) ratio
                    || ((1000 <? followers)%Z && (following <? 10)%Z)))).
Proof.
  split; [split; reflexivity|]. split.
  - intros user_info followers Hf Hg.
    unfold _calculate_follower_ratio, follower_ratio_body.
    rewrite Hf, Hg. cbn [bind eq_num to_number num_eqb Z.eqb round].
    destruct (interpret_total (VInt followers) (VInt followers) (VInt 0) _ eq_refl)
      as [text ->].
    unfold gt_num, lt_num. cbn [to_number bind num_ltb exact].
    destruct (flt _ _); cbn [bind orb].
    + split; reflexivity.
    + destruct (1000 <? followers)%Z; split; reflexivity.
  - intros user_info followers following ratio Hf Hg Hfo Hfg Hdiv.
    unfold _calculate_follower_ratio, follower_ratio_body.
    rewrite Hf, Hg. cbn [bind eq_num to_number num_eqb].
    destruct (Z.eqb_spec following 0) as [|_]; [lia|].
    rewrite Hdiv. cbn [bind].
    assert (Hround : exists r, round (VFloat ratio) 2 = Ok (VFloat (FFin r))).
    { unfold truediv in Hdiv. cbn [to_number num_eqb] in Hdiv.
      destruct (following =? 0)%Z; [discriminate|].
      destruct (fl_ov_cases (inject_Z followers / inject_Z following)) as [[E B]|[s E]];
        rewrite E in Hdiv; [|discriminate].
      injection Hdiv as <-.
      assert (P : (0 <= fl (inject_Z followers / inject_Z following))%Q).
      { apply fl_nonneg. apply Qle_shift_div_l.
        - change 0%Q with (inject_Z 0). rewrite <- Zlt_Qlt. lia.
        - rewrite Qmult_0_l. change 0%Q with (inject_Z 0). rewrite <- Zle_Qle. lia. }
      rewrite Qabs_pos in B by exact P.
      destruct (fround_total _ 2 ltac:(lia) (fl_idem _) P B) as [r [R _]].
      exists r. cbn [round]. rewrite R. reflexivity. }
    destruct Hround as [r ->]. cbn [bind].
    destruct (interpret_total (VFloat ratio) (VInt followers) (VInt following) _ eq_refl)
      as [text ->].
    unfold gt_num, lt_num. cbn [to_number bind num_ltb exact].
    destruct (flt _ _); cbn [bind orb]; [reflexivity|].
    destruct (1000 <? followers)%Z; cbn [bind andb]; reflexivity.
Qed.
End Ratio.

(** 120 followers and nobody followed; 2500 followers and 8 followed. *)
Lemma follower_ratio_rule_witness :
  getitem (AccountAnalyzer._calculate_follower_ratio default_config (Samples.snapshot 120 0))
          (lit "ratio") = Ok (VInt 120) /\
  getitem (AccountAnalyzer._calculate_follower_ratio default_config (Samples.snapshot 2500 8))
          (lit "is_suspicious") = Ok (VBool true).
Proof.
  split.
  - apply (proj1 (proj2 (follower_ratio_rule default_config)) (Samples.snapshot 120 0) 120%Z);
      reflexivity.
  - refine (proj2 (proj2 (follower_ratio_rule default_config))
              (Samples.snapshot 2500 8) 2500%Z 8%Z (FFin (fl (2500 # 8))) _ _ _ _ _);
      try reflexivity; lia.
Defined.

(** ** Trust levels and the refresh of the trusted list (C3, C6) *)
Section Trust.
Import AccountAnalyzer (item, vstr, count).
Import TrustedAccountsManager Samples.
Local Open Scope string_scope.

Variable rt : Runtime.

(** C3: with the default threshold of 3, an account outside the trusted set
    that three trusted accounts follow is classified as trusted, but under
    the level ['vouched_by_trusted'], which is not ['network_backed']. *)
Theorem three_vouchers_level :
  let decision :=
    trust_score_with rt default_config no_trusted user_bob [lit "a"; lit "b"; lit "c"] in
  getitem decision (lit "trusted_followers_count") = Ok (VInt 3) /\
  getitem decision (lit "is_trusted") = Ok (VBool true) /\
  getitem decision (lit "trust_level") = Ok (vstr "vouched_by_trusted") /\
  eq_str (vstr "vouched_by_trusted") (lit "network_backed") = false.
Proof. repeat split. Qed.

Variable config : Config.

Lemma untrusted_decision st user_info name followers :
  getitem user_info (lit "username") = Ok (VStr name) ->
  truthy user_info = true ->
  mem (str_lower rt name) (trusted_accounts st) = false ->
  trust_score_with rt config st user_info followers = trust_from_followers config followers.
Proof.
  intros Hn Ht Hm. unfold trust_score_with, trust_score_body.
  rewrite Ht, Hn. cbn [negb bind]. rewrite Hm. reflexivity.
Qed.

Lemma partially_vouched_level followers :
  (0 < count followers < MIN_TRUSTED_FOLLOWERS config)%Z ->
  getitem (trust_from_followers config followers) (lit "trust_level")
    = Ok (vstr "partially_vouched") /\
  getitem (trust_from_followers config followers) (lit "is_trusted") = Ok (VBool false).
Proof.
  intros [H0 H1]. unfold trust_from_followers.
  destruct (Z.leb_spec (MIN_TRUSTED_FOLLOWERS config) (count followers)); [lia|].
  destruct (Z.ltb_spec 0 (count followers)); [|lia].
  split; reflexivity.
Qed.

Lemma not_vouched_level :
  (0 < MIN_TRUSTED_FOLLOWERS config)%Z ->
  getitem (trust_from_followers config []) (lit "trust_level") = Ok (vstr "not_vouched") /\
  getitem (trust_from_followers config []) (lit "is_trusted") = Ok (VBool false).
Proof.
  intros H. unfold trust_from_followers. cbn [count List.length Z.of_nat].
  destruct (Z.leb_spec (MIN_TRUSTED_FOLLOWERS config) 0); [lia|].
  split; reflexivity.
Qed.

Lemma vouched_level followers :
  (MIN_TRUSTED_FOLLOWERS config <= count followers)%Z ->
  getitem (trust_from_followers config followers) (lit "trust_level")
    = Ok (vstr "vouched_by_trusted") /\
  getitem (trust_from_followers config followers) (lit "is_trusted") = Ok (VBool true).
Proof.
  intros H. unfold trust_from_followers.
  destruct (Z.leb_spec (MIN_TRUSTED_FOLLOWERS config) (count followers)); [|lia].
  split; reflexivity.
Qed.

(** The list is never computed: [check_trust_score] always classifies from
    an empty list of trusted followers. *)
Lemma check_trust_score_followers st user_id user_info :
  check_trust_score rt config st user_id user_info
  = trust_score_with rt config st user_info [].
Proof. reflexivity. Qed.

(** C6: with the default interval of 3600 seconds, a list refreshed one day
    and ten seconds ago is taken to be up to date: the call returns [True]
    without requesting the list, although more than the interval has
    elapsed. *)
Theorem stale_list_not_refreshed response now' :
  let now := (86410 * us_per_second)%Z in
  (TRUSTED_ACCOUNTS_UPDATE_INTERVAL default_config <= (now - 0) / us_per_second)%Z /\
  update_trusted_list rt default_config refreshed_at_0 now response now'
    = {| after := refreshed_at_0; returned := true; requested := false |}.
Proof. split; [vm_compute; discriminate|reflexivity]. Qed.

Lemma refresh_gate_within_a_day st last now response now' :
  last_update st = Some last ->
  (0 <= now - last < us_per_day)%Z ->
  requested (update_trusted_list rt config st now response now') = false <->
  ((now - last) / us_per_second < TRUSTED_ACCOUNTS_UPDATE_INTERVAL config)%Z.
Proof.
  intros Hl Hd. unfold update_trusted_list, td_seconds. rewrite Hl.
  rewrite Z.mod_small by exact Hd.
  destruct (Z.ltb_spec ((now - last) / us_per_second)
                       (TRUSTED_ACCOUNTS_UPDATE_INTERVAL config)) as [L|L].
  - cbn. tauto.
  - split; [|lia]. destruct response as [text|]; [|discriminate].
    destruct (negb (nonempty (strip text))); discriminate.
Qed.

Lemma first_refresh st now response now' :
  last_update st = None ->
  requested (update_trusted_list rt config st now response now') = true.
Proof.
  intros Hl. unfold update_trusted_list. rewrite Hl.
  destruct response as [text|]; [|reflexivity].
  destruct (negb (nonempty (strip text))); reflexivity.
Qed.
End Trust.

(** ** The report (C1, C4) *)
Section Report.
Import AccountAnalyzer (item, vstr, count).
Import ReportGenerator Samples.
Local Open Scope string_scope.
Local Open Scope list_scope.

Variable rt : Runtime.

(** C1: for a trusted account whose level is ['vouched_by_trusted'] the
    trust status is [None], joining the parts fails, and the report is the
    error report; with a handle of 300 code points it is 364 code points
    long, beyond the budget of 280. *)
Theorem error_report_over_budget user_id :
  _generate_trust_status rt vouched = VNone /\
  exists report,
    error_report rt (VStr long_handle) = Ok report /\
    generate_report rt long_named vouched user_id = Ok report /\
    count report = 364%Z.
Proof. split; [reflexivity|]. eexists. repeat split. Qed.

(** C4: when the analysis is [None], [generate_report] does not return:
    [analysis.get] raises before [username] is bound, and the handler of the
    [try] block, which formats [username], raises [UnboundLocalError]. *)
Theorem none_analysis_raises trust_score user_id :
  dict_get VNone (lit "username") (vstr "unknown") = Raise AttributeError /\
  generate_report rt VNone trust_score user_id = Raise UnboundLocalError.
Proof. split; reflexivity. Qed.

(** [generate_report] raises exactly when the analysis is not a dict or
    its username cannot be rendered. *)
Lemma generate_report_raises_iff analysis trust_score user_id :
  (exists e, generate_report rt analysis trust_score user_id = Raise e) <->
  (forall d, analysis <> VDict d) \/
  (exists username e,
     dict_get analysis (lit "username") (vstr "unknown") = Ok username /\
     str rt username = Raise e).
Proof.
  unfold generate_report. split.
  - intros [e He]. destruct analysis; try (left; intros d; discriminate).
    right. cbn [dict_get] in *.
    match type of He with
    | context [compose rt ?u _ _] => exists u; generalize dependent u
    end.
    intros username He. unfold compose, error_report in He.
    destruct (str rt username) as [handle|e'] eqn:S; [|exists e'; split; reflexivity].
    cbn [bind] in He.
    match type of He with
    | match ?c with _ => _ end = _ => destruct c; discriminate
    end.
  - intros [H|(username & e & U & S)].
    + destruct analysis; try (eexists; reflexivity).
      exfalso. eapply H. reflexivity.
    + rewrite U. unfold compose, error_report. rewrite S. cbn [bind].
      exists e. reflexivity.
Qed.

Lemma slice_to_length n s : (0 <= n)%Z -> (count (slice_to n s) <= n)%Z.
Proof.
  intros H. unfold count, slice_to.
  pose proof (firstn_le_length (Z.to_nat n) s). lia.
Qed.

Lemma slice_to_nonempty n s : (0 < n)%Z -> s <> [] -> slice_to n s <> [].
Proof.
  intros H Hs. unfold slice_to. destruct (Z.to_nat n) eqn:E; [lia|].
  destruct s; [congruence|discriminate].
Qed.

Lemma truncate_body_budget parts report :
  truncate_report_body parts = Ok report -> (count report <= 280)%Z.
Proof.
  unfold truncate_report_body. intros H.
  repeat match type of H with
  | bind ?m _ = _ => destruct m; cbn [bind] in H; [|discriminate]
  end.
  injection H as <-. apply slice_to_length. lia.
Qed.

Lemma truncate_within_budget parts :
  (count (_truncate_report parts) <= 280)%Z.
Proof.
  unfold _truncate_report.
  destruct (truncate_report_body parts) as [report|] eqn:E; cbn [except].
  - exact (truncate_body_budget parts report E).
  - vm_compute. discriminate.
Qed.

Lemma compose_within_budget username analysis trust_score report :
  compose rt username analysis trust_score = Ok report ->
  (count report <= 280)%Z.
Proof.
  unfold compose. destruct (str rt username) as [handle|]; cbn [bind]; [|discriminate].
  destruct (join_values _ _) as [full|]; cbn [bind]; [|discriminate].
  destruct (Z.ltb_spec 280 (count full)); intros [= <-].
  - apply truncate_within_budget.
  - assumption.
Qed.

Lemma all_str_length parts ss :
  all_str parts = Ok ss -> List.length ss = List.length parts.
Proof.
  revert ss. induction parts as [|p rest IH]; intros ss H.
  - injection H as <-. reflexivity.
  - destruct p; try discriminate. cbn [all_str] in H.
    destruct (all_str rest) as [r|]; [|discriminate].
    injection H as <-. cbn. f_equal. apply IH. reflexivity.
Qed.

Lemma join_values_nonempty sep0 sep p q rest joined :
  join_values (sep0 :: sep) (p :: q :: rest) = Ok joined -> joined <> [].
Proof.
  unfold join_values. destruct (all_str (p :: q :: rest)) as [ss|] eqn:E; [|discriminate].
  cbn [bind]. intros [= <-]. apply all_str_length in E.
  destruct ss as [|a [|b r]]; try discriminate.
  cbn [join]. intros H. apply app_eq_nil in H. destruct H as [_ H]. discriminate.
Qed.

Lemma ultra_compact_nonempty header trust risk compacted :
  ultra_compact header trust risk = Ok compacted -> compacted <> [].
Proof.
  unfold ultra_compact. intros H.
  repeat match type of H with
  | bind ?m _ = _ => destruct m; cbn [bind] in H; [|discriminate]
  end.
  injection H as <-. discriminate.
Qed.

Lemma truncate_nonempty parts : _truncate_report parts <> [].
Proof.
  unfold _truncate_report.
  destruct (truncate_report_body parts) as [report|] eqn:E; cbn [except]; [|discriminate].
  unfold truncate_report_body in E.
  repeat match type of E with
  | bind (index _ _) _ = _ => destruct (index _ _); cbn [bind] in E; [|discriminate]
  end.
  destruct (join_values _ _) as [joined|] eqn:J; cbn [bind] in E; [|discriminate].
  apply join_values_nonempty in J.
  destruct (280 <? count joined)%Z.
  - repeat match type of E with
    | context [as_str ?v] => destruct (as_str v); cbn [bind] in E; [|discriminate]
    end.
    destruct (ultra_compact _ _ _) as [compacted|] eqn:U; cbn [bind] in E; [|discriminate].
    injection E as <-. apply slice_to_nonempty; [lia|]. exact (ultra_compact_nonempty _ _ _ _ U).
  - cbn [bind] in E. injection E as <-. apply slice_to_nonempty; [lia|exact J].
Qed.

(** Every report is non-empty, and within the budget unless it is the
    error report. *)
Lemma report_shape analysis trust_score user_id report :
  generate_report rt analysis trust_score user_id = Ok report ->
  report <> [] /\
  ((count report <= 280)%Z \/
   exists username,
     dict_get analysis (lit "username") (vstr "unknown") = Ok username /\
     error_report rt username = Ok report).
Proof.
  unfold generate_report.
  destruct (dict_get analysis _ _) as [username|]; [|discriminate].
  destruct (compose rt username analysis trust_score) as [composed|] eqn:C.
  - intros [= <-].
    split; [|left; exact (compose_within_budget _ _ _ _ C)].
    unfold compose in C.
    destruct (str rt username) as [handle|]; cbn [bind] in C; [|discriminate].
    destruct (join_values _ _) as [full|] eqn:J; cbn [bind] in C; [|discriminate].
    destruct (280 <? count full)%Z; injection C as <-.
    + apply truncate_nonempty.
    + exact (join_values_nonempty _ _ _ _ _ _ J).
  - intros E. split; [|right; exists username; split; [reflexivity|exact E]].
    unfold error_report in E.
    destruct (str rt username) as [handle|]; cbn [bind] in E; [|discriminate].
    injection E as <-. discriminate.
Qed.

Lemma error_report_length username report :
  error_report rt username = Ok report ->
  exists handle, str rt username = Ok handle /\ count report = (64 + count handle)%Z.
Proof.
  unfold error_report.
  destruct (str rt username) as [handle|]; cbn [bind]; [|discriminate].
  intros [= <-]. exists handle. split; [reflexivity|].
  unfold count. simpl List.length. rewrite length_app. simpl List.length. lia.
Qed.

(** A handle of at most 216 code points keeps every report within the
    budget. *)
Lemma report_within_budget analysis trust_score user_id report username handle :
  generate_report rt analysis trust_score user_id = Ok report ->
  dict_get analysis (lit "username") (vstr "unknown") = Ok username ->
  str rt username = Ok handle -> (count handle <= 216)%Z ->
  (count report <= 280)%Z.
Proof.
  intros H U S L. destruct (report_shape _ _ _ _ H) as [_ [B|(u & U' & E)]].
  - exact B.
  - rewrite U in U'. injection U' as <-.
    destruct (error_report_length _ _ E) as (h & S' & ->).
    rewrite S in S'. injection S' as <-. lia.
Qed.
End Report.


(* ================================================================== *)
(** * Part III: the rest of the bot

    Properties of the code around the scoring: how the analysis is
    assembled from its parts, the trusted list and its cache, the parts of
    the report, and the way one trigger becomes a reply. *)
(* ================================================================== *)

(** ** Results and strings *)

Lemma Ok_inj {A : Type} (a b : A) : Ok a = Ok b -> a = b.
Proof. intros [= H]. exact H. Qed.

(** Case analysis on the first operation of a computation [m] that can
    still raise or branch. *)
Ltac split_head m :=
  lazymatch m with
  | bind ?m' _ => split_head m'
  | (if ?b then _ else _) => destruct b
  | Ok _ => fail
  | Raise _ => fail
  | _ => destruct m
  end.

(** Runs the body [E : body = Ok v] of a [try] block to its end, one case
    per path that does not raise. *)
Ltac run_body E :=
  repeat (match type of E with ?m = _ => split_head m end;
          cbn [bind] in E; try discriminate E).

Section Strings.

Lemma str_eqb_eq a b : str_eqb a b = true <-> a = b.
Proof.
  revert b. induction a as [|x a IH]; intros [|y b]; cbn; split; try congruence.
  - intros H. apply andb_true_iff in H. destruct H as [H1 H2].
    apply N.eqb_eq in H1. apply IH in H2. congruence.
  - intros [= -> ->]. rewrite N.eqb_refl. cbn. apply IH. reflexivity.
Qed.

Lemma str_eqb_refl a : str_eqb a a = true.
Proof. apply str_eqb_eq. reflexivity. Qed.

Lemma str_eqb_sym a b : str_eqb a b = str_eqb b a.
Proof.
  destruct (str_eqb a b) eqn:E.
  - apply str_eqb_eq in E. subst. symmetry. apply str_eqb_refl.
  - destruct (str_eqb b a) eqn:F; [|reflexivity].
    apply str_eqb_eq in F. subst. rewrite str_eqb_refl in E. discriminate.
Qed.

Lemma dict_get_present analysis key v default :
  getitem analysis key = Ok v -> dict_get analysis key default = Ok v.
Proof.
  destruct analysis; try discriminate. cbn.
  destruct (lookup key d); [intros [= ->]; reflexivity|discriminate].
Qed.

Lemma present_is_truthy v key x : getitem v key = Ok x -> truthy v = true.
Proof.
  destruct v; try discriminate. destruct d; [discriminate|reflexivity].
Qed.

Lemma filter_count {A : Type} (p : A -> bool) (l : list A) :
  (0 <= AccountAnalyzer.count (filter p l) <= AccountAnalyzer.count l)%Z.
Proof.
  unfold AccountAnalyzer.count. pose proof (filter_length_le p l). lia.
Qed.

Lemma filter_existsb {A : Type} (p : A -> bool) (l : list A) :
  (0 <? AccountAnalyzer.count (filter p l))%Z = existsb p l.
Proof.
  induction l as [|a rest IH]; [reflexivity|]. cbn [filter existsb].
  destruct (p a); [|exact IH]. unfold AccountAnalyzer.count. cbn [List.length orb].
  apply Z.ltb_lt. lia.
Qed.

End Strings.

(** ** The age of the account *)
Section AccountAge.
Import AccountAnalyzer.
Local Open Scope string_scope.

Variable rt : Runtime.
Variable config : Config.

Lemma days_below elapsed limit :
  (td_days elapsed <? limit)%Z = (elapsed <? limit * us_per_day)%Z.
Proof.
  unfold td_days.
  assert (P : (0 < us_per_day)%Z) by (vm_compute; reflexivity).
  destruct (Z.ltb_spec elapsed (limit * us_per_day)) as [L|L].
  - apply Z.ltb_lt. apply Z.div_lt_upper_bound; lia.
  - apply Z.ltb_ge. apply Z.div_le_lower_bound; lia.
Qed.

(** X5: an account is new exactly when fewer than [MIN_ACCOUNT_AGE_DAYS]
    whole days have elapsed since its creation, whether or not the creation
    time carries a time zone (an account created in the future is new); its
    age in days is the number of whole days elapsed, and its age in months
    and years is that number divided by 30 and by 365, rounded down. *)
Theorem account_age_threshold created aware now :
  let age := _calculate_account_age rt config (VDatetime created aware) now in
  getitem age (lit "is_new")
    = Ok (VBool (now - created <? MIN_ACCOUNT_AGE_DAYS config * us_per_day)%Z) /\
  exists days,
    getitem age (lit "days") = Ok (VInt days) /\
    (days * us_per_day <= now - created < (days + 1) * us_per_day)%Z /\
    getitem age (lit "months") = Ok (VInt (days / 30)) /\
    getitem age (lit "years") = Ok (VInt (days / 365)).
Proof.
  cbn zeta. split.
  - unfold _calculate_account_age. cbn [getitem]. rewrite <- days_below. reflexivity.
  - assert (P : (0 < us_per_day)%Z) by (vm_compute; reflexivity).
    exists (td_days (now - created)). repeat split.
    + unfold td_days. pose proof (Z.mul_div_le (now - created) us_per_day P). lia.
    + unfold td_days. pose proof (Z.mul_succ_div_gt (now - created) us_per_day P). lia.
Qed.

End AccountAge.

(** ** The features every analysis holds *)
Section Features.
Import AccountAnalyzer RiskScorer.
Local Open Scope string_scope.
Local Open Scope list_scope.

Variable rt : Runtime.
Variable config : Config.

Lemma age_has_flag created now :
  exists new, getitem (_calculate_account_age rt config created now) (lit "is_new")
              = Ok (VBool new).
Proof. destruct created; eexists; reflexivity. Qed.

Lemma ratio_has_flag user_info :
  exists suspicious,
    getitem (_calculate_follower_ratio config user_info) (lit "is_suspicious")
    = Ok (VBool suspicious).
Proof.
  unfold _calculate_follower_ratio.
  destruct (follower_ratio_body config user_info) as [v|] eqn:E; cbn [except];
    [|eexists; reflexivity].
  unfold follower_ratio_body in E.
  repeat match type of E with
  | bind ?m _ = _ => destruct m; cbn [bind] in E; [|discriminate]
  end.
  apply Ok_inj in E. subst v. eexists. reflexivity.
Qed.

Lemma bio_risk_level_cases found_suspicious found_positive :
  In (bio_risk_level found_suspicious found_positive) ["low"; "medium"; "high"].
Proof.
  unfold bio_risk_level.
  destruct (2 <? count found_suspicious)%Z; [cbn; tauto|].
  destruct (0 <? count found_suspicious)%Z; [cbn; tauto|].
  destruct (0 <? count found_positive)%Z; cbn; tauto.
Qed.

Lemma bio_has_level bio :
  exists level,
    getitem (_analyze_bio rt bio) (lit "risk_level") = Ok (vstr level) /\
    In level ["low"; "medium"; "high"].
Proof.
  unfold _analyze_bio, analyze_bio_body.
  destruct (truthy bio); cbn [negb].
  - destruct bio; cbn [except];
      try (exists "high"; split; [reflexivity|cbn; tauto]).
    eexists. split; [reflexivity|apply bio_risk_level_cases].
  - exists "medium". split; [reflexivity|cbn; tauto].
Qed.

Lemma classify_cases likes retweets replies pattern :
  _classify_engagement_pattern likes retweets replies = Ok pattern ->
  exists label, pattern = vstr label /\
    In label ["high_engagement"; "moderate_engagement"; "low_engagement";
              "minimal_engagement"].
Proof.
  unfold _classify_engagement_pattern. intros H.
  repeat match type of H with
  | context [bind ?m _] => destruct m as [[|]|]; cbn [bind] in H; try discriminate
  end;
  injection H as <-; eexists; (split; [reflexivity|cbn; tauto]).
Qed.

Lemma engagement_has_pattern tweets :
  exists label, getitem (_analyze_engagement tweets) (lit "pattern") = Ok (vstr label).
Proof.
  unfold _analyze_engagement.
  destruct (analyze_engagement_body tweets) as [v|] eqn:E; cbn [except];
    [|eexists; reflexivity].
  unfold analyze_engagement_body in E. destruct tweets as [|t0 rest].
  - injection E as <-. eexists. reflexivity.
  - destruct (mean _); cbn [bind] in E; [|discriminate].
    destruct (mean _); cbn [bind] in E; [|discriminate].
    destruct (mean _); cbn [bind] in E; [|discriminate].
    destruct (truediv _ _); cbn [bind] in E; [|discriminate].
    destruct (_classify_engagement_pattern _ _ _) as [pattern|] eqn:C;
      cbn [bind] in E; [|discriminate].
    destruct (classify_cases _ _ _ _ C) as (label & -> & _).
    repeat match type of E with
    | bind ?m _ = _ => destruct m; cbn [bind] in E; [|discriminate]
    end.
    apply Ok_inj in E. subst v. exists label. reflexivity.
Qed.

Lemma activity_has_flag tweets now :
  exists consistent,
    getitem (_analyze_activity_patterns tweets now) (lit "consistent_activity")
    = Ok (VBool consistent).
Proof.
  unfold _analyze_activity_patterns.
  destruct (analyze_activity_body tweets now) as [v|] eqn:E; cbn [except];
    [|eexists; reflexivity].
  unfold analyze_activity_body in E. destruct tweets as [|t0 rest].
  - injection E as <-. eexists. reflexivity.
  - repeat match type of E with
    | bind ?m _ = _ => destruct m; cbn [bind] in E; [|discriminate]
    end.
    apply Ok_inj in E. subst v. eexists. reflexivity.
Qed.

End Features.

(** ** The content of the timeline *)
Section Content.
Import AccountAnalyzer RiskScorer Shapes.
Local Open Scope string_scope.
Local Open Scope list_scope.
Local Open Scope Q_scope.

Variable rt : Runtime.

(** Rounding to [ndigits] decimals inside [[-1, 1]]. *)
Lemma fround_unit q ndigits :
  (0 <= ndigits)%Z -> -1 <= q <= 1 ->
  exists r, fround (FFin q) ndigits = Some (FFin r) /\ -1 <= r <= 1 /\ (0 <= q -> 0 <= r).
Proof.
  intros Hn [H0 H1]. unfold fround.
  set (p := (10 ^ ndigits)%Z).
  assert (Hp : (1 <= p)%Z).
  { pose proof (Z.pow_pos_nonneg 10 ndigits ltac:(lia) Hn). lia. }
  assert (Hq : 1 <= inject_Z p).
  { change 1 with (inject_Z 1). rewrite <- Zle_Qle. exact Hp. }
  set (d := rne (q * inject_Z p)).
  assert (Hd : (- p <= d <= p)%Z).
  { split; [apply rne_ge_Z|apply rne_le_Z].
    - rewrite inject_Z_opp. nra.
    - nra. }
  assert (Hx : -1 <= inject_Z d / inject_Z p <= 1).
  { destruct Hd as [Hd0 Hd1]. rewrite Zle_Qle in Hd0, Hd1. rewrite inject_Z_opp in Hd0.
    split; [apply Qle_shift_div_l|apply Qle_shift_div_r]; lra. }
  destruct (fl_ov_small (inject_Z d / inject_Z p) 1 ltac:(lia)) as [E B].
  { change (inject_Z 1) with 1. lra. }
  change (inject_Z 1) with 1 in B.
  exists (fl (inject_Z d / inject_Z p)). fold p d. rewrite E.
  split; [reflexivity|]. split; [exact B|].
  intros P. apply fl_nonneg. apply Qle_shift_div_l; [lra|]. rewrite Qmult_0_l.
  change 0 with (inject_Z 0). rewrite <- Zle_Qle. apply rne_ge_Z.
  change (inject_Z 0) with 0. nra.
Qed.

(** The quotient of a part by the whole. *)
Lemma truediv_part part whole :
  (0 <= part <= whole)%Z -> (0 < whole)%Z ->
  exists q, truediv (VInt part) (VInt whole) = Ok (VFloat (FFin q)) /\ 0 <= q <= 1.
Proof.
  intros [H0 H1] Hw. unfold truediv. cbn [to_number num_eqb].
  destruct (Z.eqb_spec whole 0) as [|_]; [lia|].
  assert (Hx : 0 <= inject_Z part / inject_Z whole <= 1).
  { rewrite Zle_Qle in H0, H1. rewrite Zlt_Qlt in Hw.
    change (inject_Z 0) with 0 in H0, Hw.
    split; [apply Qle_shift_div_l|apply Qle_shift_div_r]; lra. }
  destruct (fl_ov_small (inject_Z part / inject_Z whole) 1 ltac:(lia)) as [E B].
  { change (inject_Z 1) with 1. lra. }
  change (inject_Z 1) with 1 in B.
  rewrite E. eexists. split; [reflexivity|]. split; [apply fl_nonneg; lra|lra].
Qed.

Lemma content_ratio_of_body tweets content :
  tweets <> [] -> analyze_content_body rt tweets = Ok content ->
  exists r c,
    getitem content (lit "suspicious_content_ratio") = Ok (VFloat (FFin r)) /\
    0 <= r <= 1 /\
    getitem content (lit "suspicious_content_count") = Ok (VInt c) /\
    (0 <= c <= count tweets)%Z.
Proof.
  intros N H. unfold analyze_content_body in H.
  destruct tweets as [|t0 rest]; [congruence|].
  destruct (polarity rt _) as [score|]; cbn [bind] in H; [|discriminate].
  destruct (round (VFloat score) 3) as [r_score|]; cbn [bind] in H; [|discriminate].
  match type of H with
  | context [truediv (VInt ?c) (VInt ?n)] =>
      pose proof (filter_count
                    (fun t => any_keyword suspicious_keywords (str_lower rt (text t)))
                    (t0 :: rest)) as Hc;
      assert (Hn : (0 < n)%Z) by (unfold count; cbn [List.length]; lia);
      revert H Hc Hn; generalize c as found; generalize n as total
  end.
  intros total found H Hc Hn.
  destruct (truediv_part found total Hc Hn) as (q & E & Q). rewrite E in H.
  cbn [bind round] in H.
  destruct (fround_unit q 2 ltac:(lia) ltac:(lra)) as (r & R & B & P).
  rewrite R in H. cbn [bind] in H. apply Ok_inj in H. subst content.
  exists r, found. split; [reflexivity|]. split; [lra|].
  split; [reflexivity|exact Hc].
Qed.

(** X10: on a non-empty timeline whose sentiment polarity lies in
    [[-1, 1]], the content analysis does not fail: the number of suspicious
    tweets is between 0 and the number of tweets, and the suspicious-content
    ratio is a float between 0 and 1. *)
Theorem content_ratio_in_unit_interval tweets p :
  tweets <> [] ->
  polarity rt (join (lit " ") (map text tweets)) = Ok (FFin p) -> -1 <= p <= 1 ->
  exists r c,
    getitem (_analyze_content rt tweets) (lit "suspicious_content_ratio")
      = Ok (VFloat (FFin r)) /\
    0 <= r <= 1 /\
    getitem (_analyze_content rt tweets) (lit "suspicious_content_count") = Ok (VInt c) /\
    (0 <= c <= count tweets)%Z.
Proof.
  intros N P B.
  assert (S : exists content, analyze_content_body rt tweets = Ok content).
  { unfold analyze_content_body. destruct tweets as [|t0 rest]; [congruence|].
    rewrite P. cbn [bind round].
    destruct (fround_unit p 3 ltac:(lia) B) as (s & -> & _). cbn [bind].
    match goal with
    | |- context [truediv (VInt ?c) (VInt ?n)] =>
        destruct (truediv_part c n) as (q & -> & Q);
          [apply filter_count|unfold count; cbn [List.length]; lia|]
    end.
    cbn [bind round].
    destruct (fround_unit q 2 ltac:(lia) ltac:(lra)) as (r & -> & _).
    cbn [bind]. eexists. reflexivity. }
  destruct S as [content S]. unfold _analyze_content. rewrite S. cbn [except].
  exact (content_ratio_of_body tweets content N S).
Qed.

Lemma written_app l seen t :
  written l (seen ++ [t]) = (written l seen + if str_eqb (lang t) l then 1 else 0)%Z.
Proof.
  unfold written, count. rewrite filter_app, length_app. cbn [filter].
  destruct (str_eqb (lang t) l); cbn [List.length]; lia.
Qed.

Lemma lookup_bump k l dist :
  lookup k (map (fun kn => (fst kn, VInt (snd kn))) (bump l dist))
  = if str_eqb l k
    then match lookup k (map (fun kn => (fst kn, VInt (snd kn))) dist) with
         | Some (VInt n) => Some (VInt (n + 1))
         | _ => Some (VInt 1)
         end
    else lookup k (map (fun kn => (fst kn, VInt (snd kn))) dist).
Proof.
  induction dist as [|[k' n] rest IH].
  - cbn. rewrite (str_eqb_sym k l). destruct (str_eqb l k); reflexivity.
  - cbn [bump]. destruct (str_eqb l k') eqn:E.
    + apply str_eqb_eq in E. subst k'. cbn [map fst snd lookup].
      rewrite (str_eqb_sym k l). destruct (str_eqb l k); reflexivity.
    + cbn [map fst snd lookup].
      destruct (str_eqb k k') eqn:F.
      * apply str_eqb_eq in F. subst k'. rewrite E. reflexivity.
      * apply IH.
Qed.

Lemma bump_sum l dist : sum (map snd (bump l dist)) = (sum (map snd dist) + 1)%Z.
Proof.
  induction dist as [|[k n] rest IH]; [reflexivity|]. cbn [bump].
  destruct (str_eqb l k); cbn [map snd sum fold_right] in *; unfold sum in *; lia.
Qed.

Lemma distribution_invariant tweets seen dist :
  sum (map snd dist) = count seen ->
  (forall l, lookup l (map (fun kn => (fst kn, VInt (snd kn))) dist)
             = if (0 <? written l seen)%Z then Some (VInt (written l seen)) else None) ->
  let final := fold_left (fun dist t => bump (lang t) dist) tweets dist in
  sum (map snd final) = count (seen ++ tweets) /\
  (forall l, lookup l (map (fun kn => (fst kn, VInt (snd kn))) final)
             = if (0 <? written l (seen ++ tweets))%Z
               then Some (VInt (written l (seen ++ tweets))) else None).
Proof.
  revert seen dist. induction tweets as [|t rest IH]; intros seen dist S L.
  - cbn. rewrite app_nil_r. auto.
  - cbn [fold_left]. replace (seen ++ t :: rest) with ((seen ++ [t]) ++ rest)
      by (rewrite <- app_assoc; reflexivity).
    apply IH.
    + rewrite bump_sum, S. unfold count. rewrite length_app. cbn. lia.
    + intros l. rewrite lookup_bump. rewrite L, written_app.
      assert (W : (0 <= written l seen)%Z) by (unfold written, count; lia).
      destruct (str_eqb (lang t) l).
      * destruct (Z.ltb_spec 0 (written l seen)), (Z.ltb_spec 0 (written l seen + 1));
          try lia; try reflexivity.
        replace (written l seen + 1)%Z with 1%Z by lia. reflexivity.
      * rewrite Z.add_0_r. reflexivity.
Qed.

(** X11: the language distribution of a timeline maps every language in
    which at least one tweet is written to the number of tweets written in
    it, holds no other language, and its counts add up to the number of
    tweets. *)
Theorem language_distribution_counts tweets :
  (forall l,
     getitem (language_distribution tweets) l
     = if (0 <? written l tweets)%Z then Ok (VInt (written l tweets))
       else Raise KeyError) /\
  exists dist,
    language_distribution tweets = VDict (map (fun kn => (fst kn, VInt (snd kn))) dist) /\
    sum (map snd dist) = count tweets.
Proof.
  destruct (distribution_invariant tweets [] []) as (S & L).
  - reflexivity.
  - intros l. reflexivity.
  - cbn [app] in S, L. split.
    + intros l. unfold language_distribution. cbn [getitem].
      rewrite (L l). destruct (0 <? _)%Z; reflexivity.
    + eexists. split; [reflexivity|exact S].
Qed.

End Content.

(** A timeline of two tweets with neutral sentiment: one of them is
    suspicious. *)
Lemma content_ratio_in_unit_interval_witness :
  exists r c,
    getitem (AccountAnalyzer._analyze_content example_runtime Cases.two_tweets)
            (lit "suspicious_content_ratio") = Ok (VFloat (FFin r)) /\
    (0 <= r <= 1)%Q /\
    getitem (AccountAnalyzer._analyze_content example_runtime Cases.two_tweets)
            (lit "suspicious_content_count") = Ok (VInt c) /\
    (0 <= c <= AccountAnalyzer.count Cases.two_tweets)%Z.
Proof.
  apply (content_ratio_in_unit_interval example_runtime Cases.two_tweets 0).
  - discriminate.
  - reflexivity.
  - split; discriminate.
Defined.

(** ** The engagement *)
Section Engagement.
Import AccountAnalyzer Shapes.
Local Open Scope string_scope.
Local Open Scope list_scope.
Local Open Scope Q_scope.

Lemma sum_bounds (l : list Z) B :
  Forall (fun z => 0 <= z <= B)%Z l -> (0 <= sum l <= count l * B)%Z.
Proof.
  unfold sum, count. induction 1 as [|z l Hz _ IH]; cbn [fold_right List.length].
  - lia.
  - rewrite Nat2Z.inj_succ. lia.
Qed.

(** The quotient of a non-negative integer by a positive one, when it is
    at most [2^52]. *)
Lemma truediv_small total n :
  (0 <= total <= n * 2 ^ 52)%Z -> (0 < n)%Z ->
  exists q, truediv (VInt total) (VInt n) = Ok (VFloat (FFin q)) /\
            fl q == q /\ 0 <= q <= inject_Z (2 ^ 52).
Proof.
  intros [H0 H1] Hn. unfold truediv. cbn [to_number num_eqb].
  destruct (Z.eqb_spec n 0) as [|_]; [lia|].
  assert (Hx : 0 <= inject_Z total / inject_Z n <= inject_Z (2 ^ 52)).
  { rewrite Zle_Qle in H0, H1. rewrite Zlt_Qlt in Hn. rewrite inject_Z_mult in H1.
    change (inject_Z 0) with 0 in H0, Hn.
    split; [apply Qle_shift_div_l|apply Qle_shift_div_r]; lra. }
  destruct (fl_ov_small (inject_Z total / inject_Z n) (2 ^ 52) ltac:(lia)) as [E B].
  { split; [|tauto]. assert (0 <= inject_Z (2 ^ 52)) by (vm_compute; discriminate). lra. }
  rewrite E. eexists. split; [reflexivity|]. split; [apply fl_idem|].
  split; [apply fl_nonneg; lra|tauto].
Qed.

Lemma mean_small (l : list Z) :
  l <> [] -> Forall (fun z => 0 <= z <= 2 ^ 50)%Z l ->
  exists n, mean l = Ok (of_number n) /\ moderate n.
Proof.
  intros N P. unfold mean. pose proof (sum_bounds l _ P) as S.
  assert (Hn : (0 < count l)%Z) by (destruct l; [congruence|unfold count; cbn; lia]).
  destruct (sum l mod count l =? 0)%Z.
  - exists (NInt (sum l / count l)). split; [reflexivity|exact I].
  - destruct (truediv_small (sum l) (count l)) as (q & E & Q); [nia|exact Hn|].
    exists (NFloat (FFin q)). split; [exact E|exact Q].
Qed.

Lemma round_small n ndigits :
  (0 <= ndigits)%Z -> moderate n -> exists v, round (of_number n) ndigits = Ok v.
Proof.
  intros Hd H. destruct n as [z|[q| |]]; try contradiction.
  - eexists. reflexivity.
  - destruct H as [F [Q0 Q1]]. cbn [of_number round].
    destruct (fround_total q ndigits Hd F Q0) as (r & -> & _).
    + pose proof big_pow.
      assert (inject_Z (2 ^ 52) <= inject_Z (2 ^ 53)) by (vm_compute; discriminate).
      lra.
    + eexists. reflexivity.
Qed.

Lemma classify_total a b c :
  exists label,
    _classify_engagement_pattern (of_number a) (of_number b) (of_number c)
    = Ok (vstr label) /\
    In label ["high_engagement"; "moderate_engagement"; "low_engagement";
              "minimal_engagement"]%string.
Proof.
  unfold _classify_engagement_pattern, gt_num. rewrite !to_number_of_number.
  cbn [bind].
  repeat match goal with
  | |- context [if ?x then _ else _] => destruct x; cbn [bind]
  end; eexists; (split; [reflexivity|cbn; tauto]).
Qed.

Lemma map_bounds (f : tweet -> Z) tweets :
  (forall t, In t tweets -> 0 <= f t <= 2 ^ 50)%Z ->
  Forall (fun z => 0 <= z <= 2 ^ 50)%Z (map f tweets).
Proof.
  intros H. apply Forall_forall. intros z Hz. apply in_map_iff in Hz.
  destruct Hz as (t & <- & Ht). apply H, Ht.
Qed.

(** X9: on a non-empty timeline whose like, retweet and reply counts are
    not negative and at most [2^50], the engagement analysis does not take
    its error fallback: the pattern is one of the four engagement levels,
    never ['error'] or ['no_data'], and every tweet is counted as
    analysed. *)
Theorem engagement_never_fails tweets :
  tweets <> [] -> (forall t, In t tweets -> plausible t) ->
  exists label,
    getitem (_analyze_engagement tweets) (lit "pattern") = Ok (vstr label) /\
    In label ["high_engagement"; "moderate_engagement"; "low_engagement";
              "minimal_engagement"]%string /\
    getitem (_analyze_engagement tweets) (lit "total_tweets_analyzed")
      = Ok (VInt (count tweets)).
Proof.
  intros N P. unfold _analyze_engagement, analyze_engagement_body.
  destruct tweets as [|t0 rest] eqn:T; [congruence|]. rewrite <- T in *. clear N.
  assert (Hn : (0 < count tweets)%Z) by (rewrite T; unfold count; cbn; lia).
  assert (PL : Forall (fun z => 0 <= z <= 2 ^ 50)%Z (map like_count tweets))
    by (apply map_bounds; intros t Ht; apply (P t Ht)).
  assert (PR : Forall (fun z => 0 <= z <= 2 ^ 50)%Z (map retweet_count tweets))
    by (apply map_bounds; intros t Ht; apply (P t Ht)).
  assert (PP : Forall (fun z => 0 <= z <= 2 ^ 50)%Z (map reply_count tweets))
    by (apply map_bounds; intros t Ht; apply (P t Ht)).
  assert (M : forall f : tweet -> Z, map f tweets <> [])
    by (intros f; rewrite T; discriminate).
  destruct (mean_small (map like_count tweets) (M _) PL) as (a & -> & A).
  destruct (mean_small (map retweet_count tweets) (M _) PR) as (b & -> & B).
  destruct (mean_small (map reply_count tweets) (M _) PP) as (c & -> & C).
  cbn [bind].
  pose proof (sum_bounds _ _ PL) as SL. pose proof (sum_bounds _ _ PR) as SR.
  pose proof (sum_bounds _ _ PP) as SP.
  assert (CL : forall f : tweet -> Z, count (map f tweets) = count tweets)
    by (intros f; unfold count; rewrite length_map; reflexivity).
  rewrite CL in SL, SR, SP.
  destruct (truediv_small (sum (map like_count tweets) + sum (map retweet_count tweets)
                           + sum (map reply_count tweets)) (count tweets))
    as (rate & -> & R); [lia|exact Hn|].
  cbn [bind].
  destruct (classify_total a b c) as (label & -> & L). cbn [bind].
  destruct (round_small a 1 ltac:(lia) A) as [ra ->].
  destruct (round_small b 1 ltac:(lia) B) as [rb ->].
  destruct (round_small c 1 ltac:(lia) C) as [rc ->].
  destruct (round_small (NFloat (FFin rate)) 1 ltac:(lia) R) as [rr Hr].
  cbn [of_number] in Hr. rewrite Hr. cbn [bind except].
  exists label. split; [reflexivity|]. split; [exact L|reflexivity].
Qed.

End Engagement.

(** The two sample tweets have 3 and 4 likes. *)
Lemma engagement_never_fails_witness :
  exists label,
    getitem (AccountAnalyzer._analyze_engagement Cases.two_tweets) (lit "pattern")
      = Ok (AccountAnalyzer.vstr label) /\
    In label ["high_engagement"; "moderate_engagement"; "low_engagement";
              "minimal_engagement"]%string /\
    getitem (AccountAnalyzer._analyze_engagement Cases.two_tweets)
            (lit "total_tweets_analyzed") = Ok (VInt 2).
Proof.
  apply (engagement_never_fails Cases.two_tweets).
  - discriminate.
  - intros t [<-|[<-|[]]]; unfold Shapes.plausible; simpl; lia.
Defined.

(** ** The activity pattern *)
Section Activity.
Import AccountAnalyzer Shapes.
Local Open Scope string_scope.
Local Open Scope list_scope.

Lemma few_tweets_frequency n oldest now :
  (n < 20)%Z -> posting_frequency n oldest now = Ok "low".
Proof.
  intros H. unfold posting_frequency.
  destruct (Z.leb_spec 20 n); [lia|reflexivity].
Qed.

(** Fewer than 20 tweets are never consistent activity, whatever the
    tweets and their dates. *)
Lemma few_tweets_flag tweets now :
  (count tweets < 20)%Z ->
  getitem (_analyze_activity_patterns tweets now) (lit "consistent_activity")
    = Ok (VBool false).
Proof.
  intros H. unfold _analyze_activity_patterns, analyze_activity_body.
  destruct tweets as [|t0 rest] eqn:T; [reflexivity|]. rewrite <- T in *.
  destruct (sorted_desc tweets) as [sorted|]; cbn [bind except]; [|reflexivity].
  rewrite few_tweets_frequency by exact H. reflexivity.
Qed.

Lemma insert_desc_In x t l : In x (insert_desc t l) <-> x = t \/ In x l.
Proof.
  induction l as [|u rest IH]; cbn [insert_desc].
  - cbn. intuition.
  - destruct (instant u <=? instant t)%Z; cbn [In] in *; [intuition|].
    rewrite IH. intuition.
Qed.

Lemma sorted_desc_In x l : In x (fold_right insert_desc [] l) <-> In x l.
Proof.
  induction l as [|t rest IH]; cbn [fold_right]; [reflexivity|].
  rewrite insert_desc_In, IH. cbn. intuition.
Qed.

Lemma insert_desc_filter (p : tweet -> bool) t l :
  count (filter p (insert_desc t l)) = count (filter p (t :: l)).
Proof.
  induction l as [|u rest IH]; [reflexivity|]. cbn [insert_desc].
  destruct (instant u <=? instant t)%Z; [reflexivity|].
  cbn [filter] in *. unfold count in *.
  destruct (p u), (p t); cbn [List.length] in *; lia.
Qed.

Lemma sorted_desc_filter (p : tweet -> bool) l :
  count (filter p (fold_right insert_desc [] l)) = count (filter p l).
Proof.
  induction l as [|t rest IH]; [reflexivity|]. cbn [fold_right].
  rewrite insert_desc_filter. cbn [filter]. unfold count in *.
  destruct (p t); cbn [List.length]; lia.
Qed.

Lemma insert_desc_sorted t l : newest_first l -> newest_first (insert_desc t l).
Proof.
  unfold newest_first. induction 1 as [|u rest S IH F]; cbn [insert_desc].
  - repeat constructor.
  - destruct (Z.leb_spec (instant u) (instant t)).
    + constructor; [constructor; assumption|]. constructor; [assumption|].
      eapply Forall_impl; [|exact F]. cbn. intros. lia.
    + constructor; [exact IH|]. apply Forall_forall. intros x Hx.
      apply insert_desc_In in Hx. destruct Hx as [->|Hx]; [lia|].
      rewrite Forall_forall in F. apply F, Hx.
Qed.

Lemma sorted_desc_newest_first l : newest_first (fold_right insert_desc [] l).
Proof.
  induction l as [|t rest IH]; cbn [fold_right]; [constructor|].
  apply insert_desc_sorted, IH.
Qed.

Lemma last_In (l : list tweet) d : l <> [] -> In (last l d) l.
Proof.
  induction l as [|u rest IH]; [congruence|]. intros _.
  destruct rest as [|v rest']; [left; reflexivity|].
  change (last (u :: v :: rest') d) with (last (v :: rest') d).
  right. apply IH. discriminate.
Qed.

(** The last tweet of a sorted timeline is one of the oldest instant. *)
Lemma last_is_oldest l d x :
  newest_first l -> In x l -> (instant (last l d) <= instant x)%Z.
Proof.
  unfold newest_first. induction 1 as [|u rest S IH F]; [contradiction|].
  intros [->|Hx].
  - destruct rest as [|v rest']; [cbn; lia|].
    change (last (x :: v :: rest') d) with (last (v :: rest') d).
    rewrite Forall_forall in F. apply F. apply last_In. discriminate.
  - destruct rest as [|v rest']; [contradiction|].
    change (last (u :: v :: rest') d) with (last (v :: rest') d). apply IH, Hx.
Qed.

Lemma earliest_le t0 rest x :
  In x (t0 :: rest) -> (earliest t0 rest <= created_at x)%Z.
Proof.
  unfold earliest. induction rest as [|t r IH]; cbn [fold_right].
  - intros [->|[]]. lia.
  - intros [->|[->|H]];
      [pose proof (IH (or_introl eq_refl))| |pose proof (IH (or_intror H))]; lia.
Qed.

Lemma earliest_In t0 rest :
  exists x, In x (t0 :: rest) /\ created_at x = earliest t0 rest.
Proof.
  unfold earliest. induction rest as [|t r IH]; cbn [fold_right].
  - exists t0. split; [left; reflexivity|reflexivity].
  - destruct IH as (x & Hx & E).
    destruct (Z.le_ge_cases (created_at t)
                (fold_right (fun t oldest => Z.min (created_at t) oldest)
                            (created_at t0) r)).
    + exists t. split; [right; left; reflexivity|lia].
    + exists x. split; [|lia].
      destruct Hx as [->|Hx]; [left; reflexivity|right; right; exact Hx].
Qed.

(** In one zone the instants are the wall-clock times, shifted. *)
Lemma one_zone_instant aware offset tweets x :
  one_zone aware offset tweets -> In x tweets ->
  instant x = (created_at x - (if aware then offset else 0))%Z.
Proof.
  intros Z Hx. destruct (Z x Hx) as [A O]. unfold instant. rewrite A.
  destruct aware; [rewrite (O eq_refl); reflexivity|lia].
Qed.

(** The sort of a timeline in one zone ends with the oldest tweet. *)
Lemma oldest_of_sorted aware offset t0 rest :
  one_zone aware offset (t0 :: rest) ->
  created_at (last (fold_right insert_desc [] (t0 :: rest)) t0) = earliest t0 rest.
Proof.
  intros Z. set (s := fold_right insert_desc [] (t0 :: rest)).
  assert (N : s <> []).
  { intros E. assert (H : In t0 s) by (apply sorted_desc_In; left; reflexivity).
    rewrite E in H. contradiction. }
  assert (L : In (last s t0) (t0 :: rest)) by (apply sorted_desc_In, last_In, N).
  apply Z.le_antisymm.
  - destruct (earliest_In t0 rest) as (x & Hx & <-).
    assert (I : (instant (last s t0) <= instant x)%Z).
    { apply last_is_oldest; [apply sorted_desc_newest_first|apply sorted_desc_In, Hx]. }
    rewrite (one_zone_instant aware offset _ _ Z L) in I.
    rewrite (one_zone_instant aware offset _ _ Z Hx) in I. lia.
  - apply earliest_le, L.
Qed.

Lemma frequency_total n oldest now :
  (0 <= n <= 2 ^ 52)%Z ->
  exists frequency, posting_frequency n oldest now = Ok frequency.
Proof.
  intros Hn. unfold posting_frequency.
  destruct (20 <=? n)%Z; [|eexists; reflexivity].
  destruct (Z.ltb_spec 0 (td_days (now - oldest))) as [D|D]; [|eexists; reflexivity].
  assert (Q : exists q, truediv (VInt n) (VInt (td_days (now - oldest))) = Ok (VFloat q)).
  { unfold truediv. cbn [to_number num_eqb].
    destruct (Z.eqb_spec (td_days (now - oldest)) 0) as [|_]; [lia|].
    destruct (fl_ov_small (inject_Z n / inject_Z (td_days (now - oldest))) (2 ^ 52)
                ltac:(lia)) as [E _].
    - assert (0 <= inject_Z n / inject_Z (td_days (now - oldest)) <= inject_Z (2 ^ 52))%Q.
      { destruct Hn as [H0 H1]. rewrite Zle_Qle in H0, H1.
        assert (1 <= inject_Z (td_days (now - oldest)))%Q.
        { change 1%Q with (inject_Z 1). rewrite <- Zle_Qle. lia. }
        change (inject_Z 0) with 0%Q in H0.
        assert (0 <= inject_Z (2 ^ 52))%Q by (vm_compute; discriminate).
        split; [apply Qle_shift_div_l|apply Qle_shift_div_r]; try lra. nra. }
      assert (0 <= inject_Z (2 ^ 52))%Q by (vm_compute; discriminate). lra.
    - rewrite E. eexists. reflexivity. }
  destruct Q as [q ->]. cbn [bind gt_num to_number].
  repeat match goal with
  | |- context [if ?x then _ else _] => destruct x; cbn [bind]
  end; eexists; reflexivity.
Qed.

(** X13: the activity analysis of a timeline of at most 100 tweets in one
    zone (the dates are all naive, or all aware with the same UTC offset,
    as those of the API are) does not depend on the order of the tweets:
    the posting frequency is that of the number of tweets and of the
    earliest date, the activity is consistent exactly for the frequencies
    ['moderate'] and ['high'], and the recent tweets are the tweets of the
    last seven days. *)
Theorem activity_ignores_order t0 rest aware offset now :
  one_zone aware offset (t0 :: rest) ->
  (count (t0 :: rest) <= 100)%Z ->
  let activity := _analyze_activity_patterns (t0 :: rest) now in
  exists frequency,
    posting_frequency (count (t0 :: rest)) (earliest t0 rest) now = Ok frequency /\
    getitem activity (lit "posting_frequency") = Ok (vstr frequency) /\
    getitem activity (lit "consistent_activity") = Ok (VBool (is_consistent frequency)) /\
    getitem activity (lit "recent_tweets_count")
      = Ok (VInt (count (filter (recent now) (t0 :: rest)))) /\
    getitem activity (lit "recent_activity")
      = Ok (VBool (existsb (recent now) (t0 :: rest))).
Proof.
  intros U C activity. subst activity.
  unfold _analyze_activity_patterns, analyze_activity_body, sorted_desc.
  assert (F : forallb (fun t => Bool.eqb (created_at_aware t) (created_at_aware t0))
                      (t0 :: rest) = true).
  { apply forallb_forall. intros t Ht.
    rewrite (proj1 (U t Ht)), (proj1 (U t0 (or_introl eq_refl))). apply eqb_reflx. }
  rewrite F. cbn [bind]. rewrite (oldest_of_sorted aware offset t0 rest U).
  destruct (frequency_total (count (t0 :: rest)) (earliest t0 rest) now) as [frequency E].
  { unfold count in *. lia. }
  rewrite E. cbn [bind except]. exists frequency. split; [reflexivity|].
  split; [reflexivity|]. split; [reflexivity|].
  fold (recent now). split.
  - cbn [getitem lookup]. rewrite sorted_desc_filter. reflexivity.
  - cbn [getitem lookup]. rewrite sorted_desc_filter, filter_existsb. reflexivity.
Qed.

End Activity.

(** Twenty tweets of the zone UTC+2, one a day and not in the order of
    their dates: a moderate frequency, and six tweets in the last seven
    days. *)
Lemma activity_ignores_order_witness :
  exists frequency,
    AccountAnalyzer.posting_frequency 20
      (Shapes.earliest Cases.busy_first Cases.busy_rest) Cases.today
    = Ok frequency /\
    getitem (AccountAnalyzer._analyze_activity_patterns Cases.busy_timeline Cases.today)
            (lit "posting_frequency") = Ok (AccountAnalyzer.vstr frequency) /\
    getitem (AccountAnalyzer._analyze_activity_patterns Cases.busy_timeline Cases.today)
            (lit "consistent_activity")
      = Ok (VBool (AccountAnalyzer.is_consistent frequency)) /\
    getitem (AccountAnalyzer._analyze_activity_patterns Cases.busy_timeline Cases.today)
            (lit "recent_tweets_count") = Ok (VInt 6) /\
    getitem (AccountAnalyzer._analyze_activity_patterns Cases.busy_timeline Cases.today)
            (lit "recent_activity") = Ok (VBool true).
Proof.
  apply (activity_ignores_order Cases.busy_first Cases.busy_rest true Cases.two_hours
           Cases.today).
  - intros t H. unfold Cases.busy_rest in H. cbn [map In] in H.
    repeat (destruct H as [<-|H]; [split; reflexivity|]). contradiction.
  - vm_compute. discriminate.
Defined.

(** ** The bio *)
Section BioAnalysis.
Import AccountAnalyzer.
Local Open Scope string_scope.
Local Open Scope list_scope.

Variable rt : Runtime.

(** X7: the bio analysis always yields one of the risk levels ['low'],
    ['medium'] and ['high']; for a non-empty string the level depends on the
    number of suspicious keywords found in the lower-cased bio alone, three
    or more giving ['high'], one or two ['medium'] and none ['low'], whatever
    positive keywords are found; and a bio is reported as present exactly
    when it is a non-empty string. *)
Theorem bio_risk_from_suspicious_keywords bio :
  (exists level,
     getitem (_analyze_bio rt bio) (lit "risk_level") = Ok (vstr level) /\
     In level ["low"; "medium"; "high"]) /\
  (forall s, bio = VStr s -> s <> [] ->
     let found :=
       count (filter (fun kw => str_in kw (str_lower rt s)) suspicious_keywords) in
     getitem (_analyze_bio rt bio) (lit "risk_level")
       = Ok (vstr (if (2 <? found)%Z then "high"
                   else if (0 <? found)%Z then "medium" else "low")) /\
     getitem (_analyze_bio rt bio) (lit "has_bio") = Ok (VBool true)) /\
  ((forall s, bio = VStr s -> s = []) ->
     getitem (_analyze_bio rt bio) (lit "has_bio") = Ok (VBool false)).
Proof.
  split; [apply bio_has_level|]. split.
  - intros s -> N found. destruct s as [|c s]; [congruence|].
    unfold _analyze_bio, analyze_bio_body. cbn [truthy negb except].
    split; [|reflexivity]. cbn [getitem]. unfold bio_risk_level. fold found.
    destruct (2 <? found)%Z; [reflexivity|].
    destruct (0 <? found)%Z; [reflexivity|].
    destruct (0 <? _)%Z; reflexivity.
  - intros E. unfold _analyze_bio, analyze_bio_body.
    destruct (truthy bio) eqn:T; cbn [negb]; [|reflexivity].
    destruct bio; try reflexivity.
    rewrite (E s eq_refl) in T. discriminate.
Qed.

Lemma firstn_app_short {A : Type} n (l m : list A) :
  (n <= List.length l)%nat -> firstn n (l ++ m) = firstn n l.
Proof.
  intros H. rewrite firstn_app. replace (n - List.length l)%nat with 0%nat by lia.
  cbn. apply app_nil_r.
Qed.

(** X8: the analysis of a non-empty bio records the length of the bio and
    an excerpt of it: the bio itself when it has at most 100 code points,
    and otherwise its first 100 code points followed by an ellipsis, 103
    code points in all. *)
Theorem bio_excerpt s :
  s <> [] ->
  exists excerpt,
    getitem (_analyze_bio rt (VStr s)) (lit "text") = Ok (VStr excerpt) /\
    getitem (_analyze_bio rt (VStr s)) (lit "length") = Ok (VInt (count s)) /\
    (count excerpt <= 103)%Z /\
    slice_to 100 excerpt = slice_to 100 s /\
    ((count s <= 100)%Z -> excerpt = s) /\
    ((100 < count s)%Z -> excerpt = slice_to 100 s ++ lit "...").
Proof.
  intros N. destruct s as [|c s]; [congruence|].
  unfold _analyze_bio, analyze_bio_body. cbn [truthy negb except].
  set (bio := c :: s).
  exists (if (100 <? count bio)%Z then slice_to 100 bio ++ lit "..." else bio).
  split; [reflexivity|]. split; [reflexivity|].
  destruct (Z.ltb_spec 100 (count bio)) as [L|L].
  - split; [|split; [|split; [lia|reflexivity]]].
    + unfold count in *. rewrite length_app. unfold slice_to.
      rewrite length_firstn. cbn [lit List.length map list_ascii_of_string]. lia.
    + unfold slice_to. rewrite firstn_app_short
        by (rewrite length_firstn; unfold count in L; lia).
      rewrite firstn_firstn. reflexivity.
  - split; [lia|]. split; [reflexivity|]. split; [reflexivity|lia].
Qed.

End BioAnalysis.

(** A bio of seven code points is its own excerpt. *)
Lemma bio_excerpt_witness :
  exists excerpt,
    getitem (AccountAnalyzer._analyze_bio example_runtime (VStr (lit "builder")))
            (lit "text") = Ok (VStr excerpt) /\
    getitem (AccountAnalyzer._analyze_bio example_runtime (VStr (lit "builder")))
            (lit "length") = Ok (VInt 7) /\
    (AccountAnalyzer.count excerpt <= 103)%Z /\
    slice_to 100 excerpt = slice_to 100 (lit "builder") /\
    ((AccountAnalyzer.count (lit "builder") <= 100)%Z -> excerpt = lit "builder") /\
    ((100 < AccountAnalyzer.count (lit "builder"))%Z ->
     excerpt = slice_to 100 (lit "builder") ++ lit "...").
Proof.
  apply (bio_excerpt example_runtime (lit "builder")). discriminate.
Defined.

(** ** The follower ratio and its reading *)
Section FollowerRatio.
Import AccountAnalyzer.
Local Open Scope string_scope.
Local Open Scope list_scope.

Lemma above_ten n : num_ltb (NFloat (FFin 10)) n = num_ltb (NInt 10) n.
Proof.
  destruct n as [z|f]; [|reflexivity]. cbn [num_ltb exact flt].
  destruct (Z.ltb_spec 10 z) as [L|L].
  - apply Qltb_true. change 10%Q with (inject_Z 10). rewrite <- Zlt_Qlt. exact L.
  - apply Qltb_false. change 10%Q with (inject_Z 10). rewrite <- Zle_Qle. exact L.
Qed.

(** X6: with the default threshold of 10, every account whose follower
    ratio is read as 'High ratio' or 'Very high ratio' is flagged as
    suspicious. *)
Theorem high_ratio_is_suspicious user_info :
  let ratio := _calculate_follower_ratio default_config user_info in
  (getitem ratio (lit "interpretation")
     = Ok (vstr "Very high ratio - possible influencer or suspicious bot activity") \/
   getitem ratio (lit "interpretation")
     = Ok (vstr "High ratio - established account or selective following")) ->
  getitem ratio (lit "is_suspicious") = Ok (VBool true).
Proof.
  cbn zeta. unfold _calculate_follower_ratio.
  destruct (follower_ratio_body default_config user_info) as [v|] eqn:E; cbn [except];
    [|reflexivity].
  unfold follower_ratio_body in E.
  destruct (getitem user_info (lit "followers_count")) as [followers|];
    cbn [bind] in E; [|discriminate].
  destruct (getitem user_info (lit "following_count")) as [following|];
    cbn [bind] in E; [|discriminate].
  destruct (if eq_num following (NInt 0) then Ok followers else truediv followers following)
    as [ratio|]; cbn [bind] in E; [|discriminate].
  destruct (round ratio 2) as [rounded|]; cbn [bind] in E; [|discriminate].
  unfold gt_num at 1 in E. unfold _interpret_follower_ratio, gt_num in E.
  destruct (to_number ratio) as [n|]; cbn [bind] in E; [|discriminate].
  cbn [SUSPICIOUS_FOLLOWER_RATIO default_config] in E. rewrite above_ten in E.
  destruct (num_ltb (NInt 10) n) eqn:T.
  - cbn [bind] in E.
    destruct (num_ltb (NInt 100) n); cbn [bind] in E; apply Ok_inj in E; subst v;
      intros _; reflexivity.
  - destruct (num_ltb (NInt 100) n) eqn:H.
    + exfalso. destruct n as [z|[q|[|]|]]; cbn in T, H; try discriminate.
      * apply Z.ltb_lt in H. apply Z.ltb_ge in T. lia.
      * apply Qltb_true in H. apply Qltb_false in T.
        change (inject_Z 100) with 100%Q in H. change (inject_Z 10) with 10%Q in T.
        lra.
    + run_body E.
      all: apply Ok_inj in E; subst v.
      all: intros [X|X]; vm_compute in X; discriminate X.
Qed.

End FollowerRatio.

(** 5000 followers and nobody followed: a very high ratio. *)
Lemma high_ratio_is_suspicious_witness :
  getitem (AccountAnalyzer._calculate_follower_ratio default_config
             (Samples.snapshot 5000 0))
          (lit "is_suspicious") = Ok (VBool true).
Proof.
  apply (high_ratio_is_suspicious (Samples.snapshot 5000 0)).
  left. reflexivity.
Defined.

(** ** The assembled analysis *)
Section Assembled.
Import AccountAnalyzer RiskScorer Shapes.
Local Open Scope string_scope.
Local Open Scope list_scope.

Variable rt : Runtime.
Variable config : Config.

Lemma score_always_valid analysis : valid_score (_calculate_risk_score analysis).
Proof.
  unfold _calculate_risk_score.
  destruct (risk_score_body analysis) as [v|] eqn:E; cbn [except].
  - unfold risk_score_body in E.
    destruct (risk_factors analysis) as [risk_score|]; cbn [bind] in E; [|discriminate].
    exact (bounds_then_round_valid risk_score v E).
  - exact default_score_valid.
Qed.

(** X1: [analyze_account] returns [None] exactly when there is no account
    snapshot (it is [None] or empty) or the snapshot misses one of the nine
    items the analysis reads; the timeline and the clock never make it
    fail. *)
Theorem analyze_account_none_iff user_id user_info user_tweets now now' :
  analyze_account rt config user_id user_info user_tweets now now' = VNone <->
  truthy user_info = false \/
  exists key e, In key snapshot_keys /\ getitem user_info (lit key) = Raise e.
Proof.
  unfold analyze_account, analyze_account_body, snapshot_keys. split.
  - destruct (truthy user_info); cbn [negb]; [|intros _; left; reflexivity].
    intros H. right.
    repeat match type of H with
    | context [bind (getitem user_info (lit ?k)) _] =>
        let E := fresh "E" in
        destruct (getitem user_info (lit k)) eqn:E; cbn [bind] in H;
        [|exists k; eexists; split; [cbn; tauto|exact E]]
    end.
    discriminate.
  - intros [T|(key & e & K & E)].
    + rewrite T. reflexivity.
    + destruct (truthy user_info); cbn [negb]; [|reflexivity].
      cbn [In] in K.
      repeat (destruct K as [<-|K];
              [repeat match goal with
               | |- context [bind (getitem user_info (lit ?k)) _] =>
                   first [ rewrite E; reflexivity
                         | destruct (getitem user_info (lit k)); cbn [bind except];
                           [|reflexivity] ]
               end|]).
      contradiction.
Qed.

(** What [analyze_account] stores in the analysis it returns. *)
Lemma analysis_fields user_id user_info user_tweets now now' analysis :
  analyze_account rt config user_id user_info user_tweets now now' = analysis ->
  analysis <> VNone ->
  exists created description verified,
    getitem user_info (lit "created_at") = Ok created /\
    getitem user_info (lit "description") = Ok description /\
    getitem user_info (lit "verified") = Ok verified /\
    getitem analysis (lit "account_age")
      = Ok (_calculate_account_age rt config created now) /\
    getitem analysis (lit "follower_following_ratio")
      = Ok (_calculate_follower_ratio config user_info) /\
    getitem analysis (lit "bio_analysis") = Ok (_analyze_bio rt description) /\
    getitem analysis (lit "engagement_analysis") = Ok (_analyze_engagement user_tweets) /\
    getitem analysis (lit "content_analysis") = Ok (_analyze_content rt user_tweets) /\
    getitem analysis (lit "activity_patterns")
      = Ok (_analyze_activity_patterns user_tweets now') /\
    getitem analysis (lit "verification_status") = Ok verified /\
    getitem analysis (lit "risk_score") = Ok (_calculate_risk_score analysis) /\
    getitem analysis (lit "user_id") = Ok (VStr user_id) /\
    getitem analysis (lit "username") = getitem user_info (lit "username").
Proof.
  unfold analyze_account, analyze_account_body. intros H N.
  destruct (truthy user_info); cbn [negb except] in H; [|congruence].
  repeat match type of H with
  | context [bind (getitem user_info (lit ?k)) _] =>
      let E := fresh "E" in
      destruct (getitem user_info (lit k)) eqn:E; cbn [bind except] in H; [|congruence]
  end.
  cbn [except] in H. subst analysis.
  do 3 eexists. repeat split; try reflexivity.
Qed.

Lemma bundle_of_fields analysis age ratio bio content engagement activity
    new suspicious level r n pattern consistent verified :
  getitem analysis (lit "account_age") = Ok age ->
  getitem age (lit "is_new") = Ok new ->
  getitem analysis (lit "follower_following_ratio") = Ok ratio ->
  getitem ratio (lit "is_suspicious") = Ok suspicious ->
  getitem analysis (lit "bio_analysis") = Ok bio ->
  getitem bio (lit "risk_level") = Ok (VStr level) ->
  getitem analysis (lit "content_analysis") = Ok content ->
  getitem content (lit "suspicious_content_ratio") = Ok r ->
  as_ratio r = Some n ->
  getitem analysis (lit "engagement_analysis") = Ok engagement ->
  getitem engagement (lit "pattern") = Ok (VStr pattern) ->
  getitem analysis (lit "activity_patterns") = Ok activity ->
  getitem activity (lit "consistent_activity") = Ok consistent ->
  getitem analysis (lit "verification_status") = Ok verified ->
  bundle_of analysis
  = Some ({| is_new := truthy new;
             ratio_suspicious := truthy suspicious;
             bio_risk := level;
             suspicious_content_ratio := n;
             engagement_pattern := pattern;
             consistent_activity := truthy consistent |},
          truthy verified).
Proof.
  intros A1 A2 B1 B2 C1 C2 D1 D2 D3 E1 E2 F1 F2 G.
  unfold bundle_of, field.
  rewrite A1, A2, B1, B2, C1, C2, D1, D2, E1, E2, F1, F2, G, D3. reflexivity.
Qed.

(** X2: every analysis [analyze_account] returns records the identity it
    was asked for and the handle of the snapshot, and carries a risk score
    between 0 and 100, rounded to one decimal, that is the score of the
    returned analysis itself: computing the score again from the stored
    analysis gives the stored score. *)
Theorem analysis_score_consistent user_id user_info user_tweets now now' analysis :
  analyze_account rt config user_id user_info user_tweets now now' = analysis ->
  analysis <> VNone ->
  getitem analysis (lit "user_id") = Ok (VStr user_id) /\
  getitem analysis (lit "username") = getitem user_info (lit "username") /\
  getitem analysis (lit "risk_score") = Ok (_calculate_risk_score analysis) /\
  valid_score (_calculate_risk_score analysis).
Proof.
  intros H N.
  destruct (analysis_fields _ _ _ _ _ _ H N)
    as (created & description & verified & _ & _ & _ & _ & _ & _ & _ & _ & _ & _ & S & U & V).
  repeat split; try assumption. apply score_always_valid.
Qed.

(** X3: when the content analysis of a non-empty timeline succeeds, the
    analysis [analyze_account] returns is well formed: it holds the seven
    features of the score with their keys, its suspicious-content ratio is
    a float between 0 and 1, and its risk score is the additive formula
    applied to these features, clamped and rounded. *)
Theorem analysis_score_is_formula user_id user_info user_tweets now now' analysis content :
  analyze_account rt config user_id user_info user_tweets now now' = analysis ->
  analysis <> VNone ->
  user_tweets <> [] -> analyze_content_body rt user_tweets = Ok content ->
  exists b verified r score,
    bundle_of analysis = Some (b, verified) /\
    suspicious_content_ratio b = NFloat (FFin r) /\ (0 <= r <= 1)%Q /\
    getitem analysis (lit "risk_score") = Ok score /\
    eq_values score (of_number (RiskScorer.score b verified)).
Proof.
  intros H N T C.
  destruct (analysis_fields _ _ _ _ _ _ H N)
    as (created & description & verified & _ & _ & _ & A & B & D & E & F & G & V & S & _).
  destruct (age_has_flag rt config created now) as [new A'].
  destruct (ratio_has_flag config user_info) as [suspicious B'].
  destruct (bio_has_level rt description) as (level & D' & _).
  destruct (engagement_has_pattern user_tweets) as [pattern E'].
  destruct (activity_has_flag user_tweets now') as [consistent G'].
  destruct (content_ratio_of_body rt user_tweets content T C) as (r & c & R & Rb & _).
  assert (F' : getitem (_analyze_content rt user_tweets) (lit "suspicious_content_ratio")
               = Ok (VFloat (FFin r))).
  { unfold _analyze_content. rewrite C. exact R. }
  pose proof (bundle_of_fields analysis _ _ _ _ _ _ _ _ _ _ (NFloat (FFin r)) _ _ _
                A A' B B' D D' F F' eq_refl E E' G G' V) as W.
  eexists _, _, r, _. split; [exact W|]. split; [reflexivity|]. split; [exact Rb|].
  split; [exact S|].
  rewrite (score_of_bundle analysis _ _ W).
  eexists _, _. rewrite !to_number_of_number. repeat split.
  apply bounded_is_clamp, additive_not_nan. reflexivity.
Qed.

(** X12: a timeline of fewer than 20 tweets is never analysed as
    consistent activity, whatever its tweets and their dates (empty, mixed
    time zones or regular posting alike): the analysis [analyze_account]
    returns holds the flag [False], every reading of its features has
    inconsistent activity, and when its score is the additive formula (the
    content analysis of a non-empty timeline succeeded) the formula is
    applied with the term of inconsistent activity. *)
Theorem few_tweets_never_consistent user_id user_info user_tweets now now' analysis :
  (count user_tweets < 20)%Z ->
  analyze_account rt config user_id user_info user_tweets now now' = analysis ->
  analysis <> VNone ->
  (exists activity,
     getitem analysis (lit "activity_patterns") = Ok activity /\
     getitem activity (lit "consistent_activity") = Ok (VBool false)) /\
  (forall b verified,
     bundle_of analysis = Some (b, verified) -> consistent_activity b = false) /\
  (user_tweets <> [] ->
   (exists content, analyze_content_body rt user_tweets = Ok content) ->
   exists b verified score,
     bundle_of analysis = Some (b, verified) /\
     consistent_activity b = false /\
     getitem analysis (lit "risk_score") = Ok score /\
     eq_values score (of_number (RiskScorer.score b verified))).
Proof.
  intros L H N.
  destruct (analysis_fields _ _ _ _ _ _ H N)
    as (created & description & verified & _ & _ & _ & A & B & D & E & F & G & V & S & _).
  pose proof (few_tweets_flag user_tweets now' L) as G'.
  assert (U : forall b flag,
            bundle_of analysis = Some (b, flag) -> consistent_activity b = false).
  { intros b flag W.
    destruct (bundle_of_inv analysis b flag W)
      as (_ & _ & _ & _ & _ & (v & Fv & <-) & _).
    unfold field in Fv. rewrite G, G' in Fv. injection Fv as <-. reflexivity. }
  split; [exists (_analyze_activity_patterns user_tweets now'); split; assumption|].
  split; [exact U|].
  intros T [content C].
  destruct (age_has_flag rt config created now) as [new A'].
  destruct (ratio_has_flag config user_info) as [suspicious B'].
  destruct (bio_has_level rt description) as (level & D' & _).
  destruct (engagement_has_pattern user_tweets) as [pattern E'].
  destruct (content_ratio_of_body rt user_tweets content T C) as (r & c & R & Rb & _).
  assert (F' : getitem (_analyze_content rt user_tweets) (lit "suspicious_content_ratio")
               = Ok (VFloat (FFin r))).
  { unfold _analyze_content. rewrite C. exact R. }
  pose proof (bundle_of_fields analysis _ _ _ _ _ _ _ _ _ _ (NFloat (FFin r)) _ _ _
                A A' B B' D D' F F' eq_refl E E' G G' V) as W.
  eexists _, _, _. split; [exact W|]. split; [exact (U _ _ W)|]. split; [exact S|].
  rewrite (score_of_bundle analysis _ _ W).
  eexists _, _. rewrite !to_number_of_number. repeat split.
  apply bounded_is_clamp, additive_not_nan. reflexivity.
Qed.

(** X4: when the timeline is empty or its content analysis fails (the
    sentiment library raises, say), the analysis carries the default score
    50.0, whatever the other features are, and the report presents the
    account as HIGH RISK with that score. *)
Theorem degraded_content_high_risk user_id user_info user_tweets now now' analysis :
  analyze_account rt config user_id user_info user_tweets now now' = analysis ->
  analysis <> VNone ->
  (user_tweets = [] \/ exists e, analyze_content_body rt user_tweets = Raise e) ->
  getitem analysis (lit "risk_score") = Ok (VFloat f50) /\
  ReportGenerator._generate_risk_assessment rt analysis
  = ReportGenerator.ORANGE_CIRCLE ++ lit " HIGH RISK (Score: " ++ float_repr rt f50 ++
    lit "/100)".
Proof.
  intros H N D.
  destruct (analysis_fields _ _ _ _ _ _ H N)
    as (created & description & verified & _ & _ & _ & _ & _ & _ & _ & F & _ & _ & S & _).
  assert (C : _analyze_content rt user_tweets = content_default).
  { destruct D as [->|[e E]]; [reflexivity|].
    unfold _analyze_content. rewrite E. reflexivity. }
  rewrite C in F. rewrite (score_without_ratio analysis F) in S.
  split; [exact S|].
  unfold ReportGenerator._generate_risk_assessment, ReportGenerator.risk_assessment_body.
  rewrite (dict_get_present _ _ _ _ S). reflexivity.
Qed.

Lemma valid_score_number v : valid_score v -> exists n, to_number v = Some n.
Proof.
  destruct v; try contradiction; intros _; eexists; reflexivity.
Qed.

(** A score can always be rendered: it is a float or an integer of at most
    three digits. *)
Lemma valid_score_rendered v : valid_score v -> exists shown, str rt v = Ok shown.
Proof.
  destruct v as [| | z | f | | | |]; try contradiction.
  - intros V. cbn [str]. unfold str_of_int.
    assert (L : (Z.abs z < 10 ^ Z.max 640 (int_max_str_digits rt))%Z).
    { apply Z.lt_le_trans with (10 ^ 3)%Z.
      - cbn [valid_score] in V. change (10 ^ 3)%Z with 1000%Z. lia.
      - apply Z.pow_le_mono_r; lia. }
    destruct (Z.leb_spec (10 ^ Z.max 640 (int_max_str_digits rt)) (Z.abs z)); [lia|].
    rewrite andb_false_r. eexists. reflexivity.
  - intros _. eexists. reflexivity.
Qed.

(** X20: for every analysis [analyze_account] returns, the risk line of
    the report is computed, never the fallback text: it shows the stored
    score under the level LOW RISK below 20, MODERATE RISK below 40, HIGH
    RISK below 70 and VERY HIGH RISK from 70 on. *)
Theorem risk_line_of_analysis user_id user_info user_tweets now now' analysis :
  analyze_account rt config user_id user_info user_tweets now now' = analysis ->
  analysis <> VNone ->
  exists score n shown,
    getitem analysis (lit "risk_score") = Ok score /\ valid_score score /\
    to_number score = Some n /\ str rt score = Ok shown /\
    ReportGenerator._generate_risk_assessment rt analysis
    = (if num_ltb n (NInt 20)
       then ReportGenerator.GREEN_CIRCLE ++ lit " LOW RISK"
       else if num_ltb n (NInt 40)
       then ReportGenerator.YELLOW_CIRCLE ++ lit " MODERATE RISK"
       else if num_ltb n (NInt 70)
       then ReportGenerator.ORANGE_CIRCLE ++ lit " HIGH RISK"
       else ReportGenerator.RED_CIRCLE ++ lit " VERY HIGH RISK")
      ++ lit " (Score: " ++ shown ++ lit "/100)".
Proof.
  intros H N.
  destruct (analysis_fields _ _ _ _ _ _ H N)
    as (created & description & verified & _ & _ & _ & _ & _ & _ & _ & _ & _ & _ & S & _).
  pose proof (score_always_valid analysis) as V.
  destruct (valid_score_number _ V) as [n T].
  destruct (valid_score_rendered _ V) as [shown R].
  exists (_calculate_risk_score analysis), n, shown.
  split; [exact S|]. split; [exact V|]. split; [exact T|]. split; [exact R|].
  unfold ReportGenerator._generate_risk_assessment, ReportGenerator.risk_assessment_body.
  rewrite (dict_get_present _ _ _ _ S). cbn [bind]. unfold lt_num. rewrite T.
  cbn [bind].
  destruct (num_ltb n (NInt 20)); cbn [bind except]; rewrite ?R; [reflexivity|].
  destruct (num_ltb n (NInt 40)); cbn [bind except]; rewrite ?R; [reflexivity|].
  destruct (num_ltb n (NInt 70)); cbn [bind except]; rewrite ?R; reflexivity.
Qed.

End Assembled.

Lemma alice_is_analysed : Cases.alice_analysis <> VNone.
Proof. intros E. vm_compute in E. discriminate E. Qed.

Lemma alice_is_analysed_without_tweets : Cases.alice_analysis_without_tweets <> VNone.
Proof. intros E. vm_compute in E. discriminate E. Qed.

(** The analysis of [alice] from the two sample tweets. *)
Lemma analysis_score_consistent_witness :
  getitem Cases.alice_analysis (lit "user_id") = Ok (VStr (lit "42")) /\
  getitem Cases.alice_analysis (lit "username") = getitem Cases.alice (lit "username") /\
  getitem Cases.alice_analysis (lit "risk_score")
    = Ok (AccountAnalyzer._calculate_risk_score Cases.alice_analysis) /\
  RiskScorer.valid_score (AccountAnalyzer._calculate_risk_score Cases.alice_analysis).
Proof.
  exact (analysis_score_consistent example_runtime default_config (lit "42") Cases.alice
           Cases.two_tweets Cases.today Cases.today Cases.alice_analysis eq_refl
           alice_is_analysed).
Defined.

Lemma analysis_score_is_formula_witness :
  exists b verified r score,
    RiskScorer.bundle_of Cases.alice_analysis = Some (b, verified) /\
    RiskScorer.suspicious_content_ratio b = NFloat (FFin r) /\ (0 <= r <= 1)%Q /\
    getitem Cases.alice_analysis (lit "risk_score") = Ok score /\
    eq_values score (of_number (RiskScorer.score b verified)).
Proof.
  refine (analysis_score_is_formula example_runtime default_config (lit "42") Cases.alice
            Cases.two_tweets Cases.today Cases.today Cases.alice_analysis
            (AccountAnalyzer._analyze_content example_runtime Cases.two_tweets)
            eq_refl alice_is_analysed _ _).
  - discriminate.
  - vm_compute. reflexivity.
Defined.

(** The two sample tweets are too few to be consistent activity. *)
Lemma few_tweets_never_consistent_witness :
  (exists activity,
     getitem Cases.alice_analysis (lit "activity_patterns") = Ok activity /\
     getitem activity (lit "consistent_activity") = Ok (VBool false)) /\
  (forall b verified,
     RiskScorer.bundle_of Cases.alice_analysis = Some (b, verified) ->
     RiskScorer.consistent_activity b = false) /\
  (Cases.two_tweets <> [] ->
   (exists content,
      AccountAnalyzer.analyze_content_body example_runtime Cases.two_tweets
      = Ok content) ->
   exists b verified score,
     RiskScorer.bundle_of Cases.alice_analysis = Some (b, verified) /\
     RiskScorer.consistent_activity b = false /\
     getitem Cases.alice_analysis (lit "risk_score") = Ok score /\
     eq_values score (of_number (RiskScorer.score b verified))).
Proof.
  refine (few_tweets_never_consistent example_runtime default_config (lit "42")
            Cases.alice Cases.two_tweets Cases.today Cases.today Cases.alice_analysis
            _ eq_refl alice_is_analysed).
  vm_compute. reflexivity.
Defined.

(** The analysis of [alice] from an empty timeline. *)
Lemma degraded_content_high_risk_witness :
  getitem Cases.alice_analysis_without_tweets (lit "risk_score") = Ok (VFloat f50) /\
  ReportGenerator._generate_risk_assessment example_runtime
    Cases.alice_analysis_without_tweets
  = ReportGenerator.ORANGE_CIRCLE ++ lit " HIGH RISK (Score: " ++
    float_repr example_runtime f50 ++ lit "/100)".
Proof.
  apply (degraded_content_high_risk example_runtime default_config (lit "42") Cases.alice
           [] Cases.today Cases.today Cases.alice_analysis_without_tweets eq_refl
           alice_is_analysed_without_tweets).
  left. reflexivity.
Defined.

Lemma risk_line_of_analysis_witness :
  exists score n shown,
    getitem Cases.alice_analysis (lit "risk_score") = Ok score /\
    RiskScorer.valid_score score /\ to_number score = Some n /\
    str example_runtime score = Ok shown /\
    ReportGenerator._generate_risk_assessment example_runtime Cases.alice_analysis
    = (if num_ltb n (NInt 20)
       then ReportGenerator.GREEN_CIRCLE ++ lit " LOW RISK"
       else if num_ltb n (NInt 40)
       then ReportGenerator.YELLOW_CIRCLE ++ lit " MODERATE RISK"
       else if num_ltb n (NInt 70)
       then ReportGenerator.ORANGE_CIRCLE ++ lit " HIGH RISK"
       else ReportGenerator.RED_CIRCLE ++ lit " VERY HIGH RISK")
      ++ lit " (Score: " ++ shown ++ lit "/100)".
Proof.
  exact (risk_line_of_analysis example_runtime default_config (lit "42") Cases.alice
           Cases.two_tweets Cases.today Cases.today Cases.alice_analysis eq_refl
           alice_is_analysed).
Defined.

(** ** The trusted list and its cache *)
Section TrustedList.
Import AccountAnalyzer (item, vstr, count).
Import TrustedAccountsManager Shapes.
Local Open Scope string_scope.
Local Open Scope list_scope.

Lemma mem_In u set : mem u set = true <-> In u set.
Proof.
  unfold mem. rewrite existsb_exists. split.
  - intros (x & H & E). apply str_eqb_eq in E. subst. exact H.
  - intros H. exists u. split; [exact H|apply str_eqb_refl].
Qed.


Lemma set_add_In u v set : In u (set_add v set) <-> u = v \/ In u set.
Proof.
  unfold set_add. destruct (mem v set) eqn:M.
  - apply mem_In in M. split; [tauto|]. intros [->|H]; assumption.
  - rewrite in_app_iff. cbn. intuition.
Qed.



















End TrustedList.


(** ** The refresh of the trusted list *)
Section Refresh.
Import AccountAnalyzer (item, vstr, count).
Import TrustedAccountsManager.
Local Open Scope string_scope.
Local Open Scope list_scope.

Variable rt : Runtime.
Variable config : Config.

Lemma mem_set_add u v set : mem u set = true -> mem u (set_add v set) = true.
Proof. intros H. apply mem_In. apply set_add_In. right. apply mem_In, H. Qed.

Lemma parse_line_keeps u accounts line :
  mem u accounts = true -> mem u (parse_line rt accounts line) = true.
Proof.
  intros H. unfold parse_line.
  destruct (nonempty (strip line) && negb (startswith (lit "#") (strip line)));
    [|exact H].
  destruct (nonempty _); [apply mem_set_add, H|exact H].
Qed.

Lemma parse_keeps u lines accounts :
  mem u accounts = true -> mem u (fold_left (parse_line rt) lines accounts) = true.
Proof.
  revert accounts. induction lines as [|l lines IH]; intros accounts H; [exact H|].
  cbn [fold_left]. apply IH, parse_line_keeps, H.
Qed.

Lemma parse_adds line lines accounts :
  In line lines ->
  nonempty (strip line) = true -> startswith (lit "#") (strip line) = false ->
  nonempty (str_lower rt (lstrip_char 64%N (strip line))) = true ->
  mem (str_lower rt (lstrip_char 64%N (strip line)))
      (fold_left (parse_line rt) lines accounts) = true.
Proof.
  intros I N C U. revert accounts.
  induction lines as [|l lines IH]; intros accounts; [contradiction|].
  cbn [fold_left]. destruct I as [->|I]; [|apply IH, I].
  apply parse_keeps. unfold parse_line. rewrite N, C, U. cbn [andb negb].
  apply mem_In, set_add_In. left. reflexivity.
Qed.

(** X15: after a refresh that fetched the list, every account whose
    lower-cased username is the lower-cased handle of one of its lines (a
    line that is not blank and not a comment, with or without leading [@]
    signs) is classified as directly trusted; the refresh reports success
    and records its time. *)
Theorem listed_account_is_trusted st now text now' line name user_id user_info :
  let update := update_trusted_list rt config st now (Ok text) now' in
  requested update = true ->
  In line (split_char NL (strip text)) ->
  nonempty (strip line) = true -> startswith (lit "#") (strip line) = false ->
  str_lower rt (lstrip_char 64%N (strip line)) = str_lower rt name ->
  nonempty (str_lower rt name) = true ->
  getitem user_info (lit "username") = Ok (VStr name) ->
  returned update = true /\
  last_update (after update) = Some now' /\
  getitem (check_trust_score rt config (after update) user_id user_info)
          (lit "trust_level") = Ok (vstr "directly_trusted") /\
  getitem (check_trust_score rt config (after update) user_id user_info)
          (lit "is_trusted") = Ok (VBool true).
Proof.
  intros update R I N C L U G. subst update. revert R.
  unfold update_trusted_list.
  destruct (match last_update st with Some _ => _ | None => _ end); [discriminate|].
  intros _.
  assert (T : nonempty (strip text) = true).
  { destruct (strip text) as [|c s]; [|reflexivity].
    cbn in I. destruct I as [<-|[]]. discriminate. }
  rewrite T. cbn [negb after returned last_update].
  split; [reflexivity|]. split; [reflexivity|].
  assert (M : mem (str_lower rt name) (parse_trusted_list rt (strip text)) = true).
  { rewrite <- L. apply parse_adds; try assumption. rewrite L. exact U. }
  unfold check_trust_score, trust_score_with, trust_score_body.
  rewrite (present_is_truthy _ _ _ G), G. cbn [negb bind trusted_accounts]. rewrite M.
  split; reflexivity.
Qed.


Lemma lstrip_char_other c s :
  startswith [c] s = false -> lstrip_char c s = s.
Proof.
  unfold lstrip_char. destruct s as [|x s]; [reflexivity|]. cbn.
  rewrite andb_true_r. rewrite N.eqb_sym. intros ->. reflexivity.
Qed.

(** X18: for a username whose lower-cased form does not start with [@],
    [is_account_trusted] answers [True] exactly when [check_trust_score]
    classifies the account with that username as directly trusted. *)
Theorem membership_tests_agree st name user_id user_info :
  getitem user_info (lit "username") = Ok (VStr name) ->
  startswith (lit "@") (str_lower rt name) = false ->
  (is_account_trusted rt st name = true <->
   getitem (check_trust_score rt config st user_id user_info) (lit "trust_level")
   = Ok (vstr "directly_trusted")).
Proof.
  intros G A. unfold is_account_trusted.
  rewrite (lstrip_char_other 64%N (str_lower rt name) A).
  unfold check_trust_score, trust_score_with, trust_score_body, _get_trusted_followers.
  rewrite (present_is_truthy _ _ _ G), G. cbn [negb bind].
  destruct (mem (str_lower rt name) (trusted_accounts st)); cbn [except].
  - split; reflexivity.
  - split; [discriminate|]. unfold trust_from_followers.
    destruct (_ <=? _)%Z; [discriminate|]. destruct (_ <? _)%Z; discriminate.
Qed.

End Refresh.

(** The served list names [@Alice]; the account [alice] is trusted after
    the first refresh. *)
Lemma listed_account_is_trusted_witness :
  let update :=
    TrustedAccountsManager.update_trusted_list example_runtime default_config
      Samples.no_trusted 0 (Ok Cases.served_list) 5 in
  TrustedAccountsManager.returned update = true /\
  TrustedAccountsManager.last_update (TrustedAccountsManager.after update) = Some 5%Z /\
  getitem (TrustedAccountsManager.check_trust_score example_runtime default_config
             (TrustedAccountsManager.after update) (lit "42") Cases.alice)
          (lit "trust_level") = Ok (AccountAnalyzer.vstr "directly_trusted") /\
  getitem (TrustedAccountsManager.check_trust_score example_runtime default_config
             (TrustedAccountsManager.after update) (lit "42") Cases.alice)
          (lit "is_trusted") = Ok (VBool true).
Proof.
  apply (listed_account_is_trusted example_runtime default_config Samples.no_trusted 0
           Cases.served_list 5 (lit "@Alice") (lit "alice") (lit "42") Cases.alice).
  - reflexivity.
  - vm_compute. right. left. reflexivity.
  - reflexivity.
  - reflexivity.
  - reflexivity.
  - reflexivity.
  - reflexivity.
Defined.

Lemma membership_tests_agree_witness :
  TrustedAccountsManager.is_account_trusted example_runtime Samples.refreshed_at_0
    (lit "alice") = true <->
  getitem (TrustedAccountsManager.check_trust_score example_runtime default_config
             Samples.refreshed_at_0 (lit "42") Cases.alice)
          (lit "trust_level") = Ok (AccountAnalyzer.vstr "directly_trusted").
Proof.
  apply (membership_tests_agree example_runtime default_config Samples.refreshed_at_0
           (lit "alice") (lit "42") Cases.alice).
  - reflexivity.
  - reflexivity.
Defined.

(** ** The trust decision and its report *)
Section TrustDecision.
Import AccountAnalyzer (item, vstr, count).
Import TrustedAccountsManager ReportGenerator.
Local Open Scope string_scope.
Local Open Scope list_scope.

Variable rt : Runtime.
Variable config : Config.

Lemma no_followers_decision :
  (0 < MIN_TRUSTED_FOLLOWERS config)%Z ->
  trust_from_followers config []
  = VDict [item "is_trusted" (VBool false);
           item "trust_level" (vstr "not_vouched");
           item "trusted_followers" (VList []);
           item "trusted_followers_count" (VInt 0);
           item "vouched_by_trusted" (VBool false);
           item "explanation" (VStr (lit "Not followed by any trusted accounts"))].
Proof.
  intros H. unfold trust_from_followers. cbn [count List.length Z.of_nat].
  destruct (Z.leb_spec (MIN_TRUSTED_FOLLOWERS config) 0); [lia|]. reflexivity.
Qed.

(** The three decisions [check_trust_score] can take. *)
Lemma trust_decisions st user_id user_info :
  (0 < MIN_TRUSTED_FOLLOWERS config)%Z ->
  let decision := check_trust_score rt config st user_id user_info in
  (exists s,
     truthy user_info = true /\ getitem user_info (lit "username") = Ok (VStr s) /\
     mem (str_lower rt s) (trusted_accounts st) = true /\
     decision = VDict [item "is_trusted" (VBool true);
                       item "trust_level" (vstr "directly_trusted");
                       item "trusted_followers" (VList []);
                       item "trusted_followers_count" (VInt 0);
                       item "vouched_by_trusted" (VBool true);
                       item "explanation"
                         (VStr (lit "@" ++ str_lower rt s ++
                                lit " is directly on the trusted accounts list"))]) \/
  ((forall s, truthy user_info = true ->
              getitem user_info (lit "username") = Ok (VStr s) ->
              mem (str_lower rt s) (trusted_accounts st) = false) /\
   (decision = trust_from_followers config [] \/ decision = _default_trust_score)).
Proof.
  intros H decision. subst decision.
  unfold check_trust_score, trust_score_with, trust_score_body, _get_trusted_followers.
  destruct (truthy user_info) eqn:T; cbn [negb].
  - destruct (getitem user_info (lit "username")) as [name|] eqn:N; cbn [bind except].
    + destruct name;
        try (right; split; [intros s _ [=]|right; reflexivity]).
      destruct (mem (str_lower rt s) (trusted_accounts st)) eqn:M; cbn [except].
      * left. exists s. repeat split; assumption.
      * right. split; [intros s' _ [= <-]; exact M|left; reflexivity].
    + right. split; [intros s _ [=]|right; reflexivity].
  - right. split; [intros s [=]|right; reflexivity].
Qed.

(** X14: as long as the list of trusted followers is not computed and the
    threshold is positive, [check_trust_score] declares an account trusted
    exactly when its lower-cased username is in the trusted set; the level
    is ['directly_trusted'], ['not_vouched'] or ['unknown'], never a
    vouched one, and the number of trusted followers is 0. *)
Theorem trusted_iff_listed st user_id user_info :
  (0 < MIN_TRUSTED_FOLLOWERS config)%Z ->
  let decision := check_trust_score rt config st user_id user_info in
  (getitem decision (lit "is_trusted") = Ok (VBool true) <->
   truthy user_info = true /\
   exists s, getitem user_info (lit "username") = Ok (VStr s) /\
             mem (str_lower rt s) (trusted_accounts st) = true) /\
  (exists level,
     getitem decision (lit "trust_level") = Ok (vstr level) /\
     In level ["directly_trusted"; "not_vouched"; "unknown"]) /\
  getitem decision (lit "trusted_followers_count") = Ok (VInt 0).
Proof.
  intros H decision.
  destruct (trust_decisions st user_id user_info H) as [(s & T & N & M & D)|[F D]];
    fold decision in D.
  - rewrite D. split; [|split].
    + split; [intros _; split; [exact T|exists s; split; assumption]|reflexivity].
    + eexists. split; [reflexivity|cbn; tauto].
    + reflexivity.
  - assert (U : getitem decision (lit "is_trusted") = Ok (VBool false) /\
                (exists level,
                   getitem decision (lit "trust_level") = Ok (vstr level) /\
                   In level ["directly_trusted"; "not_vouched"; "unknown"]) /\
                getitem decision (lit "trusted_followers_count") = Ok (VInt 0)).
    { destruct D as [-> | ->]; [rewrite (no_followers_decision H)|];
        (split; [reflexivity|split; [eexists; split; [reflexivity|cbn; tauto]|reflexivity]]). }
    destruct U as (U1 & U2 & U3). split; [|split; assumption].
    rewrite U1. split; [discriminate|].
    intros (T & s & N & M). rewrite (F s T N) in M. discriminate.
Qed.

(** X19: the trust status the report shows for a decision of
    [check_trust_score] (with a positive threshold) is one of two texts:
    VERIFIED TRUSTED ACCOUNT when the account is trusted and UNVERIFIED
    ACCOUNT otherwise, also when the trust could not be checked at all; the
    texts for partially backed, network backed and unknown accounts are
    never shown. *)
Theorem trust_status_of_decision st user_id user_info :
  (0 < MIN_TRUSTED_FOLLOWERS config)%Z ->
  let decision := check_trust_score rt config st user_id user_info in
  _generate_trust_status rt decision
  = match getitem decision (lit "is_trusted") with
    | Ok (VBool true) =>
        VStr (lines [CHECK_MARK ++ lit " VERIFIED TRUSTED ACCOUNT";
                     BULLET ++ lit " Account is on Project RUGGUARD's trusted list";
                     BULLET ++ lit " Automatically vouched by the system"])
    | _ =>
        VStr (lines [CROSS_MARK ++ lit " UNVERIFIED ACCOUNT";
                     BULLET ++ lit " Not on trusted list";
                     BULLET ++ lit " No trusted accounts following";
                     BULLET ++ lit " Requires manual verification"])
    end.
Proof.
  intros H decision.
  destruct (trust_decisions st user_id user_info H) as [(s & _ & _ & _ & D)|[_ D]];
    fold decision in D.
  - rewrite D. reflexivity.
  - destruct D as [-> | ->]; [rewrite (no_followers_decision H)|]; reflexivity.
Qed.

Lemma status_is_text st user_id user_info :
  (0 < MIN_TRUSTED_FOLLOWERS config)%Z ->
  exists status,
    _generate_trust_status rt (check_trust_score rt config st user_id user_info)
    = VStr status.
Proof.
  intros H.
  destruct (trust_decisions st user_id user_info H) as [(s & _ & _ & _ & D)|[_ D]];
    cbn zeta in D.
  - rewrite D. eexists. reflexivity.
  - destruct D as [-> | ->]; [rewrite (no_followers_decision H)|]; eexists; reflexivity.
Qed.

Lemma decision_is_dict st user_id user_info :
  exists d, check_trust_score rt config st user_id user_info = VDict d.
Proof.
  unfold check_trust_score, trust_score_with, trust_score_body, _get_trusted_followers.
  destruct (truthy user_info); cbn [negb]; [|eexists; reflexivity].
  destruct (getitem user_info (lit "username")) as [name|]; cbn [bind except];
    [|eexists; reflexivity].
  destruct name; try (eexists; reflexivity).
  destruct (mem _ _); cbn [except]; [eexists; reflexivity|].
  unfold trust_from_followers.
  destruct (_ <=? _)%Z; [eexists; reflexivity|].
  destruct (_ <? _)%Z; eexists; reflexivity.
Qed.

(** X24: for every analysis that is a dict and every decision of
    [check_trust_score] (with a positive threshold), [generate_report]
    completes its [try] block whenever the username of the analysis can be
    rendered: the report is the composed one, never the error report, it
    is not empty and it has at most 280 code points.  A username that
    cannot be rendered (an integer beyond the digit limit of the
    interpreter) fails in the [try] block and again in the handler, and
    its exception leaves [generate_report]. *)
Theorem report_for_checked_account st user_id user_info d :
  (0 < MIN_TRUSTED_FOLLOWERS config)%Z ->
  let trust_score := check_trust_score rt config st user_id user_info in
  exists username,
    dict_get (VDict d) (lit "username") (vstr "unknown") = Ok username /\
    (forall handle, str rt username = Ok handle ->
       exists report,
         compose rt username (VDict d) trust_score = Ok report /\
         generate_report rt (VDict d) trust_score user_id = Ok report /\
         report <> [] /\ (count report <= 280)%Z) /\
    (forall e, str rt username = Raise e ->
       generate_report rt (VDict d) trust_score user_id = Raise e).
Proof.
  intros H trust_score.
  destruct (status_is_text st user_id user_info H) as [status S]. fold trust_score in S.
  eexists. split; [reflexivity|].
  set (username := match lookup (lit "username") d with
                   | Some x => x | None => vstr "unknown" end).
  split.
  - intros handle R.
    assert (C : exists report, compose rt username (VDict d) trust_score = Ok report).
    { unfold compose, join_values. rewrite R, S. cbn [bind].
      unfold vstr at 1. cbn [all_str bind].
      match goal with
      | |- context [if ?b then _ else _] => destruct b
      end; eexists; reflexivity. }
    destruct C as [report C].
    assert (G : generate_report rt (VDict d) trust_score user_id = Ok report).
    { unfold generate_report. cbn [dict_get]. fold username. rewrite C. reflexivity. }
    exists report. split; [exact C|]. split; [exact G|]. split.
    + exact (proj1 (report_shape rt _ _ _ _ G)).
    + exact (compose_within_budget rt _ _ _ _ C).
  - intros e R. unfold generate_report. cbn [dict_get]. fold username.
    unfold compose, error_report. rewrite R. reflexivity.
Qed.

End TrustDecision.

Lemma default_threshold : (0 < MIN_TRUSTED_FOLLOWERS default_config)%Z.
Proof. reflexivity. Qed.

(** [alice] is on the list of the sample manager. *)
Lemma trusted_iff_listed_witness :
  let decision :=
    TrustedAccountsManager.check_trust_score example_runtime default_config
      Samples.refreshed_at_0 (lit "42") Cases.alice in
  (getitem decision (lit "is_trusted") = Ok (VBool true) <->
   truthy Cases.alice = true /\
   exists s, getitem Cases.alice (lit "username") = Ok (VStr s) /\
             TrustedAccountsManager.mem (str_lower example_runtime s)
               (TrustedAccountsManager.trusted_accounts Samples.refreshed_at_0) = true) /\
  (exists level,
     getitem decision (lit "trust_level") = Ok (AccountAnalyzer.vstr level) /\
     In level ["directly_trusted"; "not_vouched"; "unknown"]%string) /\
  getitem decision (lit "trusted_followers_count") = Ok (VInt 0).
Proof.
  exact (trusted_iff_listed example_runtime default_config Samples.refreshed_at_0
           (lit "42") Cases.alice default_threshold).
Defined.

(** [bob] is not on the list: the status is the one of an unverified
    account. *)
Lemma trust_status_of_decision_witness :
  ReportGenerator._generate_trust_status example_runtime
    (TrustedAccountsManager.check_trust_score example_runtime default_config
       Samples.refreshed_at_0 (lit "7") Samples.user_bob)
  = VStr (ReportGenerator.lines
            [ReportGenerator.CROSS_MARK ++ lit " UNVERIFIED ACCOUNT";
             ReportGenerator.BULLET ++ lit " Not on trusted list";
             ReportGenerator.BULLET ++ lit " No trusted accounts following";
             ReportGenerator.BULLET ++ lit " Requires manual verification"]).
Proof.
  exact (trust_status_of_decision example_runtime default_config Samples.refreshed_at_0
           (lit "7") Samples.user_bob default_threshold).
Defined.

Lemma report_for_checked_account_witness :
  let trust_score :=
    TrustedAccountsManager.check_trust_score example_runtime default_config
      Samples.refreshed_at_0 (lit "7") Samples.user_bob in
  exists username,
    dict_get Samples.user_bob (lit "username") (AccountAnalyzer.vstr "unknown")
      = Ok username /\
    (forall handle, str example_runtime username = Ok handle ->
       exists report,
         ReportGenerator.compose example_runtime username Samples.user_bob trust_score
           = Ok report /\
         ReportGenerator.generate_report example_runtime Samples.user_bob trust_score
           (lit "7") = Ok report /\
         report <> [] /\ (AccountAnalyzer.count report <= 280)%Z) /\
    (forall e, str example_runtime username = Raise e ->
       ReportGenerator.generate_report example_runtime Samples.user_bob trust_score
         (lit "7") = Raise e).
Proof.
  exact (report_for_checked_account example_runtime default_config Samples.refreshed_at_0
           (lit "7") Samples.user_bob _ default_threshold).
Defined.

(** ** The parts of the report *)
Section ReportParts.
Import AccountAnalyzer (item, vstr, count).
Import ReportGenerator.
Local Open Scope string_scope.
Local Open Scope list_scope.

(** X21: the detailed analysis is never the text 'Analysis complete': it
    is the fallback text or a list of at least two findings separated by
    [ | ], the first of which starts with a warning sign, a check mark or a
    siren. *)
Theorem detailed_analysis_never_blank analysis :
  _generate_detailed_analysis analysis <> lit "Analysis complete" /\
  (_generate_detailed_analysis analysis = lit "Analysis details unavailable" \/
   exists symbol rest,
     _generate_detailed_analysis analysis = symbol :: rest /\
     In symbol [0x26A0%N; 0x2705%N; 0x1F6A8%N] /\
     str_in (lit " | ") rest = true).
Proof.
  unfold _generate_detailed_analysis.
  destruct (detailed_analysis_body analysis) as [text|] eqn:E; cbn [except];
    [|split; [discriminate|left; reflexivity]].
  unfold detailed_analysis_body in E. run_body E.
  all: apply Ok_inj in E; subst text.
  all: repeat match goal with
       | |- context [truthy ?v] => destruct (truthy v)
       end.
  all: split; [intros X; vm_compute in X; discriminate X|].
  all: right; eexists _, _; split; [vm_compute; reflexivity|].
  all: split; [cbn; tauto|vm_compute; reflexivity].
Qed.

(** X22: whatever list of parts it is given, [_truncate_report] returns a
    text that is not empty and has at most 280 code points; and when the
    header, the trust status, the risk line, the key metrics and the short
    footer fit in 280 code points, it returns exactly these five lines. *)
Theorem truncate_report_hard_limit parts :
  _truncate_report parts <> [] /\ (count (_truncate_report parts) <= 280)%Z /\
  forall header blank trust risk metrics others,
    parts = VStr header :: blank :: VStr trust :: VStr risk :: VStr metrics :: others ->
    (count (lines [header; trust; risk; metrics; SHORT_FOOTER]) <= 280)%Z ->
    _truncate_report parts = lines [header; trust; risk; metrics; SHORT_FOOTER].
Proof.
  split; [apply truncate_nonempty|]. split; [apply truncate_within_budget|].
  intros header blank trust risk metrics others -> L.
  unfold _truncate_report, truncate_report_body.
  cbn [index nth_error bind join_values all_str].
  fold (lines [header; trust; risk; metrics; SHORT_FOOTER]).
  destruct (Z.ltb_spec 280 (count (lines [header; trust; risk; metrics; SHORT_FOOTER])));
    [lia|].
  cbn [bind except]. unfold slice_to. apply firstn_all2. unfold count in L. lia.
Qed.

(** X23: an error report is its fixed text around the username, between
    44 and 61 code points longer than the username, so that it fits in 280
    code points for every username of at most 219 code points; an error
    type that is none of the three known ones gives the general message. *)
Theorem error_report_length_bound username error_type :
  (count username + 44 <= count (generate_error_report username error_type)
     <= count username + 61)%Z /\
  ((forall known, In known ["user_not_found"; "api_error"; "analysis_failed"] ->
                  error_type <> lit known) ->
   generate_error_report username error_type
   = generate_error_report username (lit "general")).
Proof.
  split.
  - unfold generate_error_report, count.
    repeat match goal with
    | |- context [if ?b then _ else _] => destruct b
    end; rewrite !length_app; cbn [lit List.length map list_ascii_of_string MAGNIFIER]; lia.
  - intros H. unfold generate_error_report.
    destruct (str_eqb error_type (lit "user_not_found")) eqn:E1.
    { apply str_eqb_eq in E1. exfalso. apply (H "user_not_found"); [cbn; tauto|exact E1]. }
    destruct (str_eqb error_type (lit "api_error")) eqn:E2.
    { apply str_eqb_eq in E2. exfalso. apply (H "api_error"); [cbn; tauto|exact E2]. }
    destruct (str_eqb error_type (lit "analysis_failed")) eqn:E3.
    { apply str_eqb_eq in E3. exfalso. apply (H "analysis_failed"); [cbn; tauto|exact E3]. }
    reflexivity.
Qed.

End ReportParts.

(** ** From a trigger to the reply *)
Section Trigger.
Import AccountAnalyzer (item, vstr, count).
Import XMonitor RugguardBot.
Local Open Scope string_scope.
Local Open Scope list_scope.

Lemma reply_text_cases message :
  ((count message <= 280)%Z /\ reply_text message = message) \/
  ((280 < count message)%Z /\ reply_text message = slice_to 275 message ++ lit "...").
Proof.
  unfold reply_text. destruct (Z.ltb_spec 280 (count message)); [right|left]; split;
    first [assumption | reflexivity].
Qed.

Lemma truncated_reply_length message :
  (280 < count message)%Z -> count (slice_to 275 message ++ lit "...") = 278%Z.
Proof.
  intros L. unfold count, slice_to in *. rewrite length_app, length_firstn.
  cbn [lit List.length map list_ascii_of_string]. lia.
Qed.

(** X25: the text [post_reply] hands to the API has at most 280 code
    points: a message of at most 280 code points is sent as it is, and a
    longer one is cut to its first 275 code points followed by an ellipsis,
    278 code points in all; a message that is not empty is never sent
    empty. *)
Theorem reply_text_limit message :
  (count (reply_text message) <= 280)%Z /\
  ((count message <= 280)%Z -> reply_text message = message) /\
  ((280 < count message)%Z ->
     count (reply_text message) = 278%Z /\
     slice_to 275 (reply_text message) = slice_to 275 message) /\
  (message <> [] -> reply_text message <> []).
Proof.
  destruct (reply_text_cases message) as [[L ->]|[L ->]].
  - split; [exact L|]. split; [reflexivity|]. split; [lia|tauto].
  - pose proof (truncated_reply_length message L) as C.
    split; [lia|]. split; [lia|]. split.
    + intros _. split; [exact C|]. unfold slice_to.
      rewrite firstn_app. rewrite firstn_firstn.
      replace (Z.to_nat 275 - List.length (firstn (Z.to_nat 275) message))%nat with 0%nat.
      * cbn [firstn]. rewrite app_nil_r. reflexivity.
      * rewrite length_firstn. unfold count in L. lia.
    + intros _ E. apply app_eq_nil in E. destruct E as [_ E]. discriminate.
Qed.

Variable rt : Runtime.
Variable config : Config.

Lemma analysis_is_dict user_id user_info tweets now now' :
  AccountAnalyzer.analyze_account rt config user_id user_info tweets now now' = VNone \/
  exists d username,
    AccountAnalyzer.analyze_account rt config user_id user_info tweets now now' = VDict d /\
    d <> [] /\
    getitem user_info (lit "username") = Ok username /\
    dict_get (VDict d) (lit "username") (vstr "unknown") = Ok username.
Proof.
  unfold AccountAnalyzer.analyze_account, AccountAnalyzer.analyze_account_body.
  destruct (truthy user_info); cbn [negb except]; [|left; reflexivity].
  destruct (getitem user_info (lit "username")) as [username|];
    cbn [bind except]; [|left; reflexivity].
  repeat match goal with
  | |- context [bind (getitem user_info (lit ?k)) _] =>
      destruct (getitem user_info (lit k)); cbn [bind except]; [|left; reflexivity]
  end.
  right. eexists _, username. split; [reflexivity|]. split; [discriminate|].
  split; reflexivity.
Qed.

(** A report for a dict, or a username that cannot be rendered. *)
Lemma report_or_unrendered d trust_score user_id username :
  dict_get (VDict d) (lit "username") (vstr "unknown") = Ok username ->
  (exists report handle,
     ReportGenerator.generate_report rt (VDict d) trust_score user_id = Ok report /\
     report <> [] /\ str rt username = Ok handle) \/
  (exists e e',
     ReportGenerator.generate_report rt (VDict d) trust_score user_id = Raise e /\
     str rt username = Raise e').
Proof.
  intros U.
  pose proof (generate_report_raises_iff rt (VDict d) trust_score user_id) as I.
  destruct (str rt username) as [handle|e'] eqn:R.
  - left.
    destruct (ReportGenerator.generate_report rt (VDict d) trust_score user_id)
      as [report|e] eqn:G.
    + exists report, handle. split; [reflexivity|].
      split; [exact (proj1 (report_shape rt _ _ _ _ G))|reflexivity].
    + exfalso. destruct (proj1 I (ex_intro _ e eq_refl)) as [F|(u & e' & U' & R')].
      * exact (F d eq_refl).
      * rewrite U in U'. injection U' as <-. congruence.
  - right. destruct (proj2 I) as [e G].
    + right. exists username, e'. split; assumption.
    + exists e, e'. split; [exact G|reflexivity].
Qed.

(** X26: whatever the platform answers and whatever the trusted set and
    the configuration are, a text [process_trigger] hands to the API is not
    empty and has at most 280 code points, the error report of
    [generate_report] for an overlong handle included. *)
Theorem reply_always_fits st x now now' trigger_tweet_id original_author_id reply :
  sent (process_trigger rt config st x now now' trigger_tweet_id original_author_id)
    = Some reply ->
  reply <> [] /\ (count reply <= 280)%Z.
Proof.
  unfold process_trigger.
  destruct (analysis_is_dict original_author_id (info_for_analysis x) (timeline x) now now')
    as [->|(d & username & -> & N & _ & U)]; [discriminate|].
  assert (T : truthy (VDict d) = true) by (destruct d; [congruence|reflexivity]).
  rewrite T. cbn [negb].
  destruct (report_or_unrendered d
              (TrustedAccountsManager.check_trust_score rt config st original_author_id
                 (info_for_trust x)) original_author_id username U)
    as [(report & handle & -> & R & _)|(e & e' & -> & _)]; [|discriminate].
  cbn [sent]. intros [= <-].
  destruct (reply_text_cases report) as [[L ->]|[L ->]].
  - split; assumption.
  - split.
    + intros E. apply app_eq_nil in E. destruct E as [_ E]. discriminate.
    + rewrite (truncated_reply_length report L). lia.
Qed.

(** X27: [process_trigger] hands a reply to the API exactly when the
    account could be analysed and the username of its snapshot can be
    rendered (every string can; an integer beyond the digit limit of the
    interpreter cannot, and then [generate_report] raises), and it returns
    [True] exactly when the API answered that reply with data; no failure
    of the trust check and no other failure of the report makes it give
    up. *)
Theorem process_trigger_outcome st x now now' trigger_tweet_id original_author_id :
  let o := process_trigger rt config st x now now' trigger_tweet_id original_author_id in
  (sent o = None <->
   AccountAnalyzer.analyze_account rt config original_author_id
     (info_for_analysis x) (timeline x) now now' = VNone \/
   exists username e,
     getitem (info_for_analysis x) (lit "username") = Ok username /\
     str rt username = Raise e) /\
  (succeeded o = true <->
   exists reply data,
     sent o = Some reply /\ create_tweet x reply trigger_tweet_id = Ok data /\
     truthy data = true).
Proof.
  cbn zeta. unfold process_trigger.
  destruct (analysis_is_dict original_author_id (info_for_analysis x) (timeline x) now now')
    as [->|(d & username & -> & N & I & U)].
  - cbn [truthy negb sent succeeded]. split; [tauto|].
    split; [discriminate|intros (reply & data & [=] & _)].
  - assert (T : truthy (VDict d) = true) by (destruct d; [congruence|reflexivity]).
    rewrite T. cbn [negb].
    destruct (report_or_unrendered d
                (TrustedAccountsManager.check_trust_score rt config st original_author_id
                   (info_for_trust x)) original_author_id username U)
      as [(report & handle & -> & R & S)|(e & e' & -> & S)].
    + cbn [sent succeeded]. split.
      * split; [discriminate|].
        intros [E|(u & e & I' & S')]; [discriminate|].
        rewrite I in I'. injection I' as <-. congruence.
      * destruct (decision_is_dict rt config st original_author_id (info_for_trust x))
          as [t ->].
        unfold post_reply. cbn [dict_get bind except].
        destruct (create_tweet x (reply_text report) trigger_tweet_id) as [data|e] eqn:C;
          cbn [bind except].
        -- destruct (truthy data) eqn:D.
           ++ split; [intros _; exists (reply_text report), data; auto|reflexivity].
           ++ split; [discriminate|].
              intros (reply & data' & [= <-] & C' & D'). congruence.
        -- split; [discriminate|]. intros (reply & data' & [= <-] & C' & _). congruence.
    + cbn [sent succeeded]. split.
      * split; [|reflexivity]. intros _. right. exists username, e'. split; assumption.
      * split; [discriminate|intros (reply & data & [=] & _)].
Qed.

End Trigger.

(** The reply to a trigger about [alice]. *)
Lemma reply_always_fits_witness :
  Cases.sample_reply <> [] /\ (AccountAnalyzer.count Cases.sample_reply <= 280)%Z.
Proof.
  apply (reply_always_fits example_runtime default_config Samples.refreshed_at_0
           Cases.platform Cases.today Cases.today 7 (lit "42") Cases.sample_reply).
  vm_compute. reflexivity.
Defined.

(** ** Triggers are reported once *)
Section Triggers.
Import AccountAnalyzer (item, vstr, count).
Import XMonitor Shapes.
Local Open Scope string_scope.
Local Open Scope list_scope.

Variable rt : Runtime.
Variable TRIGGER_PHRASE : pystr.
Variable get_tweet : Z -> result value.

Lemma trigger_info_id tweet :
  truthy (_extract_trigger_info get_tweet tweet) = true ->
  reported (_extract_trigger_info get_tweet tweet) = Ok (VInt (id tweet)).
Proof.
  unfold _extract_trigger_info, reported.
  destruct (replied_to (referenced_tweets tweet)) as [ref|].
  - destruct (ref =? 0)%Z; [discriminate|].
    destruct (get_tweet ref) as [author|]; [|discriminate].
    destruct (truthy author); [reflexivity|discriminate].
  - discriminate.
Qed.

Lemma processed_In i processed :
  existsb (Z.eqb i) processed = true <-> In i processed.
Proof.
  rewrite existsb_exists. split.
  - intros (x & H & E). apply Z.eqb_eq in E. subst. exact H.
  - intros H. exists i. split; [exact H|apply Z.eqb_refl].
Qed.

Lemma scan_reports_once seen tweets triggers processed :
  reported_once seen triggers processed ->
  reported_once seen
    (fst (scan rt TRIGGER_PHRASE get_tweet tweets triggers processed))
    (snd (scan rt TRIGGER_PHRASE get_tweet tweets triggers processed)).
Proof.
  revert triggers processed.
  induction tweets as [|[tweet now] rest IH]; intros triggers processed C; [exact C|].
  cbn [scan].
  destruct (existsb (Z.eqb (id tweet)) processed) eqn:P; [apply IH, C|].
  destruct (_is_valid_trigger rt TRIGGER_PHRASE tweet now); [|apply IH, C].
  destruct (truthy (_extract_trigger_info get_tweet tweet)) eqn:T; [|apply IH, C].
  apply IH. destruct C as (D & G & R).
  assert (F : ~ In (id tweet) processed).
  { intros I. apply processed_In in I. congruence. }
  pose proof (trigger_info_id tweet T) as K.
  split; [|split].
  - rewrite map_app. cbn [map]. apply NoDup_app.
    + exact D.
    + repeat constructor. intros [].
    + intros key I [<-|[]]. apply in_map_iff in I. destruct I as (t & E & I).
      destruct (R t I) as (i & Ei & Pi & _). rewrite K in E. rewrite Ei in E.
      injection E as ->. contradiction.
  - intros i I. apply in_or_app. left. apply G, I.
  - intros t I. apply in_app_or in I. destruct I as [I|[<-|[]]].
    + destruct (R t I) as (i & Ei & Pi & Si). exists i.
      split; [exact Ei|]. split; [apply in_or_app; left; exact Pi|exact Si].
    + exists (id tweet). split; [exact K|].
      split; [apply in_or_app; right; left; reflexivity|].
      intros I. apply F, G, I.
Qed.

(** X28: the triggers one call of [check_for_triggers] returns report
    distinct tweets, none of which was marked as processed before the call
    and all of which are marked afterwards, and no mark is ever removed:
    a later call never reports the same tweet again, whatever the search
    returns. *)
Theorem triggers_reported_once m search now' :
  let found := check_for_triggers rt TRIGGER_PHRASE m search get_tweet now' in
  NoDup (map (fun trigger => getitem trigger (lit "trigger_tweet_id")) (fst found)) /\
  (forall i, In i (processed_tweets m) -> In i (processed_tweets (snd found))) /\
  (forall trigger, In trigger (fst found) ->
     exists i, getitem trigger (lit "trigger_tweet_id") = Ok (VInt i) /\
               In i (processed_tweets (snd found)) /\
               ~ In i (processed_tweets m)).
Proof.
  cbn zeta. unfold check_for_triggers.
  assert (E : reported_once (processed_tweets m) [] (processed_tweets m)).
  { split; [constructor|]. split; [auto|]. intros t []. }
  destruct search as [[|first rest]|e]; try exact E.
  pose proof (scan_reports_once (processed_tweets m) (first :: rest) []
                (processed_tweets m) E) as C.
  destruct (scan rt TRIGGER_PHRASE get_tweet (first :: rest) [] (processed_tweets m))
    as [triggers processed].
  exact C.
Qed.

End Triggers.

(** ** The credentials *)
Section Credentials.
Local Open Scope string_scope.
Local Open Scope list_scope.

(** X29: the configuration is valid exactly when none of the five
    credentials it hands out is empty; otherwise the fields reported as
    missing are fields whose value is empty. *)
Theorem validate_iff_credentials_present c :
  (validate c = true <->
   forall key secret,
     getitem (get_api_credentials c) key = Ok (VStr secret) -> secret <> []) /\
  (validate c = false <-> missing_fields c <> []) /\
  (forall name, In name (missing_fields c) ->
     exists secret, In (name, secret) (required_fields c) /\ secret = []).
Proof.
  split; [|split].
  - unfold validate, missing_fields, required_fields, get_api_credentials.
    destruct c as [k s a t b]. cbn [X_API_KEY X_API_SECRET X_ACCESS_TOKEN
      X_ACCESS_TOKEN_SECRET X_BEARER_TOKEN filter snd map fst]. split.
    + intros H key secret G. cbn [getitem lookup] in G.
      repeat match type of G with
      | context [if str_eqb key ?l then _ else _] =>
          destruct (str_eqb key l)
      end; try discriminate; injection G as <-;
      destruct k, s, a, t, b; try discriminate.
    + intros H.
      assert (K : k <> []) by (apply (H (lit "consumer_key")); reflexivity).
      assert (S : s <> []) by (apply (H (lit "consumer_secret")); reflexivity).
      assert (A : a <> []) by (apply (H (lit "access_token")); reflexivity).
      assert (T : t <> []) by (apply (H (lit "access_token_secret")); reflexivity).
      assert (B : b <> []) by (apply (H (lit "bearer_token")); reflexivity).
      destruct k, s, a, t, b; try congruence. reflexivity.
  - unfold validate. destruct (missing_fields c); split; congruence.
  - intros name I. unfold missing_fields in I. apply in_map_iff in I.
    destruct I as ([n secret] & <- & I). apply filter_In in I. destruct I as [I E].
    exists secret. split; [exact I|]. cbn [snd] in E.
    destruct secret; [reflexivity|discriminate].
Qed.

End Credentials.
